(** * University Performance Analyzer: grading and analytics core

  A shallow embedding of [src/config.py], [src/grading.py],
  [src/analytics.py], [src/data_loader.py] and the numeric validators of
  [src/models.py]; the properties of the specification checked against
  it, and further properties read off the code.

  Numbers.  Python floats and ints are modelled by exact rationals [Q];
  the missing-value marker NaN is a constructor of its own wherever the
  code tests for it.  Rounding error and infinities are outside the model.
  Results that Python compares with [==] on floats are compared with
  [Qeq] here. *)

From Stdlib Require Import List String Ascii Bool ZArith QArith Qround Lia Lqa
Permutation Sorted.
Import ListNotations.

Set Warnings "-register-all".

Local Open Scope Q_scope.
Local Open Scope list_scope.

(** ** Python-level helpers *)

Module Py.

(** A call either returns or raises; the payload names the exception. *)
Inductive result (A : Type) : Type :=
| Ok (a : A)
| Raise (exn : string).
Arguments Ok {A} a.
Arguments Raise {A} exn.

Definition bind {A B} (r : result A) (k : A -> result B) : result B :=
  match r with
  | Ok a => k a
  | Raise e => Raise e
  end.

(** [try: body except Exception as e: raise ValueError(prefix + str(e))]. *)
Definition reraise_as {A} (prefix : string) (r : result A) : result A :=
  match r with
  | Ok a => Ok a
  | Raise e => Raise (prefix ++ e)%string
  end.

(** [d.get(k)] / [k in d] on a dict kept in insertion order. *)
Fixpoint lookup {V} (k : string) (d : list (string * V)) : option V :=
  match d with
  | [] => None
  | (k', v) :: d' => if String.eqb k k' then Some v else lookup k d'
  end.

Definition contains {V} (k : string) (d : list (string * V)) : bool :=
  match lookup k d with Some _ => true | None => false end.

(** Round half to even, the tie rule of the built-in [round]. *)
Definition round_half_even (q : Q) : Z :=
  let f := Qfloor q in
  match Qcompare (q - inject_Z f) (1 # 2) with
  | Lt => f
  | Gt => (f + 1)%Z
  | Eq => if Z.even f then f else (f + 1)%Z
  end.

(** [round(x, ndigits)] for [ndigits >= 0]. *)
Definition round (q : Q) (ndigits : nat) : Q :=
  let scale := Z.pow 10 (Z.of_nat ndigits) in
  Qmake (round_half_even (q * inject_Z scale)) (Z.to_pos scale).

(** [l[:n]] with Python's reading of a negative bound. *)
Definition slice_to {A} (n : Z) (l : list A) : list A :=
  if (0 <=? n)%Z then firstn (Z.to_nat n) l
  else firstn (List.length l - Z.to_nat (- n)) l.

(** [sum(l)] and [mean] of a list of numbers. *)
Definition sum (l : list Q) : Q := fold_left Qplus l 0.

Definition mean (l : list Q) : Q := sum l / inject_Z (Z.of_nat (List.length l)).

(** [for x in xs: out.append(f(x))] where [f] may raise. *)
Section Collect.

Context {X Y : Type} (f : X -> result Y).

Fixpoint collect (xs : list X) : result (list Y) :=
  match xs with
  | [] => Ok []
  | x :: xs' => bind (f x) (fun y => bind (collect xs') (fun ys =>
                Ok (y :: ys)))
  end.

End Collect.

End Py.

Import Py.

(** ** [src/config.py] *)

Module Config.

Local Open Scope string_scope.

(** A boundary value is a two-element sequence; the built-in tables hold
    tuples, a table read back from YAML holds lists. *)
Inductive seq_kind : Type := PyTuple | PyList.

Record bound : Type := mkBound
  { kind : seq_kind; min_bound : Q; max_bound : Q }.

Definition tup (lo hi : Q) : bound := mkBound PyTuple lo hi.

Definition mappings : Type := list (string * Q).
Definition boundaries : Type := list (string * bound).

Definition DEFAULT_GRADE_MAPPINGS : list (string * mappings) :=
  [ ("4.0",
      [ ("A+", 4.0); ("A", 4.0); ("A-", 3.7);
        ("B+", 3.3); ("B", 3.0); ("B-", 2.7);
        ("C+", 2.3); ("C", 2.0); ("C-", 1.7);
        ("D+", 1.3); ("D", 1.0); ("F", 0.0) ]);
    ("100",
      [ ("A+", 95); ("A", 90); ("A-", 85);
        ("B+", 80); ("B", 75); ("B-", 70);
        ("C+", 65); ("C", 60); ("C-", 55);
        ("D+", 50); ("D", 45); ("F", 0) ]) ].

Definition GRADE_BOUNDARIES : list (string * boundaries) :=
  [ ("4.0",
      [ ("A+", tup 97 100); ("A", tup 93 96); ("A-", tup 90 92);
        ("B+", tup 87 89); ("B", tup 83 86); ("B-", tup 80 82);
        ("C+", tup 77 79); ("C", tup 73 76); ("C-", tup 70 72);
        ("D+", tup 67 69); ("D", tup 63 66); ("F", tup 0 62) ]);
    ("100",
      [ ("A+", tup 95 100); ("A", tup 90 94); ("A-", tup 85 89);
        ("B+", tup 80 84); ("B", tup 75 79); ("B-", tup 70 74);
        ("C+", tup 65 69); ("C", tup 60 64); ("C-", tup 55 59);
        ("D+", tup 50 54); ("D", tup 45 49); ("F", tup 0 44) ]) ].

(** [DEFAULT_GRADE_MAPPINGS.get(scale, DEFAULT_GRADE_MAPPINGS["4.0"])] *)
Definition get_grade_mapping (scale : string) : mappings :=
  match lookup scale DEFAULT_GRADE_MAPPINGS with
  | Some m => m
  | None =>
      match lookup "4.0" DEFAULT_GRADE_MAPPINGS with
      | Some m => m
      | None => []
      end
  end.

(** [GRADE_BOUNDARIES.get(scale, GRADE_BOUNDARIES["4.0"])] *)
Definition get_grade_boundaries (scale : string) : boundaries :=
  match lookup scale GRADE_BOUNDARIES with
  | Some b => b
  | None =>
      match lookup "4.0" GRADE_BOUNDARIES with
      | Some b => b
      | None => []
      end
  end.

End Config.

Import Config.

(** ** [src/grading.py]: the grade scale *)

Module Grading.

Local Open Scope string_scope.

Record GradeScale : Type := mkGradeScale
  { scale_type : string;
    grade_mappings : mappings;
    grade_boundaries : boundaries;
    passing_grade : string }.

(** The keys of [custom_config] that [_apply_custom_config] reads. *)
Record CustomConfig : Type := mkCustomConfig
  { cfg_grade_mappings : option mappings;
    cfg_grade_boundaries : option boundaries;
    cfg_passing_grade : option string }.

Definition _apply_custom_config (self : GradeScale) (config : CustomConfig)
  : GradeScale :=
  let self1 :=
    match cfg_grade_mappings config with
    | Some m => mkGradeScale (scale_type self) m (grade_boundaries self)
                  (passing_grade self)
    | None => self
    end in
  let self2 :=
    match cfg_grade_boundaries config with
    | Some b => mkGradeScale (scale_type self1) (grade_mappings self1) b
                  (passing_grade self1)
    | None => self1
    end in
  match cfg_passing_grade config with
  | Some p => mkGradeScale (scale_type self2) (grade_mappings self2)
                (grade_boundaries self2) p
  | None => self2
  end.

(** [GradeScale.__init__]; [custom_config = None] (or an empty dict, which
    is falsy as well) leaves the preset untouched. *)
Definition init (scale_type : string) (custom_config : option CustomConfig)
  : GradeScale :=
  let self := mkGradeScale scale_type (get_grade_mapping scale_type)
                (get_grade_boundaries scale_type) "D" in
  match custom_config with
  | Some config => _apply_custom_config self config
  | None => self
  end.

(** What [marks_to_grade] may be handed: an int or float, NaN, or an
    object that is neither ([None], a string). *)
Inductive mark : Type :=
| MNum (q : Q)
| MNaN
| MOther.

(** The [for grade, (min_bound, max_bound) in ...items()] loop: the first
    range containing [m] wins. *)
Fixpoint first_match (bs : boundaries) (m : Q) : option string :=
  match bs with
  | [] => None
  | (grade, b) :: bs' =>
      if Qle_bool (min_bound b) m && Qle_bool m (max_bound b)
      then Some grade
      else first_match bs' m
  end.

Definition marks_to_grade (self : GradeScale) (marks : mark) : string :=
  match marks with
  | MNum m =>
      match first_match (grade_boundaries self) m with
      | Some grade => grade
      | None => "F"
      end
  | MNaN | MOther => "F"
  end.

Definition grade_to_points (self : GradeScale) (grade : string) : Q :=
  if String.eqb grade "" then 0.0
  else match lookup grade (grade_mappings self) with
       | Some p => p
       | None => 0.0
       end.

Definition marks_to_points (self : GradeScale) (marks : mark) : Q :=
  let grade := marks_to_grade self marks in
  grade_to_points self grade.

Definition is_passing_grade (self : GradeScale) (grade : string) : bool :=
  if String.eqb grade "" then false
  else if contains (passing_grade self) (grade_boundaries self)
       then Qle_bool (grade_to_points self (passing_grade self))
              (grade_to_points self grade)
       else negb (String.eqb grade "F").

(** One element of [student_records] in [compute_student_gpa]: a dict in
    which either key may be missing. *)
Record RecordDict : Type := mkRecordDict
  { get_Marks : option Q;
    get_CreditHours : option Q }.

(** The accumulation loop shared by [compute_student_gpa] and
    [analytics._calculate_student_gpa]; the state is
    [(total_points, total_credits)]. *)
Definition gpa_step (scale : GradeScale) (acc : Q * Q) (rec : Q * Q)
  : Q * Q :=
  let '(total_points, total_credits) := acc in
  let '(marks, credits) := rec in
  if Qlt_le_dec 0 credits
  then (total_points + marks_to_points scale (MNum marks) * credits,
        total_credits + credits)
  else acc.

Definition gpa_loop (scale : GradeScale) (recs : list (Q * Q)) : Q * Q :=
  fold_left (gpa_step scale) recs (0.0, 0.0).

(** The guard [credits > 0] of the loop, on a [(marks, credits)] pair. *)
Definition positive_credits (rec : Q * Q) : bool :=
  if Qlt_le_dec 0 (snd rec) then true else false.

Definition gpa_result (acc : Q * Q) : Q :=
  let '(total_points, total_credits) := acc in
  if Qeq_bool total_credits 0 then 0.0
  else round (total_points / total_credits) 3.

Definition compute_student_gpa (student_records : list RecordDict)
  (scale : GradeScale) : Q :=
  match student_records with
  | [] => 0.0
  | _ =>
      gpa_result
        (gpa_loop scale
           (map (fun record =>
                   (match get_Marks record with Some m => m | None => 0 end,
                    match get_CreditHours record with
                    | Some c => c
                    | None => 0
                    end))
                student_records))
  end.

Definition create_custom_grade_scale (scale_name : string)
  (grade_mappings : mappings) (grade_boundaries : boundaries)
  (passing_grade : string) : GradeScale :=
  init "custom"
    (Some (mkCustomConfig (Some grade_mappings) (Some grade_boundaries)
             (Some passing_grade))).

Definition DEFAULT_4_0_SCALE : GradeScale := init "4.0" None.
Definition DEFAULT_100_SCALE : GradeScale := init "100" None.

End Grading.

Import Grading.

(** ** Data frames

  A frame of course records: the columns it carries and its rows.  A row
  stores a value for each of the eight columns of the schema; the value of
  a column the frame does not carry is never read.  String columns hold
  strings and numeric columns hold finite numbers, which is what
  [load_csv] hands on once [coerce_data_types] has run. *)

Module Frame.

Inductive column : Type :=
| StudentID | Name | Department | Semester
| CourseCode | CourseName | CreditHours | Marks.

Definition column_eqb (a b : column) : bool :=
  match a, b with
  | StudentID, StudentID | Name, Name | Department, Department
  | Semester, Semester | CourseCode, CourseCode | CourseName, CourseName
  | CreditHours, CreditHours | Marks, Marks => true
  | _, _ => false
  end.

Record Row : Type := mkRow
  { student_id : string;
    name : string;
    department : string;
    semester : string;
    course_code : string;
    course_name : string;
    credit_hours : Q;
    marks : Q }.

Record DataFrame : Type := mkFrame
  { columns : list column;
    rows : list Row }.

(** [df.empty]: some axis has length zero. *)
Definition empty (df : DataFrame) : bool :=
  match columns df, rows df with
  | [], _ => true
  | _, [] => true
  | _, _ => false
  end.

(** [c in df.columns] *)
Definition has (c : column) (df : DataFrame) : bool :=
  existsb (column_eqb c) (columns df).

(** [df[df[col] == v]] for a string column read by [sel]. *)
Definition where_eq (sel : Row -> string) (v : string) (df : DataFrame)
  : DataFrame :=
  mkFrame (columns df) (filter (fun r => String.eqb (sel r) v) (rows df)).

(** [Series.unique()]: the distinct values in order of first appearance. *)
Fixpoint unique (l : list string) : list string :=
  match l with
  | [] => []
  | x :: l' => x :: filter (fun y => negb (String.eqb y x)) (unique l')
  end.

(** [series.iloc[0]] *)
Definition iloc0 {A} (l : list A) : result A :=
  match l with
  | x :: _ => Ok x
  | [] => Raise "single positional indexer is out-of-bounds"
  end.

(** [series.idxmax()] followed by [.loc]: the first row holding the
    maximum. *)
Fixpoint first_max (key : Row -> Q) (best : Row) (l : list Row) : Row :=
  match l with
  | [] => best
  | r :: l' =>
      if Qlt_le_dec (key best) (key r) then first_max key r l'
      else first_max key best l'
  end.

Definition idxmax (key : Row -> Q) (l : list Row) : result Row :=
  match l with
  | r :: l' => Ok (first_max key r l')
  | [] => Raise "attempt to get argmax of an empty sequence"
  end.

End Frame.

Import Frame.

(** ** [list.sort(key=..., reverse=True)]

  Python's sort is stable, also under [reverse=True]; the result of a
  stable sort is determined by the input, so an insertion sort stands for
  it. *)

Section StableSort.

Context {A : Type} (key : A -> Q).

(** Put [x] in front of the first element whose key is not greater. *)
Fixpoint insert_desc (x : A) (l : list A) : list A :=
  match l with
  | [] => [x]
  | y :: l' =>
      if Qlt_le_dec (key x) (key y) then y :: insert_desc x l'
      else x :: y :: l'
  end.

Definition sort_desc (l : list A) : list A :=
  fold_right insert_desc [] l.

(** The order of the result, and the test for one value of the key. *)
Definition desc (a b : A) : Prop := key b <= key a.

Definition has_key (k : Q) (a : A) : bool := Qeq_bool (key a) k.

End StableSort.

(** ** [src/analytics.py] *)

Module Analytics.

Local Open Scope string_scope.

Definition _calculate_student_gpa (student_records : DataFrame)
  (scale : GradeScale) : Q :=
  if empty student_records
     || negb (has Marks student_records)
     || negb (has CreditHours student_records)
  then 0.0
  else gpa_result
         (gpa_loop scale
            (map (fun record => (marks record, credit_hours record))
               (rows student_records))).

(** The distinct students of a frame, in the order they are met. *)
Definition students (df : DataFrame) : list string :=
  if has StudentID df then unique (map student_id (rows df)) else [].

(** The closed interval a GPA on a 4.0 scale belongs to. *)
Definition in_range (q : Q) : Prop := 0 <= q <= 4.

(** The loop every aggregate view runs, one GPA per distinct student:
    [for student_id in df['StudentID'].unique(): ... gpas.append(gpa)].
    Reading a column the frame does not carry raises [KeyError]. *)
Definition per_student_gpas (df : DataFrame) (scale : GradeScale)
  : result (list Q) :=
  if has StudentID df
  then Ok (map (fun sid =>
                  _calculate_student_gpa (where_eq student_id sid df) scale)
             (unique (map student_id (rows df))))
  else Raise "'StudentID'".

(** [np.median]: the middle of the sorted values, or the mean of the two
    middle ones. *)
Definition median (l : list Q) : Q :=
  let s := sort_desc (fun x => x) l in
  let n := List.length l in
  if Nat.even n
  then (nth (n / 2 - 1) s 0 + nth (n / 2) s 0) / 2
  else nth (n / 2) s 0.

(** The block computing [average_gpa] and [median_gpa], with their final
    rounding, that [cohort_summary] runs on [df] (once [df.empty] is ruled
    out) and [department_analysis] and [semester_analysis] run on the rows
    of one department or semester. *)
Definition average_median_gpa (df : DataFrame) (scale : option GradeScale)
  : result (Q * Q) :=
  let proxy :=
    if has Marks df
    then (mean (map marks (rows df)) / 25, median (map marks (rows df)) / 25)
    else (0.0, 0.0) in
  bind
    (match scale with
     | Some sc =>
         if has Marks df && has CreditHours df
         then bind (per_student_gpas df sc) (fun student_gpas =>
              match student_gpas with
              | [] => Ok (0.0, 0.0)
              | _ => Ok (mean student_gpas, median student_gpas)
              end)
         else Ok proxy
     | None => Ok proxy
     end)
    (fun am => Ok (round (fst am) 3, round (snd am) 3)).

Record StudentInfo : Type := mkStudentInfo
  { si_student_id : string;
    si_name : string;
    si_department : string;
    si_semester : string;
    si_gpa : Q;
    si_total_credits : Q;
    si_courses_count : nat }.

(** [student_records[col].iloc[0] if col in student_records.columns
    else 'Unknown'] *)
Definition first_or_unknown (c : column) (sel : Row -> string)
  (df : DataFrame) : result string :=
  if has c df then bind (iloc0 (rows df)) (fun r => Ok (sel r))
  else Ok "Unknown".

Definition student_entry (df : DataFrame) (scale : option GradeScale)
  (sid : string) : result StudentInfo :=
  let student_records := where_eq student_id sid df in
  let gpa :=
    match scale with
    | Some sc =>
        if has Marks student_records && has CreditHours student_records
        then _calculate_student_gpa student_records sc
        else if has Marks student_records
             then mean (map marks (rows student_records)) / 25
             else 0
    | None =>
        if has Marks student_records
        then mean (map marks (rows student_records)) / 25
        else 0
    end in
  bind (first_or_unknown Name name student_records) (fun nm =>
  bind (first_or_unknown Department department student_records) (fun dp =>
  bind (first_or_unknown Semester semester student_records) (fun sm =>
  Ok (mkStudentInfo sid nm dp sm (round gpa 3)
        (if has CreditHours student_records
         then sum (map credit_hours (rows student_records))
         else 0)
        (List.length (rows student_records)))))).

Definition top_n_students (df : DataFrame) (n : Z)
  (scale : option GradeScale) : result (list StudentInfo) :=
  reraise_as "Error computing top students: "
    (if empty df || negb (has StudentID df) then Ok []
     else
       bind (collect (student_entry df scale)
               (unique (map student_id (rows df))))
         (fun student_gpas =>
            Ok (slice_to n (sort_desc si_gpa student_gpas)))).

Record SubjectStat : Type := mkSubjectStat
  { ss_course_code : string;
    ss_course_name : string;
    ss_department : string;
    ss_total_students : nat;
    ss_average_marks : Q;
    ss_pass_rate : Q;
    ss_top_scorer : option string;
    ss_top_score : option Q;
    ss_credit_hours : Q }.

(** [(course_df['Marks'] >= threshold).sum()] *)
Definition count_at_least (threshold : Q) (l : list Q) : nat :=
  List.length (filter (fun m => Qle_bool threshold m) l).

Definition subject_entry (df : DataFrame) (scale : option GradeScale)
  (code : string) : result SubjectStat :=
  let course_df := where_eq course_code code df in
  let total_students := List.length (rows course_df) in
  let average_marks :=
    if has Marks course_df then mean (map marks (rows course_df)) else 0 in
  let passing_students :=
    match scale with
    | Some sc =>
        if has Marks course_df
        then count_at_least (grade_to_points sc (passing_grade sc) * 25)
               (map marks (rows course_df))
        else 0%nat
    | None =>
        if has Marks course_df
        then count_at_least 60 (map marks (rows course_df))
        else 0%nat
    end in
  let pass_rate :=
    if (0 <? total_students)%nat
    then inject_Z (Z.of_nat passing_students)
         / inject_Z (Z.of_nat total_students) * 100
    else 0 in
  bind (if has CourseName course_df
        then bind (iloc0 (rows course_df)) (fun r => Ok (course_name r))
        else Ok code) (fun cname =>
  bind (first_or_unknown Department department course_df) (fun dept =>
  bind (if has CreditHours course_df
        then bind (iloc0 (rows course_df)) (fun r => Ok (credit_hours r))
        else Ok 0) (fun credits =>
  bind (if has Marks course_df && has Name course_df
        then bind (idxmax marks (rows course_df)) (fun r =>
             Ok (Some (name r), Some (marks r)))
        else Ok (None, None)) (fun top =>
  Ok (mkSubjectStat code cname dept total_students
        (round average_marks 2) (round pass_rate 2)
        (fst top)
        (match snd top with
         | Some s => Some (round s 2)
         | None => None
         end)
        (round credits 1)))))).

Definition subject_stats (df : DataFrame) (scale : option GradeScale)
  : result (list SubjectStat) :=
  reraise_as "Error computing subject statistics: "
    (if empty df || negb (has CourseCode df) then Ok []
     else
       bind (collect (subject_entry df scale)
               (unique (map course_code (rows df))))
         (fun subject_stats_list =>
            Ok (sort_desc ss_average_marks subject_stats_list))).

End Analytics.

Import Analytics.

(** ** [GradeScale.export_config] and [GradeScale.from_yaml]

    [yaml.dump] turns the configuration into a node graph (the Dumper's
    representer) and writes it out; [yaml.safe_load] reads the text back
    into the same node graph and rebuilds Python values from it (the
    SafeLoader's constructor).  The text in between is not modelled: the
    emitter and the parser are inverse to each other on node graphs.  What
    is modelled is which tags the representer of [yaml.dump] writes and
    which tags the constructor of [yaml.safe_load] accepts. *)

Module Persistence.

Local Open Scope string_scope.

(** The Python values a configuration is made of. *)
Inductive pyval : Type :=
| PStr (s : string)
| PNum (q : Q)
| PSeq (k : seq_kind) (items : list pyval)
| PDict (items : list (string * pyval)).

Inductive tag : Type :=
| TagSeq           (* tag:yaml.org,2002:seq *)
| TagPythonTuple.  (* tag:yaml.org,2002:python/tuple *)

Inductive node : Type :=
| NStr (s : string)
| NNum (q : Q)
| NSeq (t : tag) (items : list node)
| NMap (items : list (string * node)).

(** [yaml.dump] sorts mapping keys ([sort_keys=True] is its default). *)
Fixpoint insert_key {V} (kv : string * V) (l : list (string * V))
  : list (string * V) :=
  match l with
  | [] => [kv]
  | kv' :: l' =>
      match String.compare (fst kv) (fst kv') with
      | Gt => kv' :: insert_key kv l'
      | _ => kv :: kv' :: l'
      end
  end.

Definition sort_keys {V} (l : list (string * V)) : list (string * V) :=
  fold_right insert_key [] l.

(** A function on the values of a mapping, applied to one item. *)
Definition on_values {V W} (h : V -> W) (kv : string * V) : string * W :=
  (fst kv, h (snd kv)).

(** The representer of the default [Dumper]: a list becomes a plain
    sequence, a tuple a sequence tagged [python/tuple]. *)
Fixpoint represent (v : pyval) : node :=
  match v with
  | PStr s => NStr s
  | PNum q => NNum q
  | PSeq PyList items => NSeq TagSeq (map represent items)
  | PSeq PyTuple items => NSeq TagPythonTuple (map represent items)
  | PDict items =>
      NMap (sort_keys (map (fun kv => (fst kv, represent (snd kv))) items))
  end.

(** The message of the [ConstructorError] of [yaml.safe_load]. *)
Definition tuple_error : string :=
  "could not determine a constructor for the tag 'tag:yaml.org,2002:python/tuple'".

(** The constructor of the [SafeLoader]: it knows the standard YAML tags
    only. *)
Fixpoint construct (n : node) : result pyval :=
  match n with
  | NStr s => Ok (PStr s)
  | NNum q => Ok (PNum q)
  | NSeq TagSeq items =>
      bind (collect construct items) (fun vs => Ok (PSeq PyList vs))
  | NSeq TagPythonTuple _ => Raise tuple_error
  | NMap items =>
      bind (collect (fun kv => bind (construct (snd kv)) (fun v =>
                               Ok (fst kv, v))) items)
        (fun kvs => Ok (PDict kvs))
  end.

Definition mappings_to_py (m : mappings) : pyval :=
  PDict (map (fun kv => (fst kv, PNum (snd kv))) m).

Definition boundaries_to_py (b : boundaries) : pyval :=
  PDict (map (fun kv =>
                (fst kv,
                 PSeq (kind (snd kv))
                   [PNum (min_bound (snd kv)); PNum (max_bound (snd kv))]))
           b).

(** The [config] dict built by [export_config]. *)
Definition config_of (self : GradeScale) : pyval :=
  PDict [ ("scale_type", PStr (scale_type self));
          ("grade_mappings", mappings_to_py (grade_mappings self));
          ("grade_boundaries", boundaries_to_py (grade_boundaries self));
          ("passing_grade", PStr (passing_grade self)) ].

(** [export_config]: the document written to [file_path]. *)
Definition export_config (self : GradeScale) : node :=
  represent (config_of self).

(** Reading the tables of a loaded configuration.  A [GradeScale] of the
    model holds well-shaped tables only, so a configuration of another
    shape, which the Python object would store as it is, is refused. *)
Definition py_mappings (v : pyval) : result mappings :=
  match v with
  | PDict items =>
      collect (fun kv => match snd kv with
                         | PNum q => Ok (fst kv, q)
                         | _ => Raise "grade_mappings: not a number"
                         end) items
  | _ => Raise "grade_mappings: not a mapping"
  end.

Definition py_boundaries (v : pyval) : result boundaries :=
  match v with
  | PDict items =>
      collect (fun kv => match snd kv with
                         | PSeq k [PNum lo; PNum hi] =>
                             Ok (fst kv, mkBound k lo hi)
                         | _ => Raise "grade_boundaries: not a pair"
                         end) items
  | _ => Raise "grade_boundaries: not a mapping"
  end.

Definition py_string (v : pyval) : result string :=
  match v with
  | PStr s => Ok s
  | _ => Raise "not a string"
  end.

(** [x = f(config[k]) if k in config else None] *)
Definition read_key {A} (k : string) (f : pyval -> result A)
  (config : list (string * pyval)) : result (option A) :=
  match lookup k config with
  | Some v => bind (f v) (fun a => Ok (Some a))
  | None => Ok None
  end.

(** [from_yaml]:
    [cls(scale_type=config.get('scale_type', '4.0'), custom_config=config)]
    on the loaded document. *)
Definition from_yaml (document : node) : result GradeScale :=
  bind (construct document) (fun loaded =>
  match loaded with
  | PDict config =>
      bind (match lookup "scale_type" config with
            | Some v => py_string v
            | None => Ok "4.0"
            end) (fun st =>
      bind (read_key "grade_mappings" py_mappings config) (fun gm =>
      bind (read_key "grade_boundaries" py_boundaries config) (fun gb =>
      bind (read_key "passing_grade" py_string config) (fun pg =>
      Ok (init st
            (match config with
             | [] => None
             | _ => Some (mkCustomConfig gm gb pg)
             end))))))
  | _ => Raise "object has no attribute 'get'"
  end).

(** The same preset with its boundary pairs held as lists. *)
Definition with_list_bounds (self : GradeScale) : GradeScale :=
  mkGradeScale (scale_type self) (grade_mappings self)
    (map (fun kv => (fst kv,
                     mkBound PyList (min_bound (snd kv)) (max_bound (snd kv))))
       (grade_boundaries self))
    (passing_grade self).

End Persistence.

(** ** [src/data_loader.py]: [coerce_data_types]

    The frame handed to [coerce_data_types] is raw: any cell may hold a
    string, a number, NaN or [None].  The behaviour of [astype(str)] is the
    one of pandas 1.x and 2.x, where a missing value becomes the text of
    its Python [str]. *)

Module DataLoader.

Local Open Scope string_scope.

Inductive cell : Type :=
| CStr (s : string)
| CNum (q : Q)
| CNaN
| CNone.

Definition RawRow : Type := column -> cell.

Record RawFrame : Type := mkRawFrame
  { raw_columns : list column;
    raw_rows : list RawRow }.

Definition raw_has (c : column) (df : RawFrame) : bool :=
  existsb (column_eqb c) (raw_columns df).

(** [pd.isna] *)
Definition isna (v : cell) : bool :=
  match v with
  | CNaN | CNone => true
  | CStr _ | CNum _ => false
  end.

(** [df[c] = f(df[c])], cell by cell. *)
Definition map_column (c : column) (f : cell -> cell) (df : RawFrame)
  : RawFrame :=
  mkRawFrame (raw_columns df)
    (map (fun row c' => if column_eqb c c' then f (row c') else row c')
       (raw_rows df)).

(** [df.dropna(subset=[c])] *)
Definition dropna (c : column) (df : RawFrame) : RawFrame :=
  mkRawFrame (raw_columns df)
    (filter (fun row => negb (isna (row c))) (raw_rows df)).

Definition is_space (a : ascii) : bool :=
  let n := nat_of_ascii a in
  ((9 <=? n) && (n <=? 13) || (28 <=? n) && (n <=? 32))%nat.

Fixpoint lstrip (s : string) : string :=
  match s with
  | EmptyString => EmptyString
  | String a s' => if is_space a then lstrip s' else s
  end.

Fixpoint rstrip (s : string) : string :=
  match s with
  | EmptyString => EmptyString
  | String a s' =>
      match rstrip s' with
      | EmptyString => if is_space a then EmptyString else String a EmptyString
      | t => String a t
      end
  end.

(** [str.strip()] *)
Definition strip (s : string) : string := lstrip (rstrip s).

Section Cells.

(** What [pd.to_numeric] reads in a string ([None]: it cannot be parsed)
    and what [str] prints for a number. *)
Variable parse_number : string -> option Q.
Variable str_of_number : Q -> string.

(** [pd.to_numeric(series, errors='coerce')] on one cell. *)
Definition to_numeric_coerce (v : cell) : cell :=
  match v with
  | CStr s => match parse_number s with
              | Some q => CNum q
              | None => CNaN
              end
  | CNum q => CNum q
  | CNaN | CNone => CNaN
  end.

(** [series.astype(str).str.strip()] on one cell. *)
Definition astype_str_strip (v : cell) : cell :=
  match v with
  | CStr s => CStr (strip s)
  | CNum q => CStr (strip (str_of_number q))
  | CNaN => CStr (strip "nan")
  | CNone => CStr (strip "None")
  end.

Definition string_columns : list column :=
  [StudentID; Name; Department; Semester; CourseCode; CourseName].

Definition critical_columns : list column :=
  [StudentID; Name; Marks; CreditHours].

(** [for col in cols: if col in df.columns: df = step(col, df)] *)
Definition for_present (cols : list column)
  (step : column -> RawFrame -> RawFrame) (df : RawFrame) : RawFrame :=
  fold_left (fun d c => if raw_has c d then step c d else d) cols df.

Definition coerce_data_types (df : RawFrame) : result RawFrame :=
  reraise_as "Error processing data types: "
    (let df1 := for_present [CreditHours]
                  (fun c => map_column c to_numeric_coerce) df in
     let df2 := for_present [Marks]
                  (fun c => map_column c to_numeric_coerce) df1 in
     let df3 := for_present string_columns
                  (fun c => map_column c astype_str_strip) df2 in
     Ok (for_present critical_columns dropna df3)).

End Cells.

End DataLoader.

Import Persistence DataLoader.

(** ** Inputs used below *)

Module Examples.

Local Open Scope string_scope.

(** The three records of the weighted example. *)
Definition weighted_marks : list Q := [85; 90; 78].

Definition weighted_records : list RecordDict :=
  [ mkRecordDict (Some 85) (Some 3);
    mkRecordDict (Some 90) (Some 3);
    mkRecordDict (Some 78) (Some 4) ].

Definition blank : Row := mkRow "" "" "" "" "" "" 0 0.

Definition weighted_frame : DataFrame :=
  mkFrame [Marks; CreditHours]
    [ mkRow "" "" "" "" "" "" 3 85;
      mkRow "" "" "" "" "" "" 3 90;
      mkRow "" "" "" "" "" "" 4 78 ].

(** A pass/fail scale: every mark from 0 to 100 earns the grade "P". *)
Definition pass_fail_scale : GradeScale :=
  create_custom_grade_scale "PassFail" [("P", 1.0)] [("P", tup 0 100)] "P".

(** A record that carries credit hours and no marks. *)
Definition record_without_marks : RecordDict := mkRecordDict None (Some 3).

(** The scale of [test_validate_grade_scale_invalid_passing_grade]: its
    passing grade has neither a boundary nor a mapping. *)
Definition scale_passing_C : GradeScale :=
  init "custom"
    (Some (mkCustomConfig (Some [("A", 4.0); ("B", 3.0)])
             (Some [("A", tup 90 100); ("B", tup 80 89)])
             (Some "C"))).

(** The frame of [test_subject_stats_missing_course_code]. *)
Definition frame_without_course_code : DataFrame :=
  mkFrame [StudentID; Name; Department; Semester; CourseName; CreditHours;
           Marks]
    [ mkRow "S001" "John" "CS" "Fall" "" "Programming" 3.0 85.0 ].

(** Two students, one course each. *)
Definition two_students : DataFrame :=
  mkFrame [StudentID; Name; Department; Semester; CourseCode; CourseName;
           CreditHours; Marks]
    [ mkRow "S001" "John" "CS" "Fall" "CS101" "Programming" 3.0 95.0;
      mkRow "S002" "Jane" "CS" "Fall" "CS101" "Programming" 3.0 85.0 ].

(** The frame of [test_coerce_data_types_missing_critical_data]: the third
    row has no name. *)
Definition raw_row (sid : string) (nm : DataLoader.cell)
  (dept code cname : string) (credits mk : Q) : DataLoader.RawRow :=
  fun c =>
    match c with
    | StudentID => DataLoader.CStr sid
    | Name => nm
    | Department => DataLoader.CStr dept
    | Semester => DataLoader.CStr "Fall"
    | CourseCode => DataLoader.CStr code
    | CourseName => DataLoader.CStr cname
    | CreditHours => DataLoader.CNum credits
    | Marks => DataLoader.CNum mk
    end.

Definition frame_missing_name : DataLoader.RawFrame :=
  DataLoader.mkRawFrame
    [StudentID; Name; Department; Semester; CourseCode; CourseName;
     CreditHours; Marks]
    [ raw_row "S001" (DataLoader.CStr "John") "CS" "CS101" "Programming"
        3.0 85.0;
      raw_row "S002" (DataLoader.CStr "Jane") "Math" "MATH101" "Calculus"
        4.0 90.0;
      raw_row "S003" DataLoader.CNone "Physics" "PHYS101" "Mechanics"
        3.0 88.0 ].

End Examples.

(** ** [src/grading.py]: [validate_grade_scale] and the European preset *)

Module Validation.

Local Open Scope string_scope.

(** [not (max1 < min2 or max2 < min1)] *)
Definition ranges_overlap (b1 b2 : bound) : bool :=
  negb (negb (Qle_bool (min_bound b2) (max_bound b1))
        || negb (Qle_bool (min_bound b1) (max_bound b2))).

(** [enumerate(l)] *)
Definition enumerate {A} (l : list A) : list (nat * A) :=
  combine (seq 0 (List.length l)) l.

(** The list [errors], in the order the four checks append to it.  The
    inner loop over [j] stops at the first overlap, so a range adds the
    overlap message once however many ranges it meets. *)
Definition validate_grade_scale (scale : GradeScale) : list string :=
  let errors1 :=
    flat_map (fun grade =>
                if contains grade (grade_mappings scale) then []
                else ["Grade '" ++ grade
                      ++ "' in boundaries but not in mappings"])
      (map fst (grade_boundaries scale)) in
  let errors2 :=
    flat_map (fun grade =>
                if contains grade (grade_boundaries scale) then []
                else ["Grade '" ++ grade
                      ++ "' in mappings but not in boundaries"])
      (map fst (grade_mappings scale)) in
  let boundaries := map snd (grade_boundaries scale) in
  let errors3 :=
    flat_map (fun ib1 =>
                if existsb (fun jb2 =>
                              negb (Nat.eqb (fst ib1) (fst jb2))
                              && ranges_overlap (snd ib1) (snd jb2))
                     (enumerate boundaries)
                then ["Overlapping grade boundaries detected"]
                else [])
      (enumerate boundaries) in
  let errors4 :=
    if contains (passing_grade scale) (grade_mappings scale) then []
    else ["Passing grade '" ++ passing_grade scale
          ++ "' not found in mappings"] in
  errors1 ++ errors2 ++ errors3 ++ errors4.

Definition EUROPEAN_SCALE : GradeScale :=
  create_custom_grade_scale "European"
    [("A", 4.0); ("B", 3.0); ("C", 2.0); ("D", 1.0); ("F", 0.0)]
    [("A", tup 90 100); ("B", tup 80 89); ("C", tup 70 79);
     ("D", tup 60 69); ("F", tup 0 59)]
    "D".

(** The mark lies in the range, both ends included. *)
Definition in_bound (m : Q) (b : bound) : Prop :=
  min_bound b <= m /\ m <= max_bound b.

(** What the four checks look for: every grade with a range has points,
    every grade with points has a range, two ranges at different positions
    of the table are disjoint, and the passing grade has points. *)
Definition consistent (scale : GradeScale) : Prop :=
  (forall g, In g (map fst (grade_boundaries scale)) ->
             contains g (grade_mappings scale) = true)
  /\ (forall g, In g (map fst (grade_mappings scale)) ->
                contains g (grade_boundaries scale) = true)
  /\ (forall i j b1 b2,
        nth_error (map snd (grade_boundaries scale)) i = Some b1 ->
        nth_error (map snd (grade_boundaries scale)) j = Some b2 ->
        i <> j ->
        max_bound b1 < min_bound b2 \/ max_bound b2 < min_bound b1)
  /\ contains (passing_grade scale) (grade_mappings scale) = true.

(** The integer marks 0, 1, ..., 100, and three checks the proofs about
    the built-in tables evaluate on each of them: the loop of
    [marks_to_grade] finds a range, the points do not decrease with the
    mark, and whether the grade of the mark passes. *)
Definition integer_marks : list Z := map Z.of_nat (seq 0 101).

Definition in_some_range (scale : GradeScale) (z : Z) : bool :=
  match first_match (grade_boundaries scale) (inject_Z z) with
  | Some _ => true
  | None => false
  end.

Definition points_of (scale : GradeScale) (z : Z) : Q :=
  marks_to_points scale (MNum (inject_Z z)).

Definition monotone_on_integers (scale : GradeScale) : bool :=
  forallb (fun z1 =>
             forallb (fun z2 =>
                        if (z1 <=? z2)%Z
                        then Qle_bool (points_of scale z1) (points_of scale z2)
                        else true)
               integer_marks)
    integer_marks.

Definition passes (scale : GradeScale) (z : Z) : bool :=
  is_passing_grade scale (marks_to_grade scale (MNum (inject_Z z))).

End Validation.

Import Validation.

(** ** [src/grading.py]: [compute_gpa]

  The Series it returns is the list of its items in index order;
  [groupby('StudentID')] sorts the group keys. *)

Module GpaSeries.

Local Open Scope string_scope.

Definition column_name (c : column) : string :=
  match c with
  | StudentID => "StudentID"
  | Name => "Name"
  | Department => "Department"
  | Semester => "Semester"
  | CourseCode => "CourseCode"
  | CourseName => "CourseName"
  | CreditHours => "CreditHours"
  | Marks => "Marks"
  end.

(** [str] of a list of strings, as an f-string prints it. *)
Definition repr_list (l : list string) : string :=
  "[" ++ String.concat ", " (map (fun s => "'" ++ s ++ "'") l) ++ "]".

(** [sorted(l)] on strings. *)
Fixpoint insert_string (s : string) (l : list string) : list string :=
  match l with
  | [] => [s]
  | s' :: l' =>
      match String.compare s s' with
      | Gt => s' :: insert_string s l'
      | _ => s :: l
      end
  end.

Definition sort_strings (l : list string) : list string :=
  fold_right insert_string [] l.

(** [np.average(a, weights=weights)] *)
Definition np_average (a weights : list Q) : result Q :=
  let scl := sum weights in
  if Qeq_bool scl 0
  then Raise "Weights sum to zero, can't be normalized"
  else Ok (sum (map (fun aw => fst aw * snd aw) (combine a weights)) / scl).

Definition compute_gpa (records : DataFrame) (scale : GradeScale)
  : result (list (string * Q)) :=
  reraise_as "Error computing GPA: "
    (let missing_cols :=
       filter (fun col => negb (has col records))
         [StudentID; Marks; CreditHours] in
     match missing_cols with
     | _ :: _ =>
         Raise ("Missing required columns: "
                ++ repr_list (map column_name missing_cols))
     | [] =>
         bind
           (collect
              (fun sid =>
                 let group := rows (where_eq student_id sid records) in
                 bind (np_average
                         (map (fun r => marks_to_points scale (MNum (marks r)))
                            group)
                         (map credit_hours group))
                   (fun gpa => Ok (sid, gpa)))
              (sort_strings (unique (map student_id (rows records)))))
           (fun gpa_calculation =>
              Ok (map (on_values (fun gpa => round gpa 3)) gpa_calculation))
     end).


End GpaSeries.

Import GpaSeries.

(** ** [src/analytics.py]: the cohort, department and semester views

  [np.std] and [Series.std] take a square root, which the rationals do not
  have; the float they return is a rational all the same.  The two
  functions are parameters of the model: [np_std] on the non-empty list of
  GPAs, and [pd_std] on a column of marks, where it is NaN ([None]) on
  fewer than two values.  Nothing proved below depends on their values. *)

Module Views.

Local Open Scope string_scope.

(** [series.nunique()] *)
Definition nunique (l : list string) : nat := List.length (unique l).

(** [(passing_students / total_students * 100) if total_students > 0
    else 0] *)
Definition rate (passing_students total_students : nat) : Q :=
  if (0 <? total_students)%nat
  then inject_Z (Z.of_nat passing_students)
       / inject_Z (Z.of_nat total_students) * 100
  else 0.

(** The loop of the marks proxy:
    [for student_id in df['StudentID'].unique(): ... ['Marks'].mean()]. *)
Definition per_student_means (df : DataFrame) : result (list Q) :=
  if has StudentID df
  then Ok (map (fun sid => mean (map marks (rows (where_eq student_id sid df))))
             (unique (map student_id (rows df))))
  else Raise "'StudentID'".

(** The pass/fail block of [cohort_summary] and [department_analysis]:
    the number of passing students, or [None] when the frame has no Marks
    column and nothing is counted. *)
Definition passing_students (df : DataFrame) (scale : option GradeScale)
  : result (option nat) :=
  match scale with
  | Some sc =>
      if has Marks df
      then
        let passing_threshold := grade_to_points sc (passing_grade sc) in
        bind (per_student_gpas df sc) (fun student_gpas =>
        Ok (Some (count_at_least passing_threshold student_gpas)))
      else Ok None
  | None =>
      if has Marks df
      then bind (per_student_means df) (fun avg_marks =>
           Ok (Some (count_at_least 60 avg_marks)))
      else Ok None
  end.

Record CohortSummary : Type := mkCohortSummary
  { co_total_students : nat;
    co_total_courses : nat;
    co_average_gpa : Q;
    co_median_gpa : Q;
    co_pass_rate : Q;
    co_fail_count : Z;
    co_gpa_std_dev : option Q;
    co_total_credits : Q }.

Record DepartmentStats : Type := mkDepartmentStats
  { de_total_students : nat;
    de_total_courses : nat;
    de_average_gpa : Q;
    de_median_gpa : Q;
    de_gpa_std_dev : option Q;
    de_pass_rate : Q }.

Record SemesterStats : Type := mkSemesterStats
  { se_total_students : nat;
    se_total_courses : nat;
    se_average_gpa : Q;
    se_median_gpa : Q }.

Record Trends : Type := mkTrends
  { tr_semesters : list string;
    tr_average_gpa_by_semester : list Q;
    tr_pass_rate_by_semester : list Q;
    tr_total_students_by_semester : list nat }.

Section Deviation.

Variable np_std : list Q -> Q.
Variable pd_std : list Q -> option Q.

(** The block computing the average, the median and the standard
    deviation of the GPA in [cohort_summary] and [department_analysis]. *)
Definition gpa_statistics (df : DataFrame) (scale : option GradeScale)
  : result (Q * Q * option Q) :=
  let proxy :=
    if has Marks df
    then (mean (map marks (rows df)) / 25,
          median (map marks (rows df)) / 25,
          match pd_std (map marks (rows df)) with
          | Some s => Some (s / 25)
          | None => None
          end)
    else (0.0, 0.0, Some 0.0) in
  match scale with
  | Some sc =>
      if has Marks df && has CreditHours df
      then bind (per_student_gpas df sc) (fun student_gpas =>
           match student_gpas with
           | [] => Ok (0.0, 0.0, Some 0.0)
           | _ => Ok (mean student_gpas, median student_gpas,
                      Some (np_std student_gpas))
           end)
      else Ok proxy
  | None => Ok proxy
  end.

(** [round(float(x), 3)] on a float that may be NaN. *)
Definition round_std (s : option Q) : option Q :=
  match s with
  | Some q => Some (round q 3)
  | None => None
  end.

Definition cohort_summary (df : DataFrame) (scale : option GradeScale)
  : result CohortSummary :=
  reraise_as "Error computing cohort summary: "
    (if empty df
     then Ok (mkCohortSummary 0 0 0.0 0.0 0.0 0 (Some 0.0) 0.0)
     else
       let total_students :=
         if has StudentID df then nunique (map student_id (rows df))
         else 0%nat in
       let total_courses :=
         if has CourseCode df then nunique (map course_code (rows df))
         else 0%nat in
       let total_credits :=
         if has CreditHours df then sum (map credit_hours (rows df))
         else 0.0 in
       bind (gpa_statistics df scale) (fun stats =>
       let '(average_gpa, median_gpa, gpa_std_dev) := stats in
       bind (passing_students df scale) (fun passing =>
       let '(pass_rate, fail_count) :=
         match passing with
         | Some passing_students =>
             (rate passing_students total_students,
              (Z.of_nat total_students - Z.of_nat passing_students)%Z)
         | None => (0.0, Z.of_nat total_students)
         end in
       Ok (mkCohortSummary total_students total_courses
             (round average_gpa 3) (round median_gpa 3) (round pass_rate 2)
             fail_count (round_std gpa_std_dev) (round total_credits 1))))).

Definition department_entry (df : DataFrame) (scale : option GradeScale)
  (dept : string) : result (string * DepartmentStats) :=
  let dept_df := where_eq department dept df in
  if has StudentID dept_df
  then
    let total_students := nunique (map student_id (rows dept_df)) in
    if has CourseCode dept_df
    then
      let total_courses := nunique (map course_code (rows dept_df)) in
      bind (gpa_statistics dept_df scale) (fun stats =>
      let '(avg_gpa, median_gpa, gpa_std) := stats in
      bind (passing_students dept_df scale) (fun passing =>
      let pass_rate :=
        match passing with
        | Some passing_students => rate passing_students total_students
        | None => 0.0
        end in
      Ok (dept,
          mkDepartmentStats total_students total_courses (round avg_gpa 3)
            (round median_gpa 3) (round_std gpa_std) (round pass_rate 2))))
    else Raise "'CourseCode'"
  else Raise "'StudentID'".

Definition department_analysis (df : DataFrame) (scale : option GradeScale)
  : result (list (string * DepartmentStats)) :=
  reraise_as "Error computing department analysis: "
    (if empty df || negb (has Department df) then Ok []
     else collect (department_entry df scale)
            (unique (map department (rows df)))).

End Deviation.

Definition semester_entry (df : DataFrame) (scale : option GradeScale)
  (sem : string) : result (string * SemesterStats) :=
  let sem_df := where_eq semester sem df in
  if has StudentID sem_df
  then
    let total_students := nunique (map student_id (rows sem_df)) in
    if has CourseCode sem_df
    then
      let total_courses := nunique (map course_code (rows sem_df)) in
      bind (average_median_gpa sem_df scale) (fun am =>
      Ok (sem,
          mkSemesterStats total_students total_courses (fst am) (snd am)))
    else Raise "'CourseCode'"
  else Raise "'StudentID'".

Definition semester_analysis (df : DataFrame) (scale : option GradeScale)
  : result (list (string * SemesterStats)) :=
  reraise_as "Error computing semester analysis: "
    (if empty df || negb (has Semester df) then Ok []
     else collect (semester_entry df scale)
            (unique (map semester (rows df)))).

(** One turn of the loop of [get_performance_trends]: the three values it
    appends for a semester. *)
Definition trends_entry (df : DataFrame) (scale : option GradeScale)
  (sem : string) : result (Q * Q * nat) :=
  let sem_df := where_eq semester sem df in
  let proxy :=
    if has Marks sem_df then mean (map marks (rows sem_df)) / 25 else 0.0 in
  bind
    (match scale with
     | Some sc =>
         if has Marks sem_df && has CreditHours sem_df
         then bind (per_student_gpas sem_df sc) (fun sem_gpas =>
              Ok (match sem_gpas with
                  | [] => 0.0
                  | _ => mean sem_gpas
                  end))
         else Ok proxy
     | None => Ok proxy
     end) (fun avg_gpa =>
  bind
    (match scale with
     | Some sc =>
         if has Marks sem_df
         then
           let passing_threshold := grade_to_points sc (passing_grade sc) in
           if has StudentID sem_df
           then
             let total_students := nunique (map student_id (rows sem_df)) in
             bind (per_student_gpas sem_df sc) (fun student_gpas =>
             Ok (rate (count_at_least passing_threshold student_gpas)
                   total_students))
           else Raise "'StudentID'"
         else Ok 0.0
     | None => Ok 0.0
     end) (fun pass_rate =>
  if has StudentID sem_df
  then Ok (round avg_gpa 3, round pass_rate 2,
           nunique (map student_id (rows sem_df)))
  else Raise "'StudentID'")).

(** [None] stands for the empty dict the function returns on a frame
    without rows or without a Semester column. *)
Definition get_performance_trends (df : DataFrame)
  (scale : option GradeScale) : result (option Trends) :=
  reraise_as "Error computing performance trends: "
    (if empty df || negb (has Semester df) then Ok None
     else
       let semesters := sort_strings (unique (map semester (rows df))) in
       bind (collect (trends_entry df scale) semesters) (fun appended =>
       Ok (Some (mkTrends semesters
                   (map (fun e => fst (fst e)) appended)
                   (map (fun e => snd (fst e)) appended)
                   (map snd appended))))).

End Views.

Import Views.

(** ** [src/data_loader.py]: the checks on the header of the CSV

  [validate_csv_columns] and [normalize_column_names] read the column
  labels only, so a frame is given by its labels and its number of rows.
  [str.lower], [str.upper] and [str.strip] work on Unicode text; they are
  parameters of the model.  On ASCII text they are [ascii_lower] and the
  [strip] above, which is all the properties below assume of them. *)

Module Headers.

Local Open Scope string_scope.

Definition REQUIRED_COLUMNS : list string :=
  ["StudentID"; "Name"; "Department"; "Semester"; "CourseCode"; "CourseName";
   "CreditHours"; "Marks"].

Definition COLUMN_MAPPINGS : list (string * string) :=
  [("student_id", "StudentID"); ("student_name", "Name");
   ("dept", "Department"); ("sem", "Semester");
   ("course_code", "CourseCode"); ("course_name", "CourseName");
   ("credits", "CreditHours"); ("marks", "Marks"); ("grade", "Grade");
   ("gpa", "GPA")].

Definition lower_char (a : ascii) : ascii :=
  let n := nat_of_ascii a in
  if ((65 <=? n) && (n <=? 90))%nat then ascii_of_nat (n + 32) else a.

Fixpoint ascii_lower (s : string) : string :=
  match s with
  | EmptyString => EmptyString
  | String a s' => String (lower_char a) (ascii_lower s')
  end.

Fixpoint is_ascii (s : string) : bool :=
  match s with
  | EmptyString => true
  | String a s' => (nat_of_ascii a <? 128)%nat && is_ascii s'
  end.

Section Text.

Variable py_lower : string -> string.
Variable py_upper : string -> string.
Variable py_strip : string -> string.

(** [df.empty] *)
Definition header_empty (columns : list string) (n_rows : nat) : bool :=
  match columns with
  | [] => true
  | _ => (n_rows =? 0)%nat
  end.

Definition validate_csv_columns (columns : list string) (n_rows : nat)
  : result unit :=
  if header_empty columns n_rows then Raise "Uploaded file is empty"
  else
    let df_columns := map (fun col => py_lower (py_strip col)) columns in
    let required_columns_lower := map py_lower REQUIRED_COLUMNS in
    let missing_columns :=
      flat_map (fun req_col =>
                  if existsb (String.eqb req_col) df_columns then []
                  else [py_upper req_col])
        required_columns_lower in
    match missing_columns with
    | [] => Ok tt
    | _ :: _ =>
        Raise ("Required columns missing: "
               ++ String.concat ", " missing_columns)
    end.

(** The entry [column_mapping[col]] once both inner loops have run: the
    loop over [COLUMN_MAPPINGS] comes second and overwrites the entry of
    the loop over [REQUIRED_COLUMNS]. *)
Definition column_mapping (col : string) : option string :=
  let col_clean := py_lower (py_strip col) in
  let required :=
    find (fun req_col => String.eqb col_clean (py_lower req_col))
      REQUIRED_COLUMNS in
  let flexible :=
    find (fun item => String.eqb col_clean (py_lower (fst item)))
      COLUMN_MAPPINGS in
  match flexible with
  | Some (_, standard_name) => Some standard_name
  | None => required
  end.

(** [df.rename(columns=column_mapping)], on the labels. *)
Definition normalize_column_names (columns : list string) : list string :=
  map (fun col =>
         match column_mapping col with
         | Some new_name => new_name
         | None => col
         end) columns.

End Text.

End Headers.

Import Headers.

(** What a column of a raw frame holds, row by row. *)

Module Typed.




End Typed.

Import Typed.

(** ** [src/models.py]: the numeric validators of the record models *)

Module Models.

Local Open Scope string_scope.




End Models.

Import Models.

(** ** Proof automation *)

(** A mark lies outside every range of a concrete boundary table: one
    linear-arithmetic goal per range. *)
Ltac outside_all_ranges :=
  repeat (apply Forall_cons; [simpl; lra|]); apply Forall_nil.

(** * Properties *)

(** ** Grade lookup *)

Section GradeLookup.

Local Open Scope string_scope.

Lemma eqb_empty_false (g : string) : g <> "" -> String.eqb g "" = false.
Proof. intro H. now apply String.eqb_neq. Qed.

(** No range contains [m]: the loop falls through. *)
Lemma first_match_none (bs : boundaries) (m : Q) :
  Forall (fun gb => m < min_bound (snd gb) \/ max_bound (snd gb) < m) bs ->
  first_match bs m = None.
Proof.
  induction 1 as [|[g b] bs Hout _ IH]; simpl; [reflexivity|].
  rewrite IH. simpl in Hout.
  destruct (Qle_bool (min_bound b) m) eqn:Hlo; simpl; [|reflexivity].
  destruct (Qle_bool m (max_bound b)) eqn:Hhi; [|reflexivity].
  apply Qle_bool_iff in Hlo. apply Qle_bool_iff in Hhi.
  destruct Hout as [Hout | Hout].
  - exfalso. apply (Qlt_irrefl m). eapply Qlt_le_trans; eauto.
  - exfalso. apply (Qlt_irrefl m). eapply Qle_lt_trans; eauto.
Qed.

(** A grade returned by the loop is a key of the table. *)
Lemma first_match_key (bs : boundaries) (m : Q) (g : string) :
  first_match bs m = Some g -> In g (map fst bs).
Proof.
  induction bs as [|[g' b] bs IH]; simpl; [discriminate|].
  destruct (Qle_bool (min_bound b) m && Qle_bool m (max_bound b)).
  - intros [= ->]. now left.
  - intro H. right. now apply IH.
Qed.

(** Every grade point of the built-in 4.0 table lies in [[0, 4]]. *)
Lemma default_points_range (m : mark) :
  0 <= marks_to_points DEFAULT_4_0_SCALE m <= 4.
Proof.
  unfold marks_to_points, marks_to_grade.
  destruct m as [q| |];
    [|vm_compute; split; discriminate|vm_compute; split; discriminate].
  destruct (first_match (grade_boundaries DEFAULT_4_0_SCALE) q) as [g|] eqn:E;
    [|vm_compute; split; discriminate].
  apply first_match_key in E. simpl in E.
  repeat (destruct E as [<- | E]; [vm_compute; split; discriminate|]).
  destruct E.
Qed.

End GradeLookup.

(** ** The weighted example (C1) *)

Module WeightedExample.

Import Examples.
Local Open Scope string_scope.

(** C1, as stated, does not hold on the code: for marks [85, 90, 78] the
    grades are not [A-, A, C+], the points are not [3.7, 4.0, 2.3], and the
    GPA of the three records with credits [3, 3, 4] is not 3.23, neither for
    [compute_student_gpa] nor for [_calculate_student_gpa]. *)
Lemma C1_claimed_values_refuted :
  map (marks_to_grade DEFAULT_4_0_SCALE) (map MNum weighted_marks)
    <> ["A-"; "A"; "C+"]
  /\ ~ Forall2 Qeq
         (map (marks_to_points DEFAULT_4_0_SCALE) (map MNum weighted_marks))
         [3.7; 4.0; 2.3]
  /\ ~ compute_student_gpa weighted_records DEFAULT_4_0_SCALE == 3.23
  /\ ~ _calculate_student_gpa weighted_frame DEFAULT_4_0_SCALE == 3.23.
Proof.
  repeat split.
  - vm_compute. discriminate.
  - intro H. inversion H as [|x y l l' Hxy _]; subst.
    vm_compute in Hxy. discriminate.
  - vm_compute. discriminate.
  - vm_compute. discriminate.
Qed.

(** C1 (amended): on the default "4.0" scale, whose boundaries are
    A+:97-100, A:93-96, A-:90-92, B+:87-89, B:83-86, B-:80-82, C+:77-79,
    C:73-76, C-:70-72, D+:67-69, D:63-66, F:0-62, the three records with
    marks [85, 90, 78] and credit hours [3, 3, 4] get the grades
    [B, A-, C+], the grade points [3.0, 3.7, 2.3] and the credit-weighted
    GPA 2.93 after rounding to 3 decimals. *)
Theorem C1_weighted_example :
  grade_boundaries DEFAULT_4_0_SCALE =
    [ ("A+", tup 97 100); ("A", tup 93 96); ("A-", tup 90 92);
      ("B+", tup 87 89); ("B", tup 83 86); ("B-", tup 80 82);
      ("C+", tup 77 79); ("C", tup 73 76); ("C-", tup 70 72);
      ("D+", tup 67 69); ("D", tup 63 66); ("F", tup 0 62) ]
  /\ map (marks_to_grade DEFAULT_4_0_SCALE) (map MNum weighted_marks)
     = ["B"; "A-"; "C+"]
  /\ map (marks_to_points DEFAULT_4_0_SCALE) (map MNum weighted_marks)
     = [3.0; 3.7; 2.3]
  /\ compute_student_gpa weighted_records DEFAULT_4_0_SCALE == 2.93
  /\ _calculate_student_gpa weighted_frame DEFAULT_4_0_SCALE == 2.93.
Proof.
  split; [reflexivity|].
  split; [reflexivity|].
  split; [reflexivity|].
  split; vm_compute; reflexivity.
Qed.

End WeightedExample.

(** ** Marks between two boundaries (C10) *)

Module BoundaryGaps.

Local Open Scope string_scope.

(** C10: on the built-in "4.0" scale, a mark strictly between the upper
    endpoint of one boundary range and the lower endpoint of the adjacent
    one (62 < m < 63, ..., 96 < m < 97) matches no range: it is graded "F"
    and earns 0.0 points, however high it is. *)
Theorem C10_marks_between_ranges_get_F
  (g1 g2 : string) (b1 b2 : bound) (m : Q) :
  In (g1, b1) (grade_boundaries DEFAULT_4_0_SCALE) ->
  In (g2, b2) (grade_boundaries DEFAULT_4_0_SCALE) ->
  min_bound b2 == max_bound b1 + 1 ->
  max_bound b1 < m ->
  m < min_bound b2 ->
  marks_to_grade DEFAULT_4_0_SCALE (MNum m) = "F"
  /\ marks_to_points DEFAULT_4_0_SCALE (MNum m) == 0.
Proof.
  intros H1 H2 Hadj Hlo Hhi.
  assert (Hnone : first_match (grade_boundaries DEFAULT_4_0_SCALE) m = None).
  { simpl in H1, H2.
    repeat (destruct H1 as [H1 | H1]; [injection H1 as <- <-|]);
      try contradiction;
      repeat (destruct H2 as [H2 | H2]; [injection H2 as <- <-|]);
      try contradiction;
      simpl in Hadj, Hlo, Hhi;
      try (exfalso; revert Hadj; vm_compute; discriminate);
      apply first_match_none; outside_all_ranges. }
  unfold marks_to_points, marks_to_grade. rewrite Hnone.
  split; reflexivity.
Qed.

(** C10 at the mark 96.5, between A (93-96) and A+ (97-100). *)
Lemma C10_witness_96_5 :
  marks_to_grade DEFAULT_4_0_SCALE (MNum 96.5) = "F"
  /\ marks_to_points DEFAULT_4_0_SCALE (MNum 96.5) == 0.
Proof.
  apply (C10_marks_between_ranges_get_F "A" "A+" (tup 93 96) (tup 97 100)).
  - simpl. auto.
  - simpl. auto.
  - reflexivity.
  - reflexivity.
  - reflexivity.
Defined.

End BoundaryGaps.

(** ** Passing grades (C5) *)

Module Passing.

Import Examples.
Local Open Scope string_scope.

(** C5, as stated, does not hold for every scale: on the scale whose
    passing grade "C" is in neither table, the unknown grade "X" passes,
    and "F" fails although its points (0.0) reach those of the passing
    grade (0.0). *)
Lemma C5_unknown_grade_passes :
  lookup "X" (grade_mappings scale_passing_C) = None
  /\ is_passing_grade scale_passing_C "X" = true
  /\ is_passing_grade scale_passing_C "F" = false
  /\ grade_to_points scale_passing_C (passing_grade scale_passing_C)
     <= grade_to_points scale_passing_C "F".
Proof.
  repeat split; vm_compute; discriminate.
Qed.

(** C5 (amended): [is_passing_grade] is false for the empty grade; for a
    non-empty grade, when the passing grade has a boundary entry, it is true
    iff [grade_to_points(g) >= grade_to_points(passing_grade)], and
    otherwise it is true iff [g] is not "F".  Hence a grade absent from
    [grade_mappings] (0.0 points) fails whenever the passing grade has a
    boundary entry and more than 0.0 points. *)
Theorem C5_is_passing_grade (s : GradeScale) (g : string) :
  (g = "" -> is_passing_grade s g = false)
  /\ (g <> "" ->
      contains (passing_grade s) (grade_boundaries s) = true ->
      (is_passing_grade s g = true <->
       grade_to_points s (passing_grade s) <= grade_to_points s g))
  /\ (g <> "" ->
      contains (passing_grade s) (grade_boundaries s) = false ->
      (is_passing_grade s g = true <-> g <> "F"))
  /\ (lookup g (grade_mappings s) = None ->
      grade_to_points s g == 0
      /\ (contains (passing_grade s) (grade_boundaries s) = true ->
          0 < grade_to_points s (passing_grade s) ->
          is_passing_grade s g = false)).
Proof.
  unfold is_passing_grade.
  repeat split.
  - intros ->. reflexivity.
  - rewrite (eqb_empty_false g H), H0. apply Qle_bool_iff.
  - rewrite (eqb_empty_false g H), H0. apply Qle_bool_iff.
  - rewrite (eqb_empty_false g H), H0.
    intros Hn ->. discriminate.
  - rewrite (eqb_empty_false g H), H0. intro Hne.
    apply negb_true_iff. now apply String.eqb_neq.
  - unfold grade_to_points. rewrite H. now destruct (String.eqb g "").
  - intros Hc Hpos.
    destruct (String.eqb g "") eqn:Eg; [reflexivity|].
    rewrite Hc.
    assert (Hz : grade_to_points s g == 0).
    { unfold grade_to_points. rewrite Eg, H. reflexivity. }
    destruct (Qle_bool (grade_to_points s (passing_grade s))
                (grade_to_points s g)) eqn:E; [|reflexivity].
    apply Qle_bool_iff in E. rewrite Hz in E.
    exfalso. apply (Qlt_irrefl 0). eapply Qlt_le_trans; eauto.
Qed.

(** C5 on the default scale: "B" passes, the unknown "X" does not. *)
Lemma C5_witness_default_scale :
  (is_passing_grade DEFAULT_4_0_SCALE "B" = true <->
   grade_to_points DEFAULT_4_0_SCALE (passing_grade DEFAULT_4_0_SCALE)
   <= grade_to_points DEFAULT_4_0_SCALE "B")
  /\ is_passing_grade DEFAULT_4_0_SCALE "X" = false.
Proof.
  split.
  - apply (C5_is_passing_grade DEFAULT_4_0_SCALE "B");
      [discriminate | reflexivity].
  - apply (C5_is_passing_grade DEFAULT_4_0_SCALE "X"); reflexivity.
Defined.

End Passing.

(** ** Rounding *)

Section Rounding.

(** A value between two integers rounds to an integer between them. *)
Lemma round_half_even_bounds (q : Q) (a b : Z) :
  inject_Z a <= q -> q <= inject_Z b ->
  (a <= round_half_even q <= b)%Z.
Proof.
  intros Ha Hb. unfold round_half_even.
  assert (Hfa : (a <= Qfloor q)%Z).
  { rewrite <- (Qfloor_Z a). now apply Qfloor_resp_le. }
  assert (Hfb : (Qfloor q <= b)%Z).
  { rewrite <- (Qfloor_Z b). now apply Qfloor_resp_le. }
  destruct (Qcompare_spec (q - inject_Z (Qfloor q)) (1 # 2)) as [E|E|E].
  - destruct (Z.even (Qfloor q)); [lia|].
    destruct (Z.eq_dec (Qfloor q) b) as [Eb|Nb]; [|lia].
    exfalso. rewrite Eb in E. lra.
  - lia.
  - destruct (Z.eq_dec (Qfloor q) b) as [Eb|Nb]; [|lia].
    exfalso. rewrite Eb in E. lra.
Qed.

Lemma round_bounds (q : Q) (ndigits : nat) (a b : Z) :
  inject_Z a <= q -> q <= inject_Z b ->
  inject_Z a <= round q ndigits <= inject_Z b.
Proof.
  intros Ha Hb. unfold round.
  set (s := (10 ^ Z.of_nat ndigits)%Z).
  assert (Hs : (0 < s)%Z) by (apply Z.pow_pos_nonneg; lia).
  assert (Hsq : 0 < inject_Z s).
  { unfold Qlt; simpl. lia. }
  destruct (round_half_even_bounds (q * inject_Z s) (a * s) (b * s))
    as [Hl Hu].
  - rewrite inject_Z_mult. apply Qmult_le_compat_r; [assumption|lra].
  - rewrite inject_Z_mult. apply Qmult_le_compat_r; [assumption|lra].
  - unfold Qle; simpl. rewrite Z2Pos.id by assumption. split; lia.
Qed.

Lemma round3_range (q : Q) : in_range q -> in_range (round q 3).
Proof. intros [H0 H4]. now apply (round_bounds q 3 0 4). Qed.

Lemma round_half_even_Qeq (q q' : Q) :
  q == q' -> round_half_even q = round_half_even q'.
Proof.
  intro H. unfold round_half_even.
  rewrite <- (Qfloor_comp _ _ H).
  assert (E : Qcompare (q - inject_Z (Qfloor q)) (1 # 2)
              = Qcompare (q' - inject_Z (Qfloor q)) (1 # 2)).
  { apply Qcompare_comp; [lra|reflexivity]. }
  now rewrite E.
Qed.

(** [round] does not see which fraction stands for the number. *)
Lemma round_Qeq (q q' : Q) (n : nat) : q == q' -> round q n = round q' n.
Proof.
  intro H. unfold round. f_equal. apply round_half_even_Qeq.
  apply Qmult_comp; [exact H|reflexivity].
Qed.

Lemma round_half_even_error (q : Q) :
  q - (1 # 2) <= inject_Z (round_half_even q) <= q + (1 # 2).
Proof.
  pose proof (Qfloor_le q) as H1. pose proof (Qlt_floor q) as H2.
  rewrite inject_Z_plus in H2. change (inject_Z 1) with 1 in H2.
  unfold round_half_even.
  destruct (Qcompare_spec (q - inject_Z (Qfloor q)) (1 # 2)) as [E|E|E].
  - destruct (Z.even (Qfloor q)).
    + split; lra.
    + rewrite inject_Z_plus. change (inject_Z 1) with 1. split; lra.
  - split; lra.
  - rewrite inject_Z_plus. change (inject_Z 1) with 1. split; lra.
Qed.

(** Rounding to three places moves a number by at most 0.0005, whichever
    way a tie goes. *)
Lemma round3_error (q : Q) :
  q - (1 # 2000) <= round q 3 <= q + (1 # 2000).
Proof.
  unfold round. change (10 ^ Z.of_nat 3)%Z with 1000%Z.
  change (Z.to_pos 1000) with 1000%positive.
  destruct (round_half_even_error (q * inject_Z 1000)) as [H1 H2].
  set (z := round_half_even (q * inject_Z 1000)) in *.
  change (inject_Z 1000) with 1000 in H1, H2.
  assert (E : z # 1000 == inject_Z z * (1 # 1000))
    by (unfold Qeq; cbn; lia).
  rewrite E. split; lra.
Qed.


End Rounding.

(** ** The GPA loop *)

Section GpaLoop.

Variable scale : GradeScale.

(** Records without positive credits leave the accumulator alone. *)
Lemma gpa_loop_skips (recs : list (Q * Q)) (acc : Q * Q) :
  Forall (fun r => snd r <= 0) recs ->
  fold_left (gpa_step scale) recs acc = acc.
Proof.
  intro H. revert acc.
  induction H as [|[m c] recs Hc _ IH]; intro acc; simpl; [reflexivity|].
  rewrite <- (IH acc) at 2. f_equal.
  unfold gpa_step. destruct acc as [tp tc].
  destruct (Qlt_le_dec 0 c) as [Hpos|_]; [|reflexivity].
  simpl in Hc. lra.
Qed.

Lemma gpa_loop_filter (recs : list (Q * Q)) (acc : Q * Q) :
  fold_left (gpa_step scale) recs acc
  = fold_left (gpa_step scale) (filter positive_credits recs) acc.
Proof.
  revert acc. induction recs as [|[m c] recs IH]; intro acc; [reflexivity|].
  simpl. unfold positive_credits at 1. simpl.
  destruct (Qlt_le_dec 0 c) as [Hpos|Hle] eqn:E.
  - simpl. apply IH.
  - rewrite <- IH. f_equal.
    unfold gpa_step. destruct acc as [tp tc]. now rewrite E.
Qed.

End GpaLoop.

Section GpaRange.

(** Loop invariant on the 4.0 scale:
    [0 <= total_points <= 4 * total_credits]. *)
Lemma gpa_loop_invariant (recs : list (Q * Q)) (acc : Q * Q) :
  0 <= fst acc <= 4 * snd acc -> 0 <= snd acc ->
  let out := fold_left (gpa_step DEFAULT_4_0_SCALE) recs acc in
  0 <= fst out <= 4 * snd out /\ 0 <= snd out.
Proof.
  revert acc. induction recs as [|[m c] recs IH]; intros acc Hp Hc; simpl.
  - tauto.
  - apply IH; unfold gpa_step; destruct acc as [tp tc]; simpl in *;
      destruct (Qlt_le_dec 0 c) as [Hpos|Hle]; simpl; try assumption.
    + pose proof (default_points_range (MNum m)) as [Hl Hu].
      set (p := marks_to_points DEFAULT_4_0_SCALE (MNum m)) in *.
      assert (0 <= p * c) by nra.
      assert (p * c <= 4 * c) by nra.
      lra.
    + lra.
Qed.

Lemma gpa_result_range (acc : Q * Q) :
  0 <= fst acc <= 4 * snd acc -> 0 <= snd acc ->
  in_range (gpa_result acc).
Proof.
  destruct acc as [tp tc]; simpl. intros Hp Hc.
  destruct (Qeq_bool tc 0) eqn:E.
  - split; vm_compute; discriminate.
  - apply Qeq_bool_neq in E.
    assert (Hpos : 0 < tc) by (apply Qle_lteq in Hc; destruct Hc as [H|H];
      [assumption | exfalso; apply E; symmetry; assumption]).
    apply (round_bounds _ 3 0 4).
    + apply Qle_shift_div_l; [assumption|]. change (inject_Z 0) with 0. lra.
    + apply Qle_shift_div_r; [assumption|]. change (inject_Z 4) with 4. lra.
Qed.

Lemma gpa_of_loop_range (recs : list (Q * Q)) :
  in_range (gpa_result (gpa_loop DEFAULT_4_0_SCALE recs)).
Proof.
  unfold gpa_loop.
  destruct (gpa_loop_invariant recs (0.0, 0.0)) as [Hp Hc];
    [simpl; lra | simpl; lra |].
  now apply gpa_result_range.
Qed.

End GpaRange.

(** ** Lists: distinct values, stable sorting, collecting results *)

Section Unique.

Lemma unique_In (l : list string) (x : string) : In x (unique l) <-> In x l.
Proof.
  induction l as [|y l IH]; simpl; [tauto|].
  rewrite filter_In, IH, negb_true_iff, String.eqb_neq.
  destruct (string_dec y x) as [->|Hne]; [tauto|].
  split.
  - intros [H|[H _]]; auto.
  - intros [H|H]; [auto|]. right. split; [assumption|]. congruence.
Qed.

Lemma filter_keeps_NoDup {A} (f : A -> bool) (l : list A) :
  NoDup l -> NoDup (filter f l).
Proof.
  induction 1 as [|x l Hx _ IH]; simpl; [constructor|].
  destruct (f x); [|assumption].
  constructor; [|assumption].
  rewrite filter_In. tauto.
Qed.

Lemma unique_NoDup (l : list string) : NoDup (unique l).
Proof.
  induction l as [|y l IH]; simpl; constructor.
  - rewrite filter_In, negb_true_iff, String.eqb_neq. tauto.
  - now apply filter_keeps_NoDup.
Qed.

(** [unique] counts the distinct values. *)
Lemma unique_length (l : list string) :
  List.length (unique l) = List.length (nodup string_dec l).
Proof.
  apply Permutation_length, NoDup_Permutation.
  - apply unique_NoDup.
  - apply NoDup_nodup.
  - intro x. now rewrite unique_In, nodup_In.
Qed.

Lemma students_NoDup (df : DataFrame) : NoDup (students df).
Proof.
  unfold students. destruct (has StudentID df);
    [apply unique_NoDup | constructor].
Qed.

End Unique.

Section SortFacts.

Context {A : Type} (key : A -> Q).

Lemma insert_desc_perm (x : A) (l : list A) :
  Permutation (x :: l) (insert_desc key x l).
Proof.
  induction l as [|y l IH]; simpl; [reflexivity|].
  destruct (Qlt_le_dec (key x) (key y)); [|reflexivity].
  rewrite perm_swap. now apply perm_skip.
Qed.

Lemma sort_desc_perm (l : list A) : Permutation l (sort_desc key l).
Proof.
  induction l as [|x l IH]; simpl; [reflexivity|].
  rewrite <- insert_desc_perm. now apply perm_skip.
Qed.

Lemma insert_desc_sorted (x : A) (l : list A) :
  StronglySorted (desc key) l ->
  StronglySorted (desc key) (insert_desc key x l).
Proof.
  induction 1 as [|y l Hs IH Hy]; simpl.
  - repeat constructor.
  - destruct (Qlt_le_dec (key x) (key y)) as [Hlt|Hle].
    + constructor; [assumption|].
      rewrite <- insert_desc_perm. constructor; [|assumption].
      unfold desc. lra.
    + constructor; [now constructor|].
      constructor; [exact Hle|].
      eapply Forall_impl; [|exact Hy].
      unfold desc. intros a Ha. lra.
Qed.

Lemma sort_desc_sorted (l : list A) :
  StronglySorted (desc key) (sort_desc key l).
Proof.
  induction l as [|x l IH]; simpl; [constructor|].
  now apply insert_desc_sorted.
Qed.

(** Stability: among the elements sharing a key, insertion keeps [x] in
    front. *)
Lemma insert_desc_stable (k : Q) (x : A) (l : list A) :
  filter (has_key key k) (insert_desc key x l)
  = filter (has_key key k) (x :: l).
Proof.
  induction l as [|y l IH]; [reflexivity|].
  simpl insert_desc.
  destruct (Qlt_le_dec (key x) (key y)) as [Hlt|Hle]; [|reflexivity].
  simpl in *. rewrite IH.
  destruct (has_key key k x) eqn:Ex; [|reflexivity].
  destruct (has_key key k y) eqn:Ey; [|reflexivity].
  unfold has_key in Ex, Ey.
  apply Qeq_bool_iff in Ex. apply Qeq_bool_iff in Ey. lra.
Qed.

Lemma sort_desc_stable (k : Q) (l : list A) :
  filter (has_key key k) (sort_desc key l) = filter (has_key key k) l.
Proof.
  induction l as [|x l IH]; [reflexivity|].
  simpl sort_desc. rewrite insert_desc_stable. simpl. now rewrite IH.
Qed.

End SortFacts.

Section Prefixes.

Context {A : Type}.

Lemma firstn_sorted (R : A -> A -> Prop) (k : nat) (l : list A) :
  StronglySorted R l -> StronglySorted R (firstn k l).
Proof.
  intro H. revert k. induction H as [|x l Hs IH Hx]; intro k.
  - rewrite firstn_nil. constructor.
  - destruct k; simpl; constructor; [apply IH|].
    rewrite <- (firstn_skipn k l) in Hx. now apply Forall_app in Hx.
Qed.

Lemma firstn_keeps_NoDup (k : nat) (l : list A) :
  NoDup l -> NoDup (firstn k l).
Proof.
  intro H. rewrite <- (firstn_skipn k l) in H.
  now apply NoDup_app_remove_r in H.
Qed.

Lemma firstn_subset (k : nat) (l : list A) : incl (firstn k l) l.
Proof.
  intros x Hx. rewrite <- (firstn_skipn k l). apply in_or_app. now left.
Qed.

Lemma Forall_slice_to (P : A -> Prop) (n : Z) (l : list A) :
  Forall P l -> Forall P (slice_to n l).
Proof.
  intro H. unfold slice_to.
  assert (F : forall k, Forall P (firstn k l)).
  { intro k. rewrite <- (firstn_skipn k l) in H.
    now apply Forall_app in H. }
  destruct (0 <=? n)%Z; apply F.
Qed.

End Prefixes.

Section CollectFacts.

Context {X Y : Type} (f : X -> result Y).

(** When [f] returns on every element, so does the loop, element by
    element. *)
Lemma collect_Forall2 (P : X -> Y -> Prop) (xs : list X) :
  (forall x, In x xs -> exists y, f x = Ok y /\ P x y) ->
  exists ys, collect f xs = Ok ys /\ Forall2 P xs ys.
Proof.
  induction xs as [|x xs IH]; intro H; simpl.
  - exists []. split; [reflexivity|constructor].
  - destruct (H x) as (y & Ey & Py); [now left|].
    destruct IH as (ys & Eys & Pys); [intros; apply H; now right|].
    exists (y :: ys). rewrite Ey, Eys. split; [reflexivity|now constructor].
Qed.

Lemma Forall2_map_eq (h : Y -> X) (xs : list X) (ys : list Y) :
  Forall2 (fun x y => h y = x) xs ys -> map h ys = xs.
Proof. induction 1; simpl; congruence. Qed.

Lemma Forall2_right (P : X -> Y -> Prop) (R : Y -> Prop)
  (xs : list X) (ys : list Y) :
  (forall x y, P x y -> R y) -> Forall2 P xs ys -> Forall R ys.
Proof.
  intros H F. induction F as [|x y xs ys Hxy _ IH]; constructor.
  - now apply (H x).
  - exact IH.
Qed.

End CollectFacts.

(** ** The rows of one student or one course *)

Section Groups.

Local Open Scope string_scope.

(** The rows selected for a value that occurs in the column are not
    empty. *)
Lemma where_eq_rows (sel : Row -> string) (v : string) (df : DataFrame) :
  In v (map sel (rows df)) ->
  exists r rs, rows (where_eq sel v df) = r :: rs.
Proof.
  intro H. apply in_map_iff in H. destruct H as (r & <- & Hr).
  assert (Hin : In r (rows (where_eq sel (sel r) df))).
  { simpl. apply filter_In. split; [assumption|apply String.eqb_refl]. }
  destruct (rows (where_eq sel (sel r) df)) as [|r' rs]; [destruct Hin|].
  now exists r', rs.
Qed.

Lemma student_entry_ok (df : DataFrame) (scale : option GradeScale)
  (sid : string) :
  In sid (map student_id (rows df)) ->
  exists e, student_entry df scale sid = Ok e /\ si_student_id e = sid.
Proof.
  intro H. destruct (where_eq_rows student_id sid df H) as (r & rs & E).
  unfold student_entry, first_or_unknown. rewrite E.
  destruct (has Name _), (has Department _), (has Semester _); simpl;
    eexists; split; reflexivity.
Qed.

Lemma student_entry_gpa (df : DataFrame) (sc : GradeScale) (sid : string)
  (e : StudentInfo) :
  has Marks df = true -> has CreditHours df = true ->
  student_entry df (Some sc) sid = Ok e ->
  si_gpa e = round (_calculate_student_gpa (where_eq student_id sid df) sc) 3.
Proof.
  intros Hm Hc. unfold student_entry, first_or_unknown.
  change (has Marks (where_eq student_id sid df)) with (has Marks df).
  change (has CreditHours (where_eq student_id sid df))
    with (has CreditHours df).
  rewrite Hm, Hc. simpl andb. cbv iota.
  destruct (has Name _), (has Department _), (has Semester _);
    destruct (iloc0 (rows (where_eq student_id sid df))); simpl;
    (intros [= <-] || discriminate); reflexivity.
Qed.

(** [top_n_students] returns, whatever the frame: it sorts and cuts the
    list holding the entry of each student, in the order the students are
    met. *)
Lemma top_n_students_returns (df : DataFrame) (n : Z)
  (scale : option GradeScale) :
  exists student_gpas,
    top_n_students df n scale
    = Ok (slice_to n (sort_desc si_gpa student_gpas))
    /\ Forall2 (fun sid e => student_entry df scale sid = Ok e
                             /\ si_student_id e = sid)
         (students df) student_gpas.
Proof.
  unfold top_n_students, students.
  destruct (has StudentID df) eqn:Hs.
  - destruct (empty df) eqn:He.
    + exists []. simpl. split.
      * unfold slice_to. destruct (0 <=? n)%Z; now rewrite firstn_nil.
      * unfold empty in He. destruct (columns df) eqn:Ec.
        -- unfold has in Hs. rewrite Ec in Hs. discriminate.
        -- destruct (rows df); [constructor|discriminate].
    + simpl.
      destruct (collect_Forall2 (student_entry df scale)
                  (fun sid e => student_entry df scale sid = Ok e
                                /\ si_student_id e = sid)
                  (unique (map student_id (rows df))))
        as (ys & Eys & Fys).
      { intros sid Hin.
        destruct (student_entry_ok df scale sid) as (e & Ee & Hid);
          [now apply unique_In|].
        exists e. auto. }
      exists ys. rewrite Eys. simpl. split; [reflexivity|assumption].
  - exists []. rewrite orb_true_r. simpl. split; [|constructor].
    unfold slice_to. destruct (0 <=? n)%Z; now rewrite firstn_nil.
Qed.

Lemma subject_entry_ok (df : DataFrame) (scale : option GradeScale)
  (code : string) :
  In code (map course_code (rows df)) ->
  exists e, subject_entry df scale code = Ok e /\ ss_course_code e = code.
Proof.
  intro H. destruct (where_eq_rows course_code code df H) as (r & rs & E).
  unfold subject_entry, first_or_unknown, idxmax. rewrite E.
  destruct (has CourseName _), (has Department _), (has CreditHours _),
    (has Marks _), (has Name _); simpl; eexists; split; reflexivity.
Qed.

End Groups.

(** ** Degenerate inputs of the GPA computation (C2) *)

Module Degenerate.

Import Examples.
Local Open Scope string_scope.

(** C2, as stated, does not hold for every scale: a record that has
    credit hours and no Marks field is read as mark 0, and on a scale where
    mark 0 earns points [compute_student_gpa] returns those points (here
    1.0), not 0.0. *)
Lemma C2_record_without_marks_is_graded :
  get_Marks record_without_marks = None
  /\ compute_student_gpa [record_without_marks] pass_fail_scale == 1
  /\ ~ compute_student_gpa [record_without_marks] pass_fail_scale == 0.
Proof.
  split; [reflexivity|]. split; [reflexivity|]. vm_compute. discriminate.
Qed.

(** C2 (amended): for every GradeScale the single-student GPA computation
    returns 0.0 (and, being a total function, does not raise) when the
    record collection is empty; when no record has positive credit hours, a
    record without a CreditHours field counting as one with 0 credits; and,
    for the data-frame variant, when the frame is empty or lacks the Marks or
    the CreditHours column.  Records with [credit_hours <= 0] are excluded
    from both sums: the loop gives the same totals on the records with
    positive credits alone.  In the list-of-records variant a record without
    a Marks field is read as mark 0, wherever it stands in the list: the
    result is that of the same list with Marks 0 written into the record.
    It is graded by the scale: alone with positive credit hours it gives the
    points the scale assigns to mark 0, up to the rounding to three
    places. *)
Theorem C2_degenerate_gpa_is_zero (s : GradeScale) :
  compute_student_gpa [] s == 0
  /\ (forall recs,
        Forall (fun r => forall c, get_CreditHours r = Some c -> c <= 0) recs ->
        compute_student_gpa recs s == 0)
  /\ (forall df,
        empty df = true \/ has Marks df = false \/ has CreditHours df = false ->
        _calculate_student_gpa df s == 0)
  /\ (forall df,
        Forall (fun r => credit_hours r <= 0) (rows df) ->
        _calculate_student_gpa df s == 0)
  /\ (forall recs,
        gpa_loop s recs = gpa_loop s (filter positive_credits recs))
  /\ (forall pre post c,
        compute_student_gpa (pre ++ mkRecordDict None c :: post) s
        = compute_student_gpa (pre ++ mkRecordDict (Some 0) c :: post) s)
  /\ (forall c, 0 < c ->
        marks_to_points s (MNum 0) - (1 # 2000)
        <= compute_student_gpa [mkRecordDict None (Some c)] s
        <= marks_to_points s (MNum 0) + (1 # 2000)).
Proof.
  split; [reflexivity|]. split; [|split; [|split; [|split; [|split]]]].
  - intros recs H. unfold compute_student_gpa.
    destruct recs as [|r recs]; [reflexivity|].
    unfold gpa_loop. rewrite gpa_loop_skips; [reflexivity|].
    apply Forall_map. eapply Forall_impl; [|exact H].
    intros r' Hr'. simpl.
    destruct (get_CreditHours r') as [c|] eqn:Ec; [now apply Hr'|lra].
  - intros df H. unfold _calculate_student_gpa.
    destruct H as [-> | [-> | ->]]; simpl;
      repeat rewrite orb_true_r; reflexivity.
  - intros df H. unfold _calculate_student_gpa.
    destruct (empty df || negb (has Marks df) || negb (has CreditHours df));
      [reflexivity|].
    unfold gpa_loop. rewrite gpa_loop_skips; [reflexivity|].
    apply Forall_map. exact H.
  - intro recs. apply gpa_loop_filter.
  - intros pre post c. unfold compute_student_gpa.
    destruct pre as [|r pre]; cbn [app map]; rewrite ?map_app; reflexivity.
  - intros c Hc. unfold compute_student_gpa, gpa_loop.
    cbn [map fold_left get_Marks get_CreditHours]. unfold gpa_step.
    destruct (Qlt_le_dec 0 c) as [_|Hle]; [|exfalso; lra].
    assert (Z0 : 0.0 == 0) by reflexivity.
    unfold gpa_result.
    destruct (Qeq_bool (0.0 + c) 0) eqn:E.
    + exfalso. apply Qeq_bool_iff in E. rewrite Z0 in E. lra.
    + erewrite round_Qeq; [apply round3_error|]. rewrite Z0. field. lra.
Qed.

(** C2 on two records without positive credits, on a frame without the
    CreditHours column, and on a record with 3 credit hours and no Marks
    field under the default scale, where mark 0 is an F worth 0 points. *)
Lemma C2_witness_zero_credits :
  compute_student_gpa
    [mkRecordDict (Some 85) (Some 0); mkRecordDict (Some 90) None]
    DEFAULT_4_0_SCALE == 0
  /\ _calculate_student_gpa (mkFrame [Marks] [blank]) DEFAULT_4_0_SCALE == 0
  /\ marks_to_points DEFAULT_4_0_SCALE (MNum 0) - (1 # 2000)
     <= compute_student_gpa [mkRecordDict None (Some 3)] DEFAULT_4_0_SCALE
     <= marks_to_points DEFAULT_4_0_SCALE (MNum 0) + (1 # 2000).
Proof.
  pose proof (C2_degenerate_gpa_is_zero DEFAULT_4_0_SCALE)
    as (_ & Hrecs & Hcols & _ & _ & _ & Hmark).
  split; [|split].
  - apply Hrecs. repeat constructor; intros c [= <-]; lra.
  - apply Hcols. right. right. reflexivity.
  - apply Hmark. reflexivity.
Defined.

End Degenerate.

(** ** The GPA range on the 4.0 scale (C3) *)

Module GpaRangeViews.

Import Examples.
Local Open Scope string_scope.

Lemma sum_range (l : list Q) (a : Q) :
  Forall in_range l ->
  a <= fold_left Qplus l a
  /\ fold_left Qplus l a <= a + 4 * inject_Z (Z.of_nat (List.length l)).
Proof.
  intro H. revert a. induction H as [|x l [Hx0 Hx4] _ IH]; intro a.
  - cbn [fold_left List.length Z.of_nat]. change (inject_Z 0) with 0.
    split; lra.
  - cbn [fold_left List.length]. destruct (IH (a + x)) as [Hl Hu].
    rewrite Nat2Z.inj_succ, <- Z.add_1_r, inject_Z_plus.
    change (inject_Z 1) with 1. split; lra.
Qed.

Lemma mean_range (l : list Q) :
  l <> [] -> Forall in_range l -> in_range (mean l).
Proof.
  intros Hne H. unfold mean, sum.
  destruct (sum_range l 0 H) as [Hl Hu].
  assert (Hn : 0 < inject_Z (Z.of_nat (List.length l))).
  { destruct l; [congruence|]. unfold Qlt; simpl. lia. }
  split.
  - apply Qle_shift_div_l; [assumption|]. lra.
  - apply Qle_shift_div_r; [assumption|]. lra.
Qed.

Lemma nth_range (l : list Q) (k : nat) :
  Forall in_range l -> in_range (nth k l 0).
Proof.
  intro H. revert k. induction H as [|x l Hx _ IH]; intro k.
  - destruct k; unfold in_range; simpl; lra.
  - destruct k; simpl; [assumption|apply IH].
Qed.

Lemma median_range (l : list Q) : Forall in_range l -> in_range (median l).
Proof.
  intro H. unfold median.
  assert (Hs : Forall in_range (sort_desc (fun x => x) l)).
  { eapply Permutation_Forall; [apply sort_desc_perm|exact H]. }
  destruct (Nat.even (List.length l)).
  - pose proof (nth_range _ (List.length l / 2 - 1) Hs) as [A0 A4].
    pose proof (nth_range _ (List.length l / 2) Hs) as [B0 B4].
    split.
    + apply Qle_shift_div_l; lra.
    + apply Qle_shift_div_r; lra.
  - now apply nth_range.
Qed.

Lemma student_gpa_range (df : DataFrame) :
  in_range (_calculate_student_gpa df DEFAULT_4_0_SCALE).
Proof.
  unfold _calculate_student_gpa.
  destruct (empty df || negb (has Marks df) || negb (has CreditHours df)).
  - unfold in_range. split; vm_compute; discriminate.
  - apply gpa_of_loop_range.
Qed.

Lemma per_student_gpas_range (df : DataFrame) :
  has StudentID df = true ->
  exists gpas,
    per_student_gpas df DEFAULT_4_0_SCALE = Ok gpas /\ Forall in_range gpas.
Proof.
  intro Hs. unfold per_student_gpas. rewrite Hs.
  eexists. split; [reflexivity|].
  apply Forall_map, Forall_forall.
  intros sid _. apply student_gpa_range.
Qed.

(** C3: with the built-in "4.0" scale the per-student GPA of every
    collection of course records lies in [[0, 4]], for the data-frame
    computation and for the one on a list of records.  The aggregate views
    call that computation once per student, so the values they derive from
    it stay in [[0, 4]] too, on every frame that carries the columns they
    read: each GPA of the per-student loop run by the cohort, department
    and semester views, the average and median GPA those views report, and
    the GPA of every leaderboard entry. *)
Theorem C3_gpa_in_range_on_4_0_scale :
  (forall df, in_range (_calculate_student_gpa df DEFAULT_4_0_SCALE))
  /\ (forall recs, in_range (compute_student_gpa recs DEFAULT_4_0_SCALE))
  /\ (forall df,
        has StudentID df = true ->
        exists gpas,
          per_student_gpas df DEFAULT_4_0_SCALE = Ok gpas
          /\ Forall in_range gpas)
  /\ (forall df,
        has StudentID df = true ->
        has Marks df = true -> has CreditHours df = true ->
        exists average_gpa median_gpa,
          average_median_gpa df (Some DEFAULT_4_0_SCALE)
          = Ok (average_gpa, median_gpa)
          /\ in_range average_gpa /\ in_range median_gpa)
  /\ (forall df n,
        has Marks df = true -> has CreditHours df = true ->
        exists entries,
          top_n_students df n (Some DEFAULT_4_0_SCALE) = Ok entries
          /\ Forall (fun e => in_range (si_gpa e)) entries).
Proof.
  split; [exact student_gpa_range|].
  split.
  { intro recs. unfold compute_student_gpa. destruct recs as [|r recs].
    - unfold in_range. split; vm_compute; discriminate.
    - apply gpa_of_loop_range. }
  split; [exact per_student_gpas_range|].
  split.
  { intros df Hs Hm Hc. unfold average_median_gpa. rewrite Hm, Hc.
    destruct (per_student_gpas_range df Hs) as (gpas & -> & H).
    cbn [andb bind].
    destruct gpas as [|g gs].
    - do 2 eexists. split; [reflexivity|].
      split; split; vm_compute; discriminate.
    - do 2 eexists. split; [reflexivity|]. cbn [fst snd].
      split; apply round3_range.
      + apply mean_range; [discriminate|assumption].
      + now apply median_range. }
  intros df n Hm Hc.
  destruct (top_n_students_returns df n (Some DEFAULT_4_0_SCALE))
    as (gpas & -> & F).
  eexists. split; [reflexivity|].
  apply Forall_slice_to.
  eapply Permutation_Forall; [apply sort_desc_perm|].
  eapply Forall2_right; [|exact F].
  intros sid e [Ee _]. cbn beta.
  rewrite (student_entry_gpa df _ sid e Hm Hc Ee).
  apply round3_range, student_gpa_range.
Qed.

(** C3 on the frame with two students: its leaderboard and its average
    and median GPA. *)
Lemma C3_witness_two_students :
  (exists entries,
     top_n_students two_students 5 (Some DEFAULT_4_0_SCALE) = Ok entries
     /\ Forall (fun e => in_range (si_gpa e)) entries)
  /\ (exists average_gpa median_gpa,
        average_median_gpa two_students (Some DEFAULT_4_0_SCALE)
        = Ok (average_gpa, median_gpa)
        /\ in_range average_gpa /\ in_range median_gpa).
Proof.
  pose proof C3_gpa_in_range_on_4_0_scale as (_ & _ & _ & Havg & Htop).
  split.
  - apply (Htop two_students 5%Z); reflexivity.
  - apply (Havg two_students); reflexivity.
Defined.

End GpaRangeViews.

(** ** Subject statistics (C6, C9) *)

Module Subjects.

Import Examples.
Local Open Scope string_scope.

(** C6, as stated, does not hold on the code: on a non-empty frame without
    the CourseCode column [subject_stats] returns the empty list; it
    raises nothing. *)
Lemma C6_missing_course_code_is_not_an_error :
  empty frame_without_course_code = false
  /\ has CourseCode frame_without_course_code = false
  /\ subject_stats frame_without_course_code (Some DEFAULT_4_0_SCALE) = Ok []
  /\ forall exn,
       subject_stats frame_without_course_code (Some DEFAULT_4_0_SCALE)
       <> Raise exn.
Proof.
  repeat split; discriminate.
Qed.

(** C6 (amended): [subject_stats] returns an empty list when the input
    table is empty and also when the CourseCode column is absent. *)
Theorem C6_subject_stats_empty_list (df : DataFrame)
  (scale : option GradeScale) :
  empty df = true \/ has CourseCode df = false ->
  subject_stats df scale = Ok [].
Proof.
  intros [H | H]; unfold subject_stats; rewrite H; simpl;
    rewrite ?orb_true_r; reflexivity.
Qed.

(** C6 on the frame without CourseCode and on the empty frame. *)
Lemma C6_witness_no_course_code :
  subject_stats frame_without_course_code None = Ok []
  /\ subject_stats (mkFrame [] []) None = Ok [].
Proof.
  split.
  - apply (C6_subject_stats_empty_list frame_without_course_code None).
    right. reflexivity.
  - apply (C6_subject_stats_empty_list (mkFrame [] []) None).
    left. reflexivity.
Defined.

(** C9: for every non-empty table with a CourseCode column,
    [subject_stats] returns a list sorted by [average_marks] in descending
    order, with one entry per distinct course code: its length is the
    number of distinct [course_code] values of the input. *)
Theorem C9_subject_stats_sorted_one_per_course (df : DataFrame)
  (scale : option GradeScale) :
  empty df = false ->
  has CourseCode df = true ->
  exists stats,
    subject_stats df scale = Ok stats
    /\ StronglySorted (desc ss_average_marks) stats
    /\ List.length stats
       = List.length (nodup string_dec (map course_code (rows df)))
    /\ Permutation (map ss_course_code stats)
         (unique (map course_code (rows df))).
Proof.
  intros He Hc. unfold subject_stats. rewrite He, Hc. simpl.
  destruct (collect_Forall2 (subject_entry df scale)
              (fun code e => ss_course_code e = code)
              (unique (map course_code (rows df))))
    as (ys & Eys & Fys).
  { intros code Hin. apply subject_entry_ok. now apply unique_In. }
  rewrite Eys. simpl. eexists. split; [reflexivity|].
  apply Forall2_map_eq in Fys.
  assert (P : Permutation (map ss_course_code (sort_desc ss_average_marks ys))
                (unique (map course_code (rows df)))).
  { rewrite <- Fys. apply Permutation_map. symmetry. apply sort_desc_perm. }
  split; [apply sort_desc_sorted|]. split; [|exact P].
  rewrite <- unique_length, <- (Permutation_length P).
  now rewrite length_map.
Qed.

(** C9 on a frame in which two students take the same course. *)
Lemma C9_witness_two_students :
  exists stats,
    subject_stats two_students (Some DEFAULT_4_0_SCALE) = Ok stats
    /\ StronglySorted (desc ss_average_marks) stats
    /\ List.length stats = 1%nat.
Proof.
  destruct (C9_subject_stats_sorted_one_per_course two_students
              (Some DEFAULT_4_0_SCALE)) as (stats & E & S & L & _);
    [reflexivity | reflexivity |].
  exists stats. repeat split; assumption.
Defined.

End Subjects.

(** ** The leaderboard (C8) *)

Module Leaderboard.

Import Examples.
Local Open Scope string_scope.

(** C8, as stated, does not hold for every n: with n = -1 the slice
    [student_gpas[:n]] drops the last entry only, and one of the two
    students is returned, which is more than n entries. *)
Lemma C8_negative_n_keeps_entries :
  exists entries,
    top_n_students two_students (-1) (Some DEFAULT_4_0_SCALE) = Ok entries
    /\ ~ (Z.of_nat (List.length entries) <= -1)%Z.
Proof.
  eexists. split; [vm_compute; reflexivity|]. cbn [List.length]. lia.
Qed.

(** C8 (amended): for every record set and every n >= 0,
    [top_n_students] returns at most n entries, one per distinct
    student_id, sorted by GPA descending; when the number of distinct
    students does not exceed n it returns exactly one entry per distinct
    student; and the sort is stable.  In detail: the entries are the first
    n elements of [sorted], a permutation of the per-student list
    [student_gpas], which follows the order in which the students are met;
    [sorted] is in descending order of GPA and, for each GPA value, holds
    the students with that GPA in the order they have in
    [student_gpas]. *)
Theorem C8_top_n_students (df : DataFrame) (n : Z)
  (scale : option GradeScale) :
  (0 <= n)%Z ->
  exists entries student_gpas sorted,
    top_n_students df n scale = Ok entries
    /\ (Z.of_nat (List.length entries) <= n)%Z
    /\ NoDup (map si_student_id entries)
    /\ incl (map si_student_id entries) (students df)
    /\ StronglySorted (desc si_gpa) entries
    /\ ((List.length (students df) <= Z.to_nat n)%nat ->
        Permutation (map si_student_id entries) (students df))
    /\ (has StudentID df = true ->
        List.length (students df)
        = List.length (nodup string_dec (map student_id (rows df))))
    /\ map si_student_id student_gpas = students df
    /\ Permutation sorted student_gpas
    /\ StronglySorted (desc si_gpa) sorted
    /\ (forall g,
          filter (has_key si_gpa g) sorted
          = filter (has_key si_gpa g) student_gpas)
    /\ entries = firstn (Z.to_nat n) sorted.
Proof.
  intro Hn.
  assert (Hgen : exists student_gpas,
             top_n_students df n scale
             = Ok (firstn (Z.to_nat n) (sort_desc si_gpa student_gpas))
             /\ map si_student_id student_gpas = students df).
  { destruct (top_n_students_returns df n scale) as (gpas & E & F).
    exists gpas. split.
    - rewrite E. unfold slice_to. apply Z.leb_le in Hn. now rewrite Hn.
    - apply Forall2_map_eq.
      eapply Forall2_impl; [|exact F]. now intros sid e [_ Hid]. }
  destruct Hgen as (gpas & Etop & Eids).
  pose proof (sort_desc_perm si_gpa gpas) as Psort.
  assert (Pids : Permutation (map si_student_id (sort_desc si_gpa gpas))
                   (students df)).
  { rewrite <- Eids. apply Permutation_map. now symmetry. }
  exists (firstn (Z.to_nat n) (sort_desc si_gpa gpas)), gpas,
    (sort_desc si_gpa gpas).
  split; [exact Etop|].
  split.
  { pose proof (firstn_le_length (Z.to_nat n) (sort_desc si_gpa gpas)). lia. }
  split.
  { rewrite <- firstn_map. apply firstn_keeps_NoDup.
    eapply Permutation_NoDup; [symmetry; exact Pids|apply students_NoDup]. }
  split.
  { rewrite <- firstn_map. intros x Hx. apply firstn_subset in Hx.
    eapply Permutation_in; [exact Pids|exact Hx]. }
  split; [apply firstn_sorted, sort_desc_sorted|].
  split.
  { intro Hlen. rewrite firstn_all2; [exact Pids|].
    rewrite <- (length_map si_student_id), (Permutation_length Pids).
    exact Hlen. }
  split.
  { intro Hs. unfold students. rewrite Hs. apply unique_length. }
  split; [exact Eids|].
  split; [now symmetry|].
  split; [apply sort_desc_sorted|].
  split; [intro g; apply sort_desc_stable|reflexivity].
Qed.

(** C8 with n = 1 on a frame with two students. *)
Lemma C8_witness_two_students :
  exists entries,
    top_n_students two_students 1 (Some DEFAULT_4_0_SCALE) = Ok entries
    /\ (Z.of_nat (List.length entries) <= 1)%Z
    /\ StronglySorted (desc si_gpa) entries.
Proof.
  destruct (C8_top_n_students two_students 1 (Some DEFAULT_4_0_SCALE))
    as (entries & _ & _ & E & L & _ & _ & S & _); [lia|].
  exists entries. repeat split; assumption.
Defined.

End Leaderboard.

(** ** Persistence (C4) *)

Module RoundTrip.

Import Examples.
Local Open Scope string_scope.

(** C4 at the built-in scales: the claim says that exporting a GradeScale
    and rebuilding it from the export gives back the same scale_type,
    grade_mappings, grade_boundaries and passing_grade.  On the code the
    rebuild of the exported "4.0" scale (and of the "100" scale) raises:
    the boundary pairs are tuples, [yaml.dump] writes them under the
    [python/tuple] tag, and [yaml.safe_load] has no constructor for it; no
    scale is returned. *)
Theorem C4_round_trip_of_default_scale_raises :
  from_yaml (export_config DEFAULT_4_0_SCALE) = Raise tuple_error
  /\ from_yaml (export_config DEFAULT_100_SCALE) = Raise tuple_error
  /\ (forall loaded, from_yaml (export_config DEFAULT_4_0_SCALE) <> Ok loaded).
Proof.
  split; [reflexivity|]. split; [reflexivity|].
  intros loaded. vm_compute. discriminate.
Qed.

Section KeyOrder.

Context {V : Type}.

Lemma insert_key_In (kv x : string * V) (l : list (string * V)) :
  In x (insert_key kv l) <-> x = kv \/ In x l.
Proof.
  induction l as [|kv' l IH]; simpl.
  - intuition congruence.
  - destruct (String.compare (fst kv) (fst kv')); simpl;
      rewrite ?IH; intuition congruence.
Qed.

Lemma sort_keys_In (x : string * V) (l : list (string * V)) :
  In x (sort_keys l) <-> In x l.
Proof.
  induction l as [|kv l IH]; simpl; [tauto|].
  rewrite insert_key_In, IH. intuition congruence.
Qed.

End KeyOrder.

Section KeyOrderMap.

Context {V W : Type} (h : V -> W).

(** Sorting looks at the keys only. *)
Lemma insert_key_map (kv : string * V) (l : list (string * V)) :
  insert_key (on_values h kv) (map (on_values h) l)
  = map (on_values h) (insert_key kv l).
Proof.
  induction l as [|kv' l IH]; [reflexivity|].
  cbn [map insert_key].
  change (fst (on_values h kv)) with (fst kv).
  change (fst (on_values h kv')) with (fst kv').
  destruct (String.compare (fst kv) (fst kv')); cbn [map];
    try reflexivity.
  now rewrite IH.
Qed.

Lemma sort_keys_map (l : list (string * V)) :
  sort_keys (map (on_values h) l) = map (on_values h) (sort_keys l).
Proof.
  induction l as [|kv l IH]; [reflexivity|].
  cbn [map sort_keys fold_right]. fold (sort_keys (map (on_values h) l)).
  fold (sort_keys l). now rewrite IH, insert_key_map.
Qed.

End KeyOrderMap.

Section CollectMore.

Context {X Y Z : Type} (f : Y -> result Z).

(** If [f] raises nothing but [exn], and raises it somewhere, the loop
    raises [exn]. *)
Lemma collect_raise (exn : string) (ys : list Y) :
  (forall y, In y ys -> (exists z, f y = Ok z) \/ f y = Raise exn) ->
  (exists y, In y ys /\ f y = Raise exn) ->
  collect f ys = Raise exn.
Proof.
  induction ys as [|y ys IH]; intros Hall (y0 & Hin & Hy0).
  - destruct Hin.
  - simpl. destruct (Hall y (or_introl eq_refl)) as [(z & Ez) | Er].
    + rewrite Ez. simpl. rewrite IH; [reflexivity| |].
      * intros y' Hy'. apply Hall. now right.
      * destruct Hin as [<- | Hin]; [congruence|]. now exists y0.
    + now rewrite Er.
Qed.

Lemma collect_map_ok (g : X -> Y) (k : X -> Z) (xs : list X) :
  (forall x, In x xs -> f (g x) = Ok (k x)) ->
  collect f (map g xs) = Ok (map k xs).
Proof.
  induction xs as [|x xs IH]; intro H; [reflexivity|].
  cbn [map collect]. rewrite (H x (or_introl eq_refl)). cbn [bind].
  rewrite IH; [reflexivity|]. intros x' Hx'. apply H. now right.
Qed.

End CollectMore.

(** [yaml.dump] writes the four keys in sorted order. *)
Lemma export_config_layout (s : GradeScale) :
  export_config s
  = NMap [ ("grade_boundaries",
             represent (boundaries_to_py (grade_boundaries s)));
           ("grade_mappings", represent (mappings_to_py (grade_mappings s)));
           ("passing_grade", NStr (passing_grade s));
           ("scale_type", NStr (scale_type s)) ].
Proof. reflexivity. Qed.

Lemma construct_boundaries_raise (bs : boundaries) :
  (exists g b, In (g, b) bs /\ kind b = PyTuple) ->
  construct (represent (boundaries_to_py bs)) = Raise tuple_error.
Proof.
  intros (g & b & Hin & Hk).
  unfold boundaries_to_py. cbn [represent construct].
  rewrite (collect_raise _ tuple_error); [reflexivity| |].
  - intros [g' nd] Hx. rewrite sort_keys_In, map_map in Hx.
    apply in_map_iff in Hx.
    destruct Hx as ([g0 b0] & [= <- <-] & _). cbn [fst snd].
    destruct (kind b0); cbn; eauto.
  - exists (g, represent (PSeq (kind b)
                             [PNum (min_bound b); PNum (max_bound b)])).
    split.
    + apply sort_keys_In. rewrite map_map. apply in_map_iff.
      exists (g, b). split; [reflexivity|assumption].
    + rewrite Hk. reflexivity.
Qed.

(** The failure is not particular to the presets: every scale that holds
    a boundary pair as a tuple fails to load from its own export. *)
Lemma round_trip_raises_on_tuples (s : GradeScale) :
  (exists g b, In (g, b) (grade_boundaries s) /\ kind b = PyTuple) ->
  from_yaml (export_config s) = Raise tuple_error.
Proof.
  intro H. unfold from_yaml. rewrite export_config_layout.
  cbn [construct collect bind snd fst].
  now rewrite (construct_boundaries_raise _ H).
Qed.

Lemma construct_mappings (m : mappings) :
  bind (construct (represent (mappings_to_py m))) py_mappings
  = Ok (sort_keys m).
Proof.
  unfold mappings_to_py. cbn [represent]. rewrite map_map.
  change (map (fun x : string * Q => (fst (fst x, PNum (snd x)),
                                      represent (snd (fst x, PNum (snd x)))))
            m)
    with (map (on_values NNum) m).
  rewrite sort_keys_map. cbn [construct].
  rewrite (collect_map_ok _ _ (on_values PNum)).
  - cbn [bind py_mappings].
    rewrite (collect_map_ok _ _ (fun kv => kv)); [now rewrite map_id|].
    now intros [g q] _.
  - now intros [g q] _.
Qed.

Lemma construct_boundaries (bs : boundaries) :
  Forall (fun gb => kind (snd gb) = PyList) bs ->
  bind (construct (represent (boundaries_to_py bs))) py_boundaries
  = Ok (sort_keys bs).
Proof.
  intro H. unfold boundaries_to_py. cbn [represent]. rewrite map_map.
  set (nd := fun b : bound =>
               represent (PSeq (kind b)
                            [PNum (min_bound b); PNum (max_bound b)])).
  change (map _ bs) with (map (on_values nd) bs).
  rewrite sort_keys_map. cbn [construct].
  assert (Hs : Forall (fun gb => kind (snd gb) = PyList) (sort_keys bs)).
  { apply Forall_forall. intros x Hx. rewrite sort_keys_In in Hx.
    revert x Hx. now apply Forall_forall. }
  rewrite (collect_map_ok _ _
             (on_values (fun b => PSeq PyList
                                    [PNum (min_bound b); PNum (max_bound b)]))).
  - cbn [bind py_boundaries].
    rewrite (collect_map_ok _ _ (fun kv => kv)); [now rewrite map_id|].
    intros [g [k lo hi]] Hin. cbn.
    rewrite Forall_forall in Hs. apply Hs in Hin. cbn in Hin. now subst k.
  - intros [g [k lo hi]] Hin. rewrite Forall_forall in Hs.
    apply Hs in Hin. cbn in Hin. subst k. reflexivity.
Qed.

(** A scale whose boundary pairs are lists, as one read from YAML has
    them, does load from its own export: with the same scale type and
    passing grade, and with the items of both tables in the order of their
    keys. *)
Lemma round_trip_of_list_scale (s : GradeScale) :
  Forall (fun gb => kind (snd gb) = PyList) (grade_boundaries s) ->
  from_yaml (export_config s)
  = Ok (mkGradeScale (scale_type s) (sort_keys (grade_mappings s))
          (sort_keys (grade_boundaries s)) (passing_grade s)).
Proof.
  intro H. unfold from_yaml. rewrite export_config_layout.
  pose proof (construct_mappings (grade_mappings s)) as Hm.
  pose proof (construct_boundaries (grade_boundaries s) H) as Hb.
  cbn [construct collect snd fst].
  destruct (construct (represent (boundaries_to_py (grade_boundaries s))))
    as [vb|]; [|discriminate].
  destruct (construct (represent (mappings_to_py (grade_mappings s))))
    as [vm|]; [|discriminate].
  cbn [bind] in *. cbn. unfold read_key. cbn. rewrite Hm, Hb. reflexivity.
Qed.

End RoundTrip.

(** ** Type coercion (C7) *)

Module Coerce.

Import Examples.
Local Open Scope string_scope.

Section WithParsers.

Variable parse_number : string -> option Q.
Variable str_of_number : Q -> string.

(** C7 at the frame of [test_coerce_data_types_missing_critical_data]:
    the claim says that every row missing a value in StudentID, Name, Marks
    or CreditHours is dropped.  On the code the third row, whose Name is
    [None], is kept: [astype(str)] has turned the missing name into the
    text "None" before [dropna] looks at the column, so all three rows
    remain. *)
Theorem C7_row_without_name_is_kept :
  isna (raw_row "S003" CNone "Physics" "PHYS101" "Mechanics" 3.0 88.0 Name)
  = true
  /\ exists df,
       coerce_data_types parse_number str_of_number frame_missing_name = Ok df
       /\ List.length (raw_rows df) = 3%nat
       /\ map (fun row => row Name) (raw_rows df)
          = [CStr "John"; CStr "Jane"; CStr "None"].
Proof.
  split; [reflexivity|].
  eexists. split; [reflexivity|]. split; reflexivity.
Qed.

(** The mechanism: a cell converted by [astype(str)] is a string, never a
    missing value, so a [dropna] on a column converted before it drops no
    row at all. *)
Lemma astype_str_strip_not_missing (v : cell) :
  isna (astype_str_strip str_of_number v) = false.
Proof. now destruct v. Qed.

Lemma column_eqb_refl (c : column) : column_eqb c c = true.
Proof. now destruct c. Qed.

Lemma dropna_after_astype_str (c : column) (df : RawFrame) :
  raw_rows (dropna c (map_column c (astype_str_strip str_of_number) df))
  = raw_rows (map_column c (astype_str_strip str_of_number) df).
Proof.
  unfold dropna, map_column. cbn [raw_rows raw_columns].
  induction (raw_rows df) as [|row rws IH]; [reflexivity|].
  cbn [map filter]. rewrite column_eqb_refl, astype_str_strip_not_missing.
  cbn [negb]. now rewrite IH.
Qed.

(** The step never raises. *)
Lemma coerce_data_types_returns (df : RawFrame) :
  exists out, coerce_data_types parse_number str_of_number df = Ok out.
Proof. eexists. reflexivity. Qed.

(** A numeric cell that stays missing after the conversion does get its
    row dropped. *)
Lemma dropna_drops_missing (c : column) (df : RawFrame) (row : RawRow) :
  In row (raw_rows (dropna c df)) -> isna (row c) = false.
Proof.
  unfold dropna. cbn [raw_rows]. rewrite filter_In, negb_true_iff. tauto.
Qed.

(** An unparseable cell becomes the missing-value marker. *)
Lemma to_numeric_coerce_unparseable (s : string) :
  parse_number s = None ->
  to_numeric_coerce parse_number (CStr s) = CNaN.
Proof. intro H. simpl. now rewrite H. Qed.

End WithParsers.

End Coerce.

(** * Further properties of the code *)

(** ** Validation of a grade scale *)

Section ValidationFacts.

Local Open Scope string_scope.

Lemma flat_map_nil {A B} (f : A -> list B) (l : list A) :
  flat_map f l = [] <-> forall x, In x l -> f x = [].
Proof.
  induction l as [|a l IH]; simpl.
  - tauto.
  - split.
    + intro H. apply app_eq_nil in H. destruct H as [Ha Hl].
      intros x [<- | Hx]; [assumption|]. now apply IH.
    + intro H. rewrite (H a (or_introl eq_refl)). simpl.
      apply IH. intros x Hx. apply H. now right.
Qed.

Lemma enumerate_In {A} (l : list A) (i : nat) (x : A) :
  In (i, x) (enumerate l) <-> nth_error l i = Some x.
Proof.
  unfold enumerate.
  assert (G : forall s, In (i, x) (combine (seq s (List.length l)) l)
                        <-> (s <= i)%nat /\ nth_error l (i - s) = Some x).
  { induction l as [|a l IH]; intro s; simpl.
    - split; [tauto|]. intros [_ H]. now destruct (i - s)%nat.
    - rewrite IH. split.
      + intros [[= <- <-] | [Hs Hn]].
        * split; [lia|]. now rewrite Nat.sub_diag.
        * split; [lia|]. replace (i - s)%nat with (S (i - S s)) by lia.
          exact Hn.
      + intros [Hs Hn]. destruct (Nat.eq_dec s i) as [->|Hne].
        * rewrite Nat.sub_diag in Hn. simpl in Hn. left. congruence.
        * right. split; [lia|].
          replace (i - s)%nat with (S (i - S s)) in Hn by lia. exact Hn. }
  rewrite G, Nat.sub_0_r. intuition lia.
Qed.

Lemma ranges_overlap_false (b1 b2 : bound) :
  ranges_overlap b1 b2 = false
  <-> max_bound b1 < min_bound b2 \/ max_bound b2 < min_bound b1.
Proof.
  unfold ranges_overlap. rewrite negb_false_iff, orb_true_iff.
  rewrite !negb_true_iff.
  split; intros [H|H]; [left|right|left|right].
  - apply Qnot_le_lt. intro C. apply Qle_bool_iff in C. congruence.
  - apply Qnot_le_lt. intro C. apply Qle_bool_iff in C. congruence.
  - destruct (Qle_bool (min_bound b2) (max_bound b1)) eqn:E; [|reflexivity].
    apply Qle_bool_iff in E. lra.
  - destruct (Qle_bool (min_bound b1) (max_bound b2)) eqn:E; [|reflexivity].
    apply Qle_bool_iff in E. lra.
Qed.

Lemma if_nil_iff {A} (c : bool) (x : A) :
  (if c then [] else [x]) = [] <-> c = true.
Proof. destruct c; split; congruence. Qed.

Lemma if_nil_iff' {A} (c : bool) (x : A) :
  (if c then [x] else []) = [] <-> c = false.
Proof. destruct c; split; congruence. Qed.

Lemma app_nil_both {A} (l1 l2 : list A) :
  (l1 ++ l2)%list = [] <-> l1 = [] /\ l2 = [].
Proof.
  split; [apply app_eq_nil|]. now intros [-> ->].
Qed.

Lemma overlap_errors_nil (bs : list bound) :
  flat_map (fun ib1 =>
              if existsb (fun jb2 =>
                            negb (Nat.eqb (fst ib1) (fst jb2))
                            && ranges_overlap (snd ib1) (snd jb2))
                   (enumerate bs)
              then ["Overlapping grade boundaries detected"]
              else [])
    (enumerate bs) = []
  <-> (forall i j b1 b2,
         nth_error bs i = Some b1 -> nth_error bs j = Some b2 -> i <> j ->
         max_bound b1 < min_bound b2 \/ max_bound b2 < min_bound b1).
Proof.
  rewrite flat_map_nil. split.
  - intros H i j b1 b2 Hi Hj Hne.
    specialize (H (i, b1) (proj2 (enumerate_In bs i b1) Hi)).
    apply if_nil_iff' in H.
    rewrite <- not_true_iff_false, existsb_exists in H.
    apply ranges_overlap_false.
    destruct (ranges_overlap b1 b2) eqn:E; [|reflexivity].
    exfalso. apply H. exists (j, b2). split.
    + now apply enumerate_In.
    + cbn [fst snd]. rewrite E, andb_true_r.
      apply negb_true_iff. now apply Nat.eqb_neq.
  - intros H [i b1] Hi. apply if_nil_iff'.
    apply not_true_iff_false. rewrite existsb_exists.
    intros ([j b2] & Hj & Hc). cbn [fst snd] in Hc.
    apply andb_true_iff in Hc. destruct Hc as [Hne Hov].
    apply negb_true_iff, Nat.eqb_neq in Hne.
    apply enumerate_In in Hi. apply enumerate_In in Hj.
    pose proof (proj2 (ranges_overlap_false b1 b2) (H i j b1 b2 Hi Hj Hne)).
    congruence.
Qed.

Lemma validate_grade_scale_nil (scale : GradeScale) :
  validate_grade_scale scale = [] <-> consistent scale.
Proof.
  unfold validate_grade_scale, consistent.
  rewrite !app_nil_both, overlap_errors_nil, !flat_map_nil, if_nil_iff.
  split; intros (H1 & H2 & H3 & H4); repeat split; try assumption.
  - intros g Hg.
    now apply if_nil_iff
      with (x := ("Grade '" ++ g ++ "' in boundaries but not in mappings")),
           H1.
  - intros g Hg.
    now apply if_nil_iff
      with (x := ("Grade '" ++ g ++ "' in mappings but not in boundaries")),
           H2.
  - intros g Hg. apply if_nil_iff. now apply H1.
  - intros g Hg. apply if_nil_iff. now apply H2.
Qed.

(** The loop of [marks_to_grade] returns a grade whose range holds the
    mark, and it finds one whenever some range of the table holds it. *)
Lemma first_match_some (bs : boundaries) (m : Q) (g : string) :
  first_match bs m = Some g ->
  exists i b, nth_error bs i = Some (g, b) /\ in_bound m b.
Proof.
  induction bs as [|[g' b'] bs IH]; simpl; [discriminate|].
  destruct (Qle_bool (min_bound b') m) eqn:Hlo;
    destruct (Qle_bool m (max_bound b')) eqn:Hhi; simpl;
    try (intro H; destruct (IH H) as (i & b & Hi & Hb);
         exists (S i), b; now split).
  intros [= ->]. exists 0%nat, b'. split; [reflexivity|].
  split; now apply Qle_bool_iff.
Qed.

Lemma first_match_finds (bs : boundaries) (m : Q) (g : string) (b : bound) :
  In (g, b) bs -> in_bound m b -> exists g', first_match bs m = Some g'.
Proof.
  intros Hin [Hlo Hhi]. induction bs as [|[g' b'] bs IH]; [destruct Hin|].
  simpl. destruct (Qle_bool (min_bound b') m && Qle_bool m (max_bound b'))
    eqn:E; [eauto|].
  destruct Hin as [[= -> ->] | Hin]; [|now apply IH].
  apply Qle_bool_iff in Hlo. apply Qle_bool_iff in Hhi.
  rewrite Hlo, Hhi in E. discriminate.
Qed.

Lemma integer_marks_In (z : Z) : (0 <= z <= 100)%Z -> In z integer_marks.
Proof.
  intro H. unfold integer_marks. apply in_map_iff.
  exists (Z.to_nat z). split; [lia|]. apply in_seq. lia.
Qed.

Lemma forallb_integer_marks (P : Z -> bool) (z : Z) :
  forallb P integer_marks = true -> (0 <= z <= 100)%Z -> P z = true.
Proof.
  intros H Hz. rewrite forallb_forall in H. now apply H, integer_marks_In.
Qed.

Lemma first_match_out_of_range (m : Q) :
  m < 0 \/ 100 < m ->
  first_match (grade_boundaries DEFAULT_4_0_SCALE) m = None
  /\ first_match (grade_boundaries DEFAULT_100_SCALE) m = None
  /\ first_match (grade_boundaries EUROPEAN_SCALE) m = None.
Proof.
  intro H. repeat split; apply first_match_none; outside_all_ranges.
Qed.

End ValidationFacts.

Module ScaleValidation.

Local Open Scope string_scope.

(** X1: validate_grade_scale returns the empty error list exactly for the
    scales in which every grade of grade_boundaries has an entry in
    grade_mappings, every grade of grade_mappings has an entry in
    grade_boundaries, any two ranges at different positions of
    grade_boundaries are disjoint (one ends strictly before the other
    starts), and passing_grade has an entry in grade_mappings. *)
Theorem X1_validate_grade_scale_empty_iff_consistent (scale : GradeScale) :
  validate_grade_scale scale = [] <-> consistent scale.
Proof. apply validate_grade_scale_nil. Qed.

(** X2: on a scale for which validate_grade_scale reports no error, a mark
    that lies in the range of a grade (both ends included) is given that
    grade by marks_to_grade, whatever the order of the table, and the grade
    has an entry in grade_mappings. *)
Theorem X2_validated_scale_grades_by_range (scale : GradeScale) (g : string)
  (b : bound) (m : Q) :
  validate_grade_scale scale = [] ->
  In (g, b) (grade_boundaries scale) ->
  in_bound m b ->
  marks_to_grade scale (MNum m) = g
  /\ exists p, lookup g (grade_mappings scale) = Some p.
Proof.
  intros Hv Hin Hb.
  apply validate_grade_scale_nil in Hv.
  destruct Hv as (H1 & _ & H3 & _).
  assert (Hg : first_match (grade_boundaries scale) m = Some g).
  { destruct (first_match_finds _ m g b Hin Hb) as (g' & E).
    rewrite E. f_equal.
    destruct (first_match_some _ _ _ E) as (i & b' & Hi & Hb').
    apply In_nth_error in Hin. destruct Hin as (k & Hk).
    destruct (Nat.eq_dec i k) as [->|Hne]; [congruence|].
    exfalso.
    assert (Hi' : nth_error (map snd (grade_boundaries scale)) i = Some b')
      by (rewrite nth_error_map, Hi; reflexivity).
    assert (Hk' : nth_error (map snd (grade_boundaries scale)) k = Some b)
      by (rewrite nth_error_map, Hk; reflexivity).
    destruct Hb as [A1 A2]. destruct Hb' as [B1 B2].
    destruct (H3 i k b' b Hi' Hk' Hne); lra. }
  split.
  - unfold marks_to_grade. now rewrite Hg.
  - assert (Hc : contains g (grade_mappings scale) = true).
    { apply H1. apply in_map_iff. exists (g, b). now split. }
    unfold contains in Hc.
    destruct (lookup g (grade_mappings scale)) as [p|]; [eauto|discriminate].
Qed.

Lemma X2_witness_mark_85 :
  marks_to_grade DEFAULT_4_0_SCALE (MNum 85) = "B"
  /\ exists p, lookup "B" (grade_mappings DEFAULT_4_0_SCALE) = Some p.
Proof.
  apply (X2_validated_scale_grades_by_range DEFAULT_4_0_SCALE "B"
           (tup 83 86) 85).
  - vm_compute. reflexivity.
  - vm_compute. do 4 right. left. reflexivity.
  - unfold in_bound. simpl. split; lra.
Defined.

(** The three scales the module builds at import time pass the
    validation. *)
Lemma built_in_scales_validate :
  validate_grade_scale DEFAULT_4_0_SCALE = []
  /\ validate_grade_scale DEFAULT_100_SCALE = []
  /\ validate_grade_scale EUROPEAN_SCALE = [].
Proof. repeat split; vm_compute; reflexivity. Qed.

End ScaleValidation.

(** ** The built-in tables *)

Module Presets.

Local Open Scope string_scope.

(** X3: a GradeScale built with a scale_type other than "100" and without
    a custom configuration (for instance "custom", or a misspelt name) gets
    the mappings and boundaries of the "4.0" scale and the passing grade
    "D", and keeps the scale_type it was given; nothing is raised. *)
Theorem X3_unknown_scale_type_gets_4_0_tables (st : string) :
  st <> "100" ->
  grade_mappings (init st None) = grade_mappings DEFAULT_4_0_SCALE
  /\ grade_boundaries (init st None) = grade_boundaries DEFAULT_4_0_SCALE
  /\ passing_grade (init st None) = "D"
  /\ scale_type (init st None) = st.
Proof.
  intro H. apply String.eqb_neq in H.
  unfold init, get_grade_mapping, get_grade_boundaries. cbn.
  rewrite H. destruct (String.eqb st "4.0"); repeat split.
Qed.

Lemma X3_witness_custom :
  grade_mappings (init "custom" None) = grade_mappings DEFAULT_4_0_SCALE
  /\ grade_boundaries (init "custom" None)
     = grade_boundaries DEFAULT_4_0_SCALE
  /\ passing_grade (init "custom" None) = "D"
  /\ scale_type (init "custom" None) = "custom".
Proof.
  apply (X3_unknown_scale_type_gets_4_0_tables "custom"). discriminate.
Defined.

(** X4: on each of the three built-in scales a mark below 0 or above 100
    is not rejected: marks_to_grade returns "F" and marks_to_points returns
    0.0. *)
Theorem X4_out_of_range_marks_get_F (m : Q) :
  m < 0 \/ 100 < m ->
  (marks_to_grade DEFAULT_4_0_SCALE (MNum m) = "F"
   /\ marks_to_points DEFAULT_4_0_SCALE (MNum m) == 0)
  /\ (marks_to_grade DEFAULT_100_SCALE (MNum m) = "F"
      /\ marks_to_points DEFAULT_100_SCALE (MNum m) == 0)
  /\ (marks_to_grade EUROPEAN_SCALE (MNum m) = "F"
      /\ marks_to_points EUROPEAN_SCALE (MNum m) == 0).
Proof.
  intro H. destruct (first_match_out_of_range m H) as (H4 & H1 & He).
  unfold marks_to_points, marks_to_grade. rewrite H4, H1, He.
  repeat split; reflexivity.
Qed.

Lemma X4_witness_mark_150 :
  (marks_to_grade DEFAULT_4_0_SCALE (MNum 150) = "F"
   /\ marks_to_points DEFAULT_4_0_SCALE (MNum 150) == 0)
  /\ (marks_to_grade DEFAULT_100_SCALE (MNum 150) = "F"
      /\ marks_to_points DEFAULT_100_SCALE (MNum 150) == 0)
  /\ (marks_to_grade EUROPEAN_SCALE (MNum 150) = "F"
      /\ marks_to_points EUROPEAN_SCALE (MNum 150) == 0).
Proof.
  apply (X4_out_of_range_marks_get_F 150). right. reflexivity.
Defined.

(** X5: on each of the three built-in scales every integer mark from 0 to
    100 lies in a range of the boundary table, and marks_to_grade returns
    the grade of such a range (the fall-through to "F" is not taken). *)
Theorem X5_integer_marks_have_a_range (z : Z) :
  (0 <= z <= 100)%Z ->
  forall scale,
    In scale [DEFAULT_4_0_SCALE; DEFAULT_100_SCALE; EUROPEAN_SCALE] ->
    exists g b,
      In (g, b) (grade_boundaries scale)
      /\ in_bound (inject_Z z) b
      /\ marks_to_grade scale (MNum (inject_Z z)) = g.
Proof.
  intros Hz scale Hs.
  assert (H : forallb (in_some_range scale) integer_marks = true).
  { destruct Hs as [<- | [<- | [<- | []]]]; vm_compute; reflexivity. }
  pose proof (forallb_integer_marks _ z H Hz) as Hr.
  unfold in_some_range in Hr.
  destruct (first_match (grade_boundaries scale) (inject_Z z)) as [g|] eqn:E;
    [|discriminate].
  destruct (first_match_some _ _ _ E) as (i & b & Hi & Hb).
  exists g, b. split; [eapply nth_error_In; eauto|].
  split; [assumption|]. unfold marks_to_grade. now rewrite E.
Qed.

Lemma X5_witness_mark_85 :
  exists g b,
    In (g, b) (grade_boundaries DEFAULT_4_0_SCALE)
    /\ in_bound (inject_Z 85) b
    /\ marks_to_grade DEFAULT_4_0_SCALE (MNum (inject_Z 85)) = g.
Proof.
  apply (X5_integer_marks_have_a_range 85); [lia|]. left. reflexivity.
Defined.

(** X6: on each of the three built-in scales the grade points do not
    decrease with the mark, over the integer marks from 0 to 100. *)
Theorem X6_points_grow_with_integer_marks (z1 z2 : Z) :
  (0 <= z1)%Z -> (z1 <= z2)%Z -> (z2 <= 100)%Z ->
  forall scale,
    In scale [DEFAULT_4_0_SCALE; DEFAULT_100_SCALE; EUROPEAN_SCALE] ->
    marks_to_points scale (MNum (inject_Z z1))
    <= marks_to_points scale (MNum (inject_Z z2)).
Proof.
  intros H0 H12 H100 scale Hs.
  assert (H : monotone_on_integers scale = true).
  { destruct Hs as [<- | [<- | [<- | []]]]; vm_compute; reflexivity. }
  unfold monotone_on_integers in H.
  pose proof (forallb_integer_marks _ z1 H ltac:(lia)) as H1.
  cbv beta in H1.
  pose proof (forallb_integer_marks _ z2 H1 ltac:(lia)) as H2.
  cbv beta in H2. apply Z.leb_le in H12. rewrite H12 in H2.
  now apply Qle_bool_iff.
Qed.

Lemma X6_witness_marks_62_63 :
  marks_to_points DEFAULT_4_0_SCALE (MNum (inject_Z 62))
  <= marks_to_points DEFAULT_4_0_SCALE (MNum (inject_Z 63)).
Proof.
  apply (X6_points_grow_with_integer_marks 62 63); [lia|lia|lia|].
  left. reflexivity.
Defined.

(** X7: for an integer mark z, is_passing_grade of the grade that
    marks_to_grade gives to z is true exactly when 63 <= z <= 100 on the
    "4.0" scale, when 45 <= z <= 100 on the "100" scale, and when
    60 <= z <= 100 on the European scale; marks outside 0..100 fail. *)
Theorem X7_pass_marks_of_the_presets (z : Z) :
  (is_passing_grade DEFAULT_4_0_SCALE
     (marks_to_grade DEFAULT_4_0_SCALE (MNum (inject_Z z))) = true
   <-> (63 <= z <= 100)%Z)
  /\ (is_passing_grade DEFAULT_100_SCALE
        (marks_to_grade DEFAULT_100_SCALE (MNum (inject_Z z))) = true
      <-> (45 <= z <= 100)%Z)
  /\ (is_passing_grade EUROPEAN_SCALE
        (marks_to_grade EUROPEAN_SCALE (MNum (inject_Z z))) = true
      <-> (60 <= z <= 100)%Z).
Proof.
  destruct (Z_le_dec 0 z) as [H0|H0];
    [destruct (Z_le_dec z 100) as [H1|H1]|].
  - assert (G : forall scale k,
               forallb (fun z => Bool.eqb (passes scale z) (k <=? z)%Z)
                 integer_marks = true ->
               (passes scale z = true <-> (k <= z <= 100)%Z)).
    { intros scale k H.
      pose proof (forallb_integer_marks _ z H ltac:(lia)) as E.
      cbv beta in E. apply eqb_prop in E. rewrite E, Z.leb_le. lia. }
    split; [|split]; apply G; vm_compute; reflexivity.
  - assert (Hq : inject_Z z < 0 \/ 100 < inject_Z z).
    { right. change 100 with (inject_Z 100). rewrite <- Zlt_Qlt. lia. }
    destruct (first_match_out_of_range _ Hq) as (E4 & E1 & Ee).
    unfold marks_to_grade. rewrite E4, E1, Ee.
    split; [|split];
      (split; [intro C; vm_compute in C; discriminate | lia]).
  - assert (Hq : inject_Z z < 0 \/ 100 < inject_Z z).
    { left. change 0 with (inject_Z 0). rewrite <- Zlt_Qlt. lia. }
    destruct (first_match_out_of_range _ Hq) as (E4 & E1 & Ee).
    unfold marks_to_grade. rewrite E4, E1, Ee.
    split; [|split];
      (split; [intro C; vm_compute in C; discriminate | lia]).
Qed.

End Presets.

(** ** The credit-weighted average *)

Section WeightedAverage.




Variable scale : GradeScale.




End WeightedAverage.

Section SortedStrings.

Lemma insert_string_In (s x : string) (l : list string) :
  In x (insert_string s l) <-> x = s \/ In x l.
Proof.
  induction l as [|s' l IH]; simpl.
  - intuition congruence.
  - destruct (String.compare s s'); simpl; rewrite ?IH; intuition congruence.
Qed.

Lemma sort_strings_In (x : string) (l : list string) :
  In x (sort_strings l) <-> In x l.
Proof.
  induction l as [|s l IH]; simpl; [tauto|].
  rewrite insert_string_In, IH. intuition congruence.
Qed.

End SortedStrings.

Section GroupAverage.

Variable scale : GradeScale.




End GroupAverage.

Module WeightedGpa.

Import Examples.
Local Open Scope string_scope.







(** [np.average] refuses the weights of a student whose credit hours sum
    to zero, and the [except] clause passes its message on. *)
Lemma compute_gpa_zero_credits (df : DataFrame) (scale : GradeScale)
  (sid : string) :
  has StudentID df = true -> has Marks df = true ->
  has CreditHours df = true ->
  In sid (map student_id (rows df)) ->
  sum (map credit_hours (rows (where_eq student_id sid df))) == 0 ->
  compute_gpa df scale
  = Raise "Error computing GPA: Weights sum to zero, can't be normalized".
Proof.
  intros Hs Hm Hc Hin Hz. unfold compute_gpa. cbn [filter].
  rewrite Hs, Hm, Hc. cbn [negb].
  match goal with
  | |- context [collect ?f ?xs] =>
      rewrite (RoundTrip.collect_raise f
                 "Weights sum to zero, can't be normalized" xs)
  end; [reflexivity| |].
  - intros x _. cbv zeta. unfold np_average.
    destruct (Qeq_bool _ 0); cbn; eauto.
  - exists sid. split.
    + now rewrite sort_strings_In, unique_In.
    + cbv zeta. unfold np_average.
      apply Qeq_bool_iff in Hz. now rewrite Hz.
Qed.

(** X11: compute_gpa returns a Series exactly when the frame carries the
    three columns StudentID, Marks and CreditHours and no student's credit
    hours sum to zero; in every other case it raises ValueError.  When the
    columns are there and the credit hours of some student sum to zero, the
    message is "Error computing GPA: Weights sum to zero, can't be
    normalized": compute_gpa does not fall back to 0.0 as the
    single-student computation does. *)
Theorem X11_compute_gpa_returns_iff (df : DataFrame) (scale : GradeScale) :
  ((exists gpas, compute_gpa df scale = Ok gpas)
   <-> has StudentID df = true /\ has Marks df = true
       /\ has CreditHours df = true
       /\ forall sid,
            In sid (map student_id (rows df)) ->
            ~ sum (map credit_hours (rows (where_eq student_id sid df))) == 0)
  /\ (has StudentID df = true /\ has Marks df = true
      /\ has CreditHours df = true
      /\ (exists sid,
            In sid (map student_id (rows df))
            /\ sum (map credit_hours (rows (where_eq student_id sid df)))
               == 0) ->
      compute_gpa df scale
      = Raise "Error computing GPA: Weights sum to zero, can't be normalized").
Proof.
  split; [|intros (Hs & Hm & Hc & sid & Hin & Hz);
           now apply (compute_gpa_zero_credits df scale sid)].
  split.
  - intros (gpas & E).
    destruct (has StudentID df) eqn:Hs;
      [|unfold compute_gpa in E; cbn [filter] in E; rewrite Hs in E;
        discriminate E].
    destruct (has Marks df) eqn:Hm;
      [|unfold compute_gpa in E; cbn [filter] in E; rewrite Hs, Hm in E;
        discriminate E].
    destruct (has CreditHours df) eqn:Hc;
      [|unfold compute_gpa in E; cbn [filter] in E; rewrite Hs, Hm, Hc in E;
        discriminate E].
    repeat split. intros sid Hin Hz.
    rewrite (compute_gpa_zero_credits df scale sid Hs Hm Hc Hin Hz) in E.
    discriminate E.
  - intros (Hs & Hm & Hc & Hz). unfold compute_gpa. cbn [filter].
    rewrite Hs, Hm, Hc. cbn [negb].
    match goal with
    | |- context [collect ?f ?xs] =>
        destruct (collect_Forall2 f (fun _ _ => True) xs) as (ys & Eys & _)
    end.
    { intros sid Hin. rewrite sort_strings_In, unique_In in Hin.
      cbv zeta. unfold np_average.
      destruct (Qeq_bool _ 0) eqn:E.
      - apply Qeq_bool_iff in E. now apply Hz in E.
      - cbn. eauto. }
    rewrite Eys. cbn. eauto.
Qed.

End WeightedGpa.

(** ** Counting rows, passes and maxima *)

Section Counting.

Lemma list_sum_perm (l l' : list nat) :
  Permutation l l' -> list_sum l = list_sum l'.
Proof. induction 1; simpl; lia. Qed.

Lemma list_sum_cons (x : nat) (l : list nat) :
  list_sum (x :: l) = (x + list_sum l)%nat.
Proof. reflexivity. Qed.

Lemma list_sum_map_add {A} (f g : A -> nat) (l : list A) :
  list_sum (map (fun x => f x + g x)%nat l)
  = (list_sum (map f l) + list_sum (map g l))%nat.
Proof. induction l; simpl; lia. Qed.

Lemma indicator_sum_absent (x : string) (ks : list string) :
  ~ In x ks ->
  list_sum (map (fun k => if String.eqb x k then 1 else 0)%nat ks) = 0%nat.
Proof.
  induction ks as [|k ks IH]; intro H; simpl; [reflexivity|].
  destruct (String.eqb_spec x k) as [->|_].
  - exfalso. apply H. now left.
  - apply IH. intro C. apply H. now right.
Qed.

Lemma indicator_sum (x : string) (ks : list string) :
  NoDup ks -> In x ks ->
  list_sum (map (fun k => if String.eqb x k then 1 else 0)%nat ks) = 1%nat.
Proof.
  induction 1 as [|k ks Hk Hnd IH]; intro Hin; [destruct Hin|].
  cbn [map]. rewrite list_sum_cons.
  destruct (String.eqb_spec x k) as [->|Hne].
  - now rewrite indicator_sum_absent.
  - destruct Hin as [->|Hin]; [congruence|]. now rewrite IH.
Qed.

(** The groups of a [groupby] on a string column cover the rows, each row
    once. *)
Lemma group_sizes {A} (key : A -> string) (l : list A) (ks : list string) :
  NoDup ks -> (forall a, In a l -> In (key a) ks) ->
  list_sum (map (fun k =>
                   List.length (filter (fun a => String.eqb (key a) k) l)) ks)
  = List.length l.
Proof.
  intro Hnd. induction l as [|a l IH]; intro Hin.
  - simpl. clear. induction ks as [|k ks IHk]; [reflexivity|exact IHk].
  - transitivity
      (list_sum
         (map (fun k =>
                 (if String.eqb (key a) k then 1 else 0)
                 + List.length (filter (fun a => String.eqb (key a) k) l))%nat
            ks)).
    + f_equal. apply map_ext. intro k. cbn [filter].
      now destruct (String.eqb (key a) k).
    + rewrite (list_sum_map_add
                 (fun k => if String.eqb (key a) k then 1 else 0)%nat
                 (fun k =>
                    List.length (filter (fun a => String.eqb (key a) k) l))).
      rewrite (indicator_sum (key a) ks Hnd (Hin a (or_introl eq_refl))).
      rewrite IH; [reflexivity|].
      intros a' Ha'. apply Hin. now right.
Qed.

Lemma count_at_least_le (t : Q) (l : list Q) :
  (count_at_least t l <= List.length l)%nat.
Proof. apply filter_length_le. Qed.

Lemma count_at_least_all (t : Q) (l : list Q) :
  Forall (fun m => t <= m) l -> count_at_least t l = List.length l.
Proof.
  unfold count_at_least. induction 1 as [|m l Hm _ IH]; [reflexivity|].
  cbn [filter]. apply Qle_bool_iff in Hm. rewrite Hm. simpl. now rewrite IH.
Qed.

Lemma count_at_least_none (t : Q) (l : list Q) :
  Forall (fun m => m < t) l -> count_at_least t l = 0%nat.
Proof.
  unfold count_at_least. induction 1 as [|m l Hm _ IH]; [reflexivity|].
  cbn [filter]. destruct (Qle_bool t m) eqn:E; [|exact IH].
  apply Qle_bool_iff in E. lra.
Qed.

Lemma inject_nat_pos (n : nat) : (0 < n)%nat -> 0 < inject_Z (Z.of_nat n).
Proof. intro H. change 0 with (inject_Z 0). rewrite <- Zlt_Qlt. lia. Qed.

Lemma rate_range (p n : nat) : (p <= n)%nat -> 0 <= rate p n <= 100.
Proof.
  intro H. unfold rate. destruct (Nat.ltb_spec 0 n) as [Hn|Hn]; [|lra].
  pose proof (inject_nat_pos n Hn) as Hq.
  assert (Hp : 0 <= inject_Z (Z.of_nat p)).
  { change 0 with (inject_Z 0). rewrite <- Zle_Qle. lia. }
  assert (Hpn : inject_Z (Z.of_nat p) <= inject_Z (Z.of_nat n)).
  { rewrite <- Zle_Qle. lia. }
  assert (H0 : 0 <= inject_Z (Z.of_nat p) / inject_Z (Z.of_nat n)).
  { apply Qle_shift_div_l; [exact Hq|lra]. }
  assert (H1 : inject_Z (Z.of_nat p) / inject_Z (Z.of_nat n) <= 1).
  { apply Qle_shift_div_r; [exact Hq|lra]. }
  split; lra.
Qed.

Lemma rate_all (n : nat) : (0 < n)%nat -> rate n n == 100.
Proof.
  intro Hn. unfold rate. apply Nat.ltb_lt in Hn as Hb. rewrite Hb.
  pose proof (inject_nat_pos n Hn). field. lra.
Qed.

Lemma rate_none (n : nat) : rate 0 n == 0.
Proof.
  unfold rate. destruct (0 <? n)%nat; [|reflexivity].
  change (inject_Z (Z.of_nat 0)) with 0. unfold Qdiv. ring.
Qed.

(** Rounding leaves an integer where it is. *)
Lemma round_integer (q : Q) (n : nat) (z : Z) :
  q == inject_Z z -> round q n == inject_Z z.
Proof.
  intro H. destruct (round_bounds q n z z) as [H1 H2]; lra.
Qed.





(** Rounding twice to the same number of digits changes nothing more. *)
Lemma round_round (q : Q) (n : nat) : round (round q n) n = round q n.
Proof.
  unfold round at 1 3.
  set (s := (10 ^ Z.of_nat n)%Z).
  assert (Hs : (0 < s)%Z) by (apply Z.pow_pos_nonneg; lia).
  f_equal.
  rewrite (round_half_even_Qeq _ (inject_Z (round_half_even (q * inject_Z s)))).
  - unfold round_half_even at 1. rewrite Qfloor_Z.
    destruct (Qcompare_spec
                (inject_Z (round_half_even (q * inject_Z s))
                 - inject_Z (round_half_even (q * inject_Z s))) (1 # 2));
      [exfalso; lra|reflexivity|exfalso; lra].
  - unfold round. fold s. unfold Qeq. cbn [Qnum Qden Qmult inject_Z].
    rewrite Pos.mul_1_r, Z2Pos.id by exact Hs. ring.
Qed.

Lemma first_max_spec (key : Row -> Q) (l : list Row) (best : Row) :
  key best <= key (first_max key best l)
  /\ (forall x, In x l -> key x <= key (first_max key best l))
  /\ (first_max key best l = best
      \/ exists pre post,
           l = pre ++ first_max key best l :: post
           /\ key best < key (first_max key best l)
           /\ forall x, In x pre -> key x < key (first_max key best l)).
Proof.
  revert best. induction l as [|r l IH]; intro best; simpl.
  - split; [lra|]. split; [tauto|now left].
  - destruct (Qlt_le_dec (key best) (key r)) as [Hlt|Hle].
    + destruct (IH r) as (H1 & H2 & H3). split; [lra|]. split.
      * intros x [<-|Hx]; auto.
      * right. destruct H3 as [E | (pre & post & El & Hb & Hpre)].
        -- exists [], l. rewrite E. simpl. repeat split; auto.
           intros x [].
        -- exists (r :: pre), post. split; [simpl; f_equal; exact El|].
           split; [lra|]. intros x [<-|Hx]; [exact Hb|auto].
    + destruct (IH best) as (H1 & H2 & H3). split; [exact H1|]. split.
      * intros x [<-|Hx]; [lra|auto].
      * destruct H3 as [E | (pre & post & El & Hb & Hpre)]; [now left|].
        right. exists (r :: pre), post. split; [simpl; f_equal; exact El|].
        split; [exact Hb|]. intros x [<-|Hx]; [lra|auto].
Qed.

Lemma collect_ok {X Y} (f : X -> result Y) (xs : list X) (ys : list Y) :
  collect f xs = Ok ys -> Forall2 (fun x y => f x = Ok y) xs ys.
Proof.
  revert ys. induction xs as [|x xs IH]; intros ys H; simpl in H.
  - injection H as <-. constructor.
  - destruct (f x) as [y|] eqn:E; [|discriminate]. simpl in H.
    destruct (collect f xs) as [ys'|]; [|discriminate]. simpl in H.
    injection H as <-. constructor; auto.
Qed.

Lemma Forall2_impl_In {X Y} (P Q : X -> Y -> Prop) (xs : list X)
  (ys : list Y) :
  (forall x y, In x xs -> P x y -> Q x y) ->
  Forall2 P xs ys -> Forall2 Q xs ys.
Proof.
  intros H F. induction F as [|x y xs ys Hxy _ IH]; constructor.
  - apply H; [now left|assumption].
  - apply IH. intros x' y' Hx'. apply H. now right.
Qed.

Lemma Forall2_In_r {X Y} (P : X -> Y -> Prop) (xs : list X) (ys : list Y)
  (y : Y) :
  Forall2 P xs ys -> In y ys -> exists x, In x xs /\ P x y.
Proof.
  induction 1 as [|x y' xs ys Hxy _ IH]; intro Hin; [destruct Hin|].
  destruct Hin as [<-|Hin].
  - exists x. split; [now left|assumption].
  - destruct (IH Hin) as (x' & Hx' & Hp). exists x'. split; [now right|auto].
Qed.

End Counting.

(** ** Subject statistics, entry by entry *)

Section SubjectEntry.

Local Open Scope string_scope.

Variable df : DataFrame.
Variable scale : option GradeScale.

(** The list [subject_stats] sorts: the entry of each course code, in the
    order the codes are met. *)
Lemma subject_stats_entries :
  empty df = false -> has CourseCode df = true ->
  exists ys,
    subject_stats df scale = Ok (sort_desc ss_average_marks ys)
    /\ Forall2 (fun code e => subject_entry df scale code = Ok e)
         (unique (map course_code (rows df))) ys.
Proof.
  intros He Hc. unfold subject_stats. rewrite He, Hc. simpl.
  destruct (collect_Forall2 (subject_entry df scale)
              (fun code e => subject_entry df scale code = Ok e)
              (unique (map course_code (rows df))))
    as (ys & Eys & Fys).
  { intros code Hin.
    destruct (subject_entry_ok df scale code) as (e & Ee & _);
      [now apply unique_In|].
    eauto. }
  exists ys. rewrite Eys. simpl. auto.
Qed.

(** The fields of the entry of one course. *)
Lemma subject_entry_fields (code : string) (e : SubjectStat) :
  subject_entry df scale code = Ok e ->
  ss_course_code e = code
  /\ ss_total_students e
     = List.length (rows (where_eq course_code code df))
  /\ ss_average_marks e
     = round (if has Marks (where_eq course_code code df)
              then mean (map marks (rows (where_eq course_code code df)))
              else 0) 2
  /\ ss_pass_rate e
     = round
         (rate
            match scale with
            | Some sc =>
                if has Marks (where_eq course_code code df)
                then count_at_least (grade_to_points sc (passing_grade sc) * 25)
                       (map marks (rows (where_eq course_code code df)))
                else 0%nat
            | None =>
                if has Marks (where_eq course_code code df)
                then count_at_least 60
                       (map marks (rows (where_eq course_code code df)))
                else 0%nat
            end
            (List.length (rows (where_eq course_code code df)))) 2
  /\ (has Marks (where_eq course_code code df)
      && has Name (where_eq course_code code df) = true ->
      exists r rs,
        rows (where_eq course_code code df) = r :: rs
        /\ ss_top_scorer e = Some (name (first_max marks r rs))
        /\ ss_top_score e = Some (round (marks (first_max marks r rs)) 2)).
Proof.
  unfold subject_entry. cbv zeta.
  repeat match goal with
         | |- bind ?x _ = Ok _ -> _ =>
             destruct x eqn:?; cbn [bind]; [|discriminate]
         end.
  intros [= <-].
  cbn [ss_course_code ss_total_students ss_average_marks ss_pass_rate
       ss_top_scorer ss_top_score].
  repeat split.
  intro Hmn.
  match goal with
  | H : (if has Marks _ && has Name _ then _ else _) = Ok _ |- _ =>
      rewrite Hmn in H; unfold idxmax in H;
      destruct (rows (where_eq course_code code df)) as [|r rs];
      [discriminate H|]; cbn [bind] in H; injection H as <-
  end.
  exists r, rs. repeat split.
Qed.

End SubjectEntry.

Module SubjectEntries.

Import Examples.
Local Open Scope string_scope.

(** X12: on a non-empty frame with a CourseCode column, subject_stats
    counts every row for exactly one course: the total_students fields of
    the entries add up to the number of rows, and every entry counts at
    least one row. *)
Theorem X12_subject_stats_counts_every_row (df : DataFrame)
  (scale : option GradeScale) :
  empty df = false ->
  has CourseCode df = true ->
  exists stats,
    subject_stats df scale = Ok stats
    /\ list_sum (map ss_total_students stats) = List.length (rows df)
    /\ Forall (fun e => (1 <= ss_total_students e)%nat) stats.
Proof.
  intros He Hc.
  destruct (subject_stats_entries df scale He Hc) as (ys & E & F).
  exists (sort_desc ss_average_marks ys). split; [exact E|].
  assert (Ht : Forall2 (fun code e =>
                          In code (map course_code (rows df))
                          /\ ss_total_students e
                             = List.length
                                 (filter (fun r => String.eqb (course_code r) code)
                                    (rows df)))
                 (unique (map course_code (rows df))) ys).
  { eapply Forall2_impl_In; [|exact F].
    intros code e Hin Hce. split; [now apply unique_In|].
    now destruct (subject_entry_fields df scale code e Hce) as (_ & Hn & _). }
  split.
  - rewrite <- (list_sum_perm _ _
                  (Permutation_map ss_total_students
                     (sort_desc_perm ss_average_marks ys))).
    rewrite <- (group_sizes course_code (rows df)
                  (unique (map course_code (rows df)))).
    + f_equal. clear -Ht.
      induction Ht as [|code e cs es [_ Hn] _ IH]; [reflexivity|].
      cbn [map]. now rewrite Hn, IH.
    + apply unique_NoDup.
    + intros r Hr. apply unique_In. now apply in_map.
  - eapply Permutation_Forall; [apply sort_desc_perm|].
    eapply Forall2_right; [|exact Ht].
    intros code e [Hin Hn]. rewrite Hn.
    destruct (where_eq_rows course_code code df Hin) as (r & rs & Er).
    cbn [where_eq rows] in Er. rewrite Er. simpl. lia.
Qed.

Lemma X12_witness_two_students :
  exists stats,
    subject_stats two_students None = Ok stats
    /\ list_sum (map ss_total_students stats) = 2%nat.
Proof.
  destruct (X12_subject_stats_counts_every_row two_students None)
    as (stats & E & S & _); [reflexivity|reflexivity|].
  exists stats. split; assumption.
Defined.



(** X14: when the frame carries Marks and Name, the top scorer of a course
    is the first row of the course holding the highest mark: every earlier
    row of the course has a strictly lower mark, no later row has a higher
    one, and top_score is that mark rounded to 2 decimals. *)
Theorem X14_top_scorer_is_first_maximum (df : DataFrame)
  (scale : option GradeScale) :
  empty df = false ->
  has CourseCode df = true ->
  has Marks df = true ->
  has Name df = true ->
  exists stats,
    subject_stats df scale = Ok stats
    /\ Forall (fun e =>
                 exists pre r post,
                   rows (where_eq course_code (ss_course_code e) df)
                   = (pre ++ r :: post)%list
                   /\ ss_top_scorer e = Some (name r)
                   /\ ss_top_score e = Some (round (marks r) 2)
                   /\ (forall x, In x pre -> marks x < marks r)
                   /\ (forall x, In x post -> marks x <= marks r)) stats.
Proof.
  intros He Hc Hm Hn.
  destruct (subject_stats_entries df scale He Hc) as (ys & E & F).
  exists (sort_desc ss_average_marks ys). split; [exact E|].
  eapply Permutation_Forall; [apply sort_desc_perm|].
  eapply Forall2_right; [|exact F].
  intros code e Hce.
  destruct (subject_entry_fields df scale code e Hce)
    as (Hcode & _ & _ & _ & Ht).
  change (has Marks (where_eq course_code code df)) with (has Marks df) in Ht.
  change (has Name (where_eq course_code code df)) with (has Name df) in Ht.
  rewrite Hm, Hn in Ht.
  destruct (Ht eq_refl) as (r & rs & Er & Hname & Hscore).
  rewrite Hcode, Er, Hname, Hscore.
  destruct (first_max_spec marks rs r) as (H1 & H2 & H3).
  destruct H3 as [Eb | (pre & post & El & Hb & Hpre)].
  - exists [], r, rs. rewrite Eb in *. repeat split; auto.
    intros x [].
  - exists (r :: pre), (first_max marks r rs), post.
    split; [simpl; f_equal; exact El|].
    repeat split.
    + intros x [<-|Hx]; [exact Hb|auto].
    + intros x Hx. apply H2. rewrite El. apply in_or_app. right. now right.
Qed.

Lemma X14_witness_two_students :
  exists stats,
    subject_stats two_students None = Ok stats
    /\ Forall (fun e =>
                 exists pre r post,
                   rows (where_eq course_code (ss_course_code e) two_students)
                   = (pre ++ r :: post)%list
                   /\ ss_top_scorer e = Some (name r)
                   /\ ss_top_score e = Some (round (marks r) 2)
                   /\ (forall x, In x pre -> marks x < marks r)
                   /\ (forall x, In x post -> marks x <= marks r)) stats.
Proof.
  apply (X14_top_scorer_is_first_maximum two_students None); reflexivity.
Defined.

(** With the "4.0" scale the threshold is 1.0 * 25 = 25 marks. *)
Lemma pass_threshold_on_4_0_scale (df : DataFrame) :
  empty df = false ->
  has CourseCode df = true ->
  has Marks df = true ->
  Forall (fun r => 25 <= marks r) (rows df) ->
  exists stats,
    subject_stats df (Some DEFAULT_4_0_SCALE) = Ok stats
    /\ Forall (fun e => ss_pass_rate e == 100) stats.
Proof.
  intros He Hc Hm H25.
  destruct (subject_stats_entries df (Some DEFAULT_4_0_SCALE) He Hc)
    as (ys & E & F).
  exists (sort_desc ss_average_marks ys). split; [exact E|].
  eapply Permutation_Forall; [apply sort_desc_perm|].
  eapply (Forall2_right (fun code e =>
                           In code (unique (map course_code (rows df)))
                           /\ subject_entry df (Some DEFAULT_4_0_SCALE) code
                              = Ok e));
    [|eapply Forall2_impl_In; [|exact F]; intros code e Hi Hce; now split].
  intros code e [Hin Hce]. apply (proj1 (unique_In _ _)) in Hin.
  destruct (subject_entry_fields df _ code e Hce) as (_ & _ & _ & Hp & _).
  change (has Marks (where_eq course_code code df)) with (has Marks df) in Hp.
  rewrite Hm in Hp. rewrite Hp.
  apply (round_integer _ 2 100).
  rewrite count_at_least_all.
  - rewrite length_map. apply rate_all.
    destruct (where_eq_rows course_code code df Hin) as (r & rs & Er).
    rewrite Er. simpl. lia.
  - apply Forall_map, Forall_forall. intros r Hr.
    cbn [where_eq rows] in Hr. apply filter_In in Hr.
    rewrite Forall_forall in H25.
    assert (Ht : grade_to_points DEFAULT_4_0_SCALE
                   (passing_grade DEFAULT_4_0_SCALE) * 25 == 25)
      by reflexivity.
    rewrite Ht. now apply H25.
Qed.

(** With the "100" scale the threshold is 45 * 25 = 1125 marks. *)
Lemma pass_threshold_on_100_scale (df : DataFrame) :
  empty df = false ->
  has CourseCode df = true ->
  has Marks df = true ->
  Forall (fun r => marks r < 1125) (rows df) ->
  exists stats,
    subject_stats df (Some DEFAULT_100_SCALE) = Ok stats
    /\ Forall (fun e => ss_pass_rate e == 0) stats.
Proof.
  intros He Hc Hm Hlt.
  destruct (subject_stats_entries df (Some DEFAULT_100_SCALE) He Hc)
    as (ys & E & F).
  exists (sort_desc ss_average_marks ys). split; [exact E|].
  eapply Permutation_Forall; [apply sort_desc_perm|].
  eapply Forall2_right; [|exact F].
  intros code e Hce.
  destruct (subject_entry_fields df _ code e Hce) as (_ & _ & _ & Hp & _).
  change (has Marks (where_eq course_code code df)) with (has Marks df) in Hp.
  rewrite Hm in Hp. rewrite Hp.
  apply (round_integer _ 2 0).
  rewrite count_at_least_none; [apply rate_none|].
  apply Forall_map, Forall_forall. intros r Hr.
  cbn [where_eq rows] in Hr. apply filter_In in Hr.
  rewrite Forall_forall in Hlt.
  assert (Ht : grade_to_points DEFAULT_100_SCALE
                 (passing_grade DEFAULT_100_SCALE) * 25 == 1125)
    by reflexivity.
  rewrite Ht. now apply Hlt.
Qed.

(** X15: subject_stats takes grade_to_points(passing_grade) * 25 as the
    pass mark of a course.  With the default "4.0" scale that is 25 marks:
    on a frame whose marks are all at least 25 every course has pass_rate
    100, although the same scale grades marks below 63 as "F".  With the
    "100" scale it is 45 * 25 = 1125 marks: on a frame whose marks are all
    below 1125, which includes every mark up to 100, every course has
    pass_rate 0. *)
Theorem X15_subject_pass_thresholds (df : DataFrame) :
  empty df = false ->
  has CourseCode df = true ->
  has Marks df = true ->
  (Forall (fun r => 25 <= marks r) (rows df) ->
   exists stats,
     subject_stats df (Some DEFAULT_4_0_SCALE) = Ok stats
     /\ Forall (fun e => ss_pass_rate e == 100) stats)
  /\ (Forall (fun r => marks r < 1125) (rows df) ->
      exists stats,
        subject_stats df (Some DEFAULT_100_SCALE) = Ok stats
        /\ Forall (fun e => ss_pass_rate e == 0) stats).
Proof.
  intros He Hc Hm. split; intro H.
  - now apply pass_threshold_on_4_0_scale.
  - now apply pass_threshold_on_100_scale.
Qed.

Lemma X15_witness_two_students :
  (exists stats,
     subject_stats two_students (Some DEFAULT_4_0_SCALE) = Ok stats
     /\ Forall (fun e => ss_pass_rate e == 100) stats)
  /\ (exists stats,
        subject_stats two_students (Some DEFAULT_100_SCALE) = Ok stats
        /\ Forall (fun e => ss_pass_rate e == 0) stats).
Proof.
  destruct (X15_subject_pass_thresholds two_students) as [H4 H100];
    [reflexivity|reflexivity|reflexivity|].
  split.
  - apply H4. repeat constructor; discriminate.
  - apply H100. repeat constructor.
Defined.

End SubjectEntries.

(** ** The leaderboard, entry by entry *)

Section StudentEntry.

Local Open Scope string_scope.

Variable df : DataFrame.
Variable scale : option GradeScale.

(** The fields of the entry of one student. *)
Lemma student_entry_fields (sid : string) (e : StudentInfo) :
  student_entry df scale sid = Ok e ->
  si_student_id e = sid
  /\ si_courses_count e = List.length (rows (where_eq student_id sid df))
  /\ si_total_credits e
     = (if has CreditHours (where_eq student_id sid df)
        then sum (map credit_hours (rows (where_eq student_id sid df)))
        else 0)
  /\ (has Name (where_eq student_id sid df) = true ->
      exists r rs,
        rows (where_eq student_id sid df) = r :: rs /\ si_name e = name r)
  /\ (has Department (where_eq student_id sid df) = true ->
      exists r rs,
        rows (where_eq student_id sid df) = r :: rs
        /\ si_department e = department r)
  /\ (has Semester (where_eq student_id sid df) = true ->
      exists r rs,
        rows (where_eq student_id sid df) = r :: rs
        /\ si_semester e = semester r).
Proof.
  unfold student_entry, first_or_unknown. cbv zeta.
  repeat match goal with
         | |- bind ?x _ = Ok _ -> _ =>
             destruct x eqn:?; cbn [bind]; [|discriminate]
         end.
  intros [= <-].
  cbn [si_student_id si_courses_count si_total_credits si_name si_department
       si_semester].
  repeat split; intro Hcol;
    match goal with
    | H : (if ?c then _ else _) = Ok ?v |- exists r rs, _ /\ ?v = _ =>
        rewrite Hcol in H;
        destruct (rows (where_eq student_id sid df)) as [|r rs];
        [discriminate H|]; cbn [iloc0 bind] in H; injection H as <-;
        exists r, rs; split; reflexivity
    end.
Qed.

(** The value [_calculate_student_gpa] returns is already rounded to 3
    decimals. *)
Lemma student_gpa_rounded (records : DataFrame) (sc : GradeScale) :
  round (_calculate_student_gpa records sc) 3
  == _calculate_student_gpa records sc.
Proof.
  unfold _calculate_student_gpa.
  destruct (empty records || negb (has Marks records)
            || negb (has CreditHours records)).
  - vm_compute. reflexivity.
  - unfold gpa_result. destruct (gpa_loop sc _) as [tp tc].
    destruct (Qeq_bool tc 0).
    + vm_compute. reflexivity.
    + now rewrite round_round.
Qed.

End StudentEntry.

Module LeaderboardEntries.

Import Examples.
Local Open Scope string_scope.

(** X16: on a frame that carries StudentID, Name, Department, Semester,
    Marks and CreditHours, every entry that top_n_students returns with a
    scale describes one student of the frame: its gpa equals the GPA that
    _calculate_student_gpa computes from the rows of the student (the
    second rounding changes nothing), its name, department and semester are
    those of the student's first row, total_credits is the sum of the
    student's credit hours and courses_count the number of the student's
    rows, which is at least 1. *)
Theorem X16_leaderboard_entry_fields (df : DataFrame) (n : Z)
  (sc : GradeScale) :
  has StudentID df = true -> has Name df = true ->
  has Department df = true -> has Semester df = true ->
  has Marks df = true -> has CreditHours df = true ->
  exists entries,
    top_n_students df n (Some sc) = Ok entries
    /\ Forall (fun e =>
                 exists r rs,
                   rows (where_eq student_id (si_student_id e) df) = r :: rs
                   /\ si_gpa e
                      == _calculate_student_gpa
                           (where_eq student_id (si_student_id e) df) sc
                   /\ si_name e = name r
                   /\ si_department e = department r
                   /\ si_semester e = semester r
                   /\ si_total_credits e = sum (map credit_hours (r :: rs))
                   /\ si_courses_count e = List.length (r :: rs)) entries.
Proof.
  intros Hs Hn Hd Hse Hm Hc.
  destruct (top_n_students_returns df n (Some sc)) as (gpas & E & F).
  eexists. split; [exact E|].
  apply Forall_slice_to.
  eapply Permutation_Forall; [apply sort_desc_perm|].
  eapply Forall2_right; [|exact F].
  intros sid e [He Hid].
  destruct (student_entry_fields df (Some sc) sid e He)
    as (_ & Hcount & Hcred & Hname & Hdept & Hsem).
  pose proof (student_entry_gpa df sc sid e Hm Hc He) as Hg.
  change (has CreditHours (where_eq student_id sid df))
    with (has CreditHours df) in Hcred.
  rewrite Hc in Hcred.
  destruct (Hname Hn) as (r & rs & Er & Hnm).
  destruct (Hdept Hd) as (r1 & rs1 & Er1 & Hdp).
  destruct (Hsem Hse) as (r2 & rs2 & Er2 & Hsm).
  rewrite Er in Er1, Er2. injection Er1 as <- <-. injection Er2 as <- <-.
  rewrite Hid. exists r, rs. split; [exact Er|].
  split; [rewrite Hg; apply student_gpa_rounded|].
  rewrite <- Er. repeat split; assumption.
Qed.

Lemma X16_witness_two_students :
  exists entries,
    top_n_students two_students 10 (Some DEFAULT_4_0_SCALE) = Ok entries
    /\ Forall (fun e =>
                 exists r rs,
                   rows (where_eq student_id (si_student_id e) two_students)
                   = r :: rs
                   /\ si_gpa e
                      == _calculate_student_gpa
                           (where_eq student_id (si_student_id e) two_students)
                           DEFAULT_4_0_SCALE
                   /\ si_name e = name r
                   /\ si_department e = department r
                   /\ si_semester e = semester r
                   /\ si_total_credits e = sum (map credit_hours (r :: rs))
                   /\ si_courses_count e = List.length (r :: rs)) entries.
Proof.
  apply (X16_leaderboard_entry_fields two_students 10 DEFAULT_4_0_SCALE);
    reflexivity.
Defined.

(** X17: when n is at least the number of distinct students, the
    leaderboard accounts for every row of a frame with a StudentID column:
    the courses_count fields of the entries add up to the number of rows. *)
Theorem X17_leaderboard_counts_every_row (df : DataFrame) (n : Z)
  (scale : option GradeScale) :
  has StudentID df = true ->
  (Z.of_nat (List.length (students df)) <= n)%Z ->
  exists entries,
    top_n_students df n scale = Ok entries
    /\ list_sum (map si_courses_count entries) = List.length (rows df).
Proof.
  intros Hs Hn.
  destruct (top_n_students_returns df n scale) as (gpas & E & F).
  eexists. split; [exact E|].
  assert (Hlen : List.length gpas = List.length (students df))
    by (symmetry; eapply Forall2_length; exact F).
  assert (Hall : slice_to n (sort_desc si_gpa gpas) = sort_desc si_gpa gpas).
  { unfold slice_to.
    assert (H0 : (0 <=? n)%Z = true) by (apply Z.leb_le; lia).
    rewrite H0. apply firstn_all2.
    rewrite <- (Permutation_length (sort_desc_perm si_gpa gpas)). lia. }
  rewrite Hall.
  rewrite <- (list_sum_perm _ _
                (Permutation_map si_courses_count
                   (sort_desc_perm si_gpa gpas))).
  unfold students in F. rewrite Hs in F.
  rewrite <- (group_sizes student_id (rows df)
                (unique (map student_id (rows df)))).
  - f_equal.
    assert (Ht : Forall2 (fun sid e =>
                            si_courses_count e
                            = List.length
                                (filter
                                   (fun r => String.eqb (student_id r) sid)
                                   (rows df)))
                   (unique (map student_id (rows df))) gpas).
    { eapply Forall2_impl; [|exact F]. intros sid e [He _].
      now destruct (student_entry_fields df scale sid e He) as (_ & Hk & _). }
    clear -Ht. induction Ht as [|sid e ss es Hk _ IH]; [reflexivity|].
    cbn [map]. now rewrite Hk, IH.
  - apply unique_NoDup.
  - intros r Hr. apply unique_In. now apply in_map.
Qed.

Lemma X17_witness_two_students :
  exists entries,
    top_n_students two_students 10 None = Ok entries
    /\ list_sum (map si_courses_count entries) = 2%nat.
Proof.
  apply (X17_leaderboard_counts_every_row two_students 10 None);
    [reflexivity|].
  vm_compute. discriminate.
Defined.

End LeaderboardEntries.

(** ** The cohort summary *)

Section CohortBlocks.

Local Open Scope string_scope.

Variable np_std : list Q -> Q.
Variable pd_std : list Q -> option Q.
Variable df : DataFrame.
Variable scale : option GradeScale.

(** With a StudentID column the loops over the students return. *)
Lemma gpa_statistics_returns :
  has StudentID df = true ->
  exists stats, gpa_statistics np_std pd_std df scale = Ok stats.
Proof.
  intro Hs. unfold gpa_statistics, per_student_gpas. rewrite Hs.
  destruct scale; [|eauto].
  destruct (has Marks df && has CreditHours df); [|eauto].
  cbn [bind]. destruct (map _ _); eauto.
Qed.

Lemma passing_students_returns :
  has StudentID df = true ->
  exists passing,
    passing_students df scale = Ok passing
    /\ match passing with
       | Some k => (k <= nunique (map student_id (rows df)))%nat
                   /\ has Marks df = true
       | None => has Marks df = false
       end.
Proof.
  intro Hs. unfold passing_students, per_student_gpas, per_student_means.
  rewrite Hs.
  destruct scale; destruct (has Marks df); cbn [bind];
    eexists; (split; [reflexivity|]); try reflexivity;
    (split; [|reflexivity]);
    (etransitivity; [apply count_at_least_le|]);
    rewrite length_map; reflexivity.
Qed.

(** What [cohort_summary] returns once both blocks have returned. *)
Lemma cohort_summary_of_blocks (stats : Q * Q * option Q)
  (passing : option nat) :
  empty df = false ->
  gpa_statistics np_std pd_std df scale = Ok stats ->
  passing_students df scale = Ok passing ->
  cohort_summary np_std pd_std df scale
  = Ok (mkCohortSummary
          (if has StudentID df then nunique (map student_id (rows df))
           else 0%nat)
          (if has CourseCode df then nunique (map course_code (rows df))
           else 0%nat)
          (round (fst (fst stats)) 3) (round (snd (fst stats)) 3)
          (round match passing with
                 | Some k =>
                     rate k (if has StudentID df
                             then nunique (map student_id (rows df))
                             else 0%nat)
                 | None => 0.0
                 end 2)
          match passing with
          | Some k =>
              (Z.of_nat (if has StudentID df
                         then nunique (map student_id (rows df))
                         else 0%nat) - Z.of_nat k)%Z
          | None =>
              Z.of_nat (if has StudentID df
                        then nunique (map student_id (rows df))
                        else 0%nat)
          end
          (round_std (snd stats))
          (round (if has CreditHours df
                  then sum (map credit_hours (rows df)) else 0.0) 1)).
Proof.
  intros He Hg Hp. unfold cohort_summary. rewrite He, Hg, Hp.
  destruct stats as [[a m] s]. destruct passing; reflexivity.
Qed.

End CohortBlocks.

Module Cohort.

Import Examples.
Local Open Scope string_scope.

Section WithDeviation.

Variable np_std : list Q -> Q.
Variable pd_std : list Q -> option Q.

(** X18: cohort_summary returns a summary exactly when the frame is empty,
    or has no Marks column, or has a StudentID column.  On a non-empty
    frame with Marks and without StudentID it raises ValueError with the
    message "Error computing cohort summary: 'StudentID'", with or without a
    scale: the guard on the StudentID column covers the count of students,
    not the loops over them. *)
Theorem X18_cohort_summary_returns_iff (df : DataFrame)
  (scale : option GradeScale) :
  ((exists s, cohort_summary np_std pd_std df scale = Ok s)
   <-> empty df = true \/ has Marks df = false \/ has StudentID df = true)
  /\ (empty df = false /\ has Marks df = true /\ has StudentID df = false ->
      cohort_summary np_std pd_std df scale
      = Raise "Error computing cohort summary: 'StudentID'").
Proof.
  assert (R : empty df = false -> has Marks df = true ->
              has StudentID df = false ->
              cohort_summary np_std pd_std df scale
              = Raise "Error computing cohort summary: 'StudentID'").
  { intros He Hm Hs.
    unfold cohort_summary, gpa_statistics, passing_students,
      per_student_gpas, per_student_means.
    rewrite He, Hm, Hs.
    destruct scale; destruct (has CreditHours df); reflexivity. }
  split; [|intros (He & Hm & Hs); now apply R].
  split.
  - intros [s E].
    destruct (empty df) eqn:He; [now left|].
    destruct (has Marks df) eqn:Hm; [|right; now left].
    destruct (has StudentID df) eqn:Hs; [right; now right|].
    rewrite (R eq_refl eq_refl eq_refl) in E. discriminate.
  - intro H. destruct (empty df) eqn:He.
    { unfold cohort_summary. rewrite He. eexists. reflexivity. }
    destruct (has StudentID df) eqn:Hs.
    + destruct (gpa_statistics_returns np_std pd_std df scale Hs)
        as (stats & Hg).
      destruct (passing_students_returns df scale Hs) as (passing & Hp & _).
      rewrite (cohort_summary_of_blocks np_std pd_std df scale stats passing
                 He Hg Hp).
      eauto.
    + destruct H as [H|[H|H]]; try discriminate.
      unfold cohort_summary, gpa_statistics, passing_students.
      rewrite He, H. destruct scale; cbn; eauto.
Qed.

(** X19: on a non-empty frame with a StudentID column, cohort_summary
    returns a summary in which total_students is the number of distinct
    student ids and is at least 1, pass_rate lies between 0 and 100, and
    fail_count lies between 0 and total_students. *)
Theorem X19_cohort_summary_counts (df : DataFrame)
  (scale : option GradeScale) :
  empty df = false ->
  has StudentID df = true ->
  exists s,
    cohort_summary np_std pd_std df scale = Ok s
    /\ co_total_students s = nunique (map student_id (rows df))
    /\ (1 <= co_total_students s)%nat
    /\ 0 <= co_pass_rate s <= 100
    /\ (0 <= co_fail_count s <= Z.of_nat (co_total_students s))%Z.
Proof.
  intros He Hs.
  destruct (gpa_statistics_returns np_std pd_std df scale Hs) as (stats & Hg).
  destruct (passing_students_returns df scale Hs) as (passing & Hp & Hk).
  rewrite (cohort_summary_of_blocks np_std pd_std df scale stats passing
             He Hg Hp).
  rewrite Hs. eexists. split; [reflexivity|].
  cbn [co_total_students co_pass_rate co_fail_count].
  split; [reflexivity|]. split.
  - unfold empty in He. destruct (columns df); [discriminate|].
    destruct (rows df) as [|r rs]; [discriminate|].
    unfold nunique. simpl. lia.
  - destruct passing as [k|].
    + destruct Hk as [Hk _]. split; [|lia].
      apply (round_bounds _ 2 0 100); now apply rate_range.
    + split; [|lia]. vm_compute. split; discriminate.
Qed.

(** X20: with a scale whose passing grade earns more than 0 points, on a
    non-empty frame that carries StudentID and Marks and no CreditHours
    column, cohort_summary reports the marks proxy as average_gpa (mean
    mark / 25) and yet counts every student as failing: pass_rate is 0 and
    fail_count equals total_students, because the pass loop takes each
    student's GPA from _calculate_student_gpa, which is 0.0 without a
    CreditHours column. *)
Theorem X20_cohort_without_credit_hours (df : DataFrame) (sc : GradeScale) :
  empty df = false ->
  has StudentID df = true ->
  has Marks df = true ->
  has CreditHours df = false ->
  0 < grade_to_points sc (passing_grade sc) ->
  exists s,
    cohort_summary np_std pd_std df (Some sc) = Ok s
    /\ co_average_gpa s = round (mean (map marks (rows df)) / 25) 3
    /\ co_pass_rate s == 0
    /\ co_fail_count s = Z.of_nat (co_total_students s).
Proof.
  intros He Hs Hm Hc Hpos.
  assert (Hg : gpa_statistics np_std pd_std df (Some sc)
               = Ok (mean (map marks (rows df)) / 25,
                     median (map marks (rows df)) / 25,
                     match pd_std (map marks (rows df)) with
                     | Some s => Some (s / 25)
                     | None => None
                     end)).
  { unfold gpa_statistics. now rewrite Hm, Hc. }
  assert (Hp : passing_students df (Some sc) = Ok (Some 0%nat)).
  { unfold passing_students, per_student_gpas. rewrite Hm, Hs. cbn [bind].
    do 2 f_equal. apply count_at_least_none.
    apply Forall_map, Forall_forall. intros sid _.
    unfold _calculate_student_gpa.
    change (has CreditHours (where_eq student_id sid df))
      with (has CreditHours df).
    rewrite Hc, orb_true_r.
    assert (Z0 : 0.0 == 0) by reflexivity.
    rewrite Z0. exact Hpos. }
  rewrite (cohort_summary_of_blocks np_std pd_std df (Some sc) _ _ He Hg Hp).
  eexists. split; [reflexivity|].
  cbn [co_average_gpa co_pass_rate co_fail_count co_total_students fst snd].
  split; [reflexivity|]. split.
  - apply (round_integer _ 2 0). apply rate_none.
  - lia.
Qed.

End WithDeviation.

Lemma X20_witness_marks_only :
  exists s,
    cohort_summary (fun _ => 0) (fun _ => None)
      (mkFrame [StudentID; Marks]
         [mkRow "S001" "" "" "" "" "" 0 95; mkRow "S002" "" "" "" "" "" 0 85])
      (Some DEFAULT_4_0_SCALE) = Ok s
    /\ co_average_gpa s = round (mean [95; 85] / 25) 3
    /\ co_pass_rate s == 0
    /\ co_fail_count s = Z.of_nat (co_total_students s).
Proof.
  apply (X20_cohort_without_credit_hours (fun _ => 0) (fun _ => None)
           (mkFrame [StudentID; Marks]
              [mkRow "S001" "" "" "" "" "" 0 95;
               mkRow "S002" "" "" "" "" "" 0 85])
           DEFAULT_4_0_SCALE); reflexivity.
Defined.

Lemma X19_witness_two_students :
  exists s,
    cohort_summary (fun _ => 0) (fun _ => None) two_students
      (Some DEFAULT_4_0_SCALE) = Ok s
    /\ co_total_students s = 2%nat
    /\ 0 <= co_pass_rate s <= 100.
Proof.
  destruct (X19_cohort_summary_counts (fun _ => 0) (fun _ => None)
              two_students (Some DEFAULT_4_0_SCALE))
    as (s & E & Ht & _ & Hp & _); [reflexivity|reflexivity|].
  exists s. repeat split; try assumption; apply Hp.
Defined.

End Cohort.

(** ** Departments, semesters and trends *)

Section GroupedViews.

Local Open Scope string_scope.

Lemma unique_const (d : string) (l : list string) :
  l <> [] -> Forall (fun x => x = d) l -> unique l = [d].
Proof.
  intros Hne H. induction H as [|x l -> _ IH]; [congruence|].
  cbn [unique]. destruct l as [|y l].
  - reflexivity.
  - rewrite IH by discriminate. cbn [filter].
    now rewrite String.eqb_refl.
Qed.

Lemma where_eq_all (sel : Row -> string) (d : string) (df : DataFrame) :
  Forall (fun r => sel r = d) (rows df) -> where_eq sel d df = df.
Proof.
  intro H. unfold where_eq. rewrite forallb_filter_id.
  - now destruct df.
  - apply forallb_forall. rewrite Forall_forall in H.
    intros r Hr. apply String.eqb_eq. now apply H.
Qed.

Lemma unique_nonempty (l : list string) : l <> [] -> unique l <> [].
Proof. destruct l; [congruence|discriminate]. Qed.

Lemma nonempty_rows (df : DataFrame) : empty df = false -> rows df <> [].
Proof.
  unfold empty. destruct (columns df); [discriminate|].
  destruct (rows df); [discriminate|discriminate].
Qed.

Lemma average_median_gpa_returns (df : DataFrame)
  (scale : option GradeScale) :
  has StudentID df = true ->
  exists am, average_median_gpa df scale = Ok am.
Proof.
  intro Hs. unfold average_median_gpa, per_student_gpas. rewrite Hs.
  destruct scale; [|cbn; eauto].
  destruct (has Marks df && has CreditHours df); [|cbn; eauto].
  cbn [bind]. destruct (map _ _); cbn; eauto.
Qed.

(** The loop stops at the first element on which the body raises. *)
Lemma collect_first_raise {X Y} (f : X -> result Y) (exn : string)
  (xs : list X) :
  xs <> [] -> (forall x, f x = Raise exn) -> collect f xs = Raise exn.
Proof.
  intros Hne H. destruct xs as [|x xs]; [congruence|].
  cbn [collect]. now rewrite H.
Qed.

(** [sorted] puts the strings in ascending order. *)
Lemma insert_string_sorted (s : string) (l : list string) :
  Sorted (fun a b => String.compare a b <> Gt) l ->
  Sorted (fun a b => String.compare a b <> Gt) (insert_string s l).
Proof.
  induction 1 as [|x l Hl IH Hx]; cbn [insert_string].
  - repeat constructor.
  - destruct (String.compare s x) eqn:E.
    + repeat constructor; try assumption. congruence.
    + repeat constructor; try assumption. congruence.
    + constructor; [exact IH|].
      assert (Hxs : String.compare x s <> Gt).
      { rewrite String.compare_antisym, E. discriminate. }
      destruct l as [|y l]; cbn [insert_string].
      * now constructor.
      * inversion Hx; subst.
        destruct (String.compare s y); now constructor.
Qed.

Lemma sort_strings_sorted (l : list string) :
  Sorted (fun a b => String.compare a b <> Gt) (sort_strings l).
Proof.
  induction l as [|s l IH]; [constructor|].
  cbn [sort_strings fold_right]. now apply insert_string_sorted.
Qed.

Lemma insert_string_perm (s : string) (l : list string) :
  Permutation (s :: l) (insert_string s l).
Proof.
  induction l as [|x l IH]; cbn [insert_string]; [reflexivity|].
  destruct (String.compare s x); try reflexivity.
  rewrite perm_swap. now apply perm_skip.
Qed.

Lemma sort_strings_perm (l : list string) : Permutation l (sort_strings l).
Proof.
  induction l as [|s l IH]; [reflexivity|].
  cbn [sort_strings fold_right]. rewrite <- insert_string_perm.
  now apply perm_skip.
Qed.

(** Without repetitions the order is strict. *)
Lemma sorted_strict (l : list string) :
  NoDup l ->
  Sorted (fun a b => String.compare a b <> Gt) l ->
  Sorted (fun a b => String.compare a b = Lt) l.
Proof.
  intros Hnd Hs. induction Hs as [|x l Hl IH Hx]; [constructor|].
  inversion Hnd as [|? ? Hnotin Hnd']; subst.
  constructor; [now apply IH|].
  destruct Hx as [|y l Hxy]; constructor.
  destruct (String.compare x y) eqn:E; [|reflexivity|congruence].
  exfalso. apply String.compare_eq_iff in E. subst y.
  apply Hnotin. now left.
Qed.

Variable df : DataFrame.
Variable scale : option GradeScale.

(** One turn of the loop of [get_performance_trends] on a frame with a
    StudentID column. *)
Lemma trends_entry_returns (sem : string) :
  has StudentID df = true ->
  exists avg pass_rate,
    trends_entry df scale sem
    = Ok (avg, pass_rate,
          nunique (map student_id (rows (where_eq semester sem df))))
    /\ 0 <= pass_rate <= 100
    /\ (scale = None -> pass_rate == 0).
Proof.
  intro Hs. unfold trends_entry, per_student_gpas. cbv zeta.
  change (has StudentID (where_eq semester sem df)) with (has StudentID df).
  rewrite Hs.
  assert (Hz : 0 <= round 0.0 2 <= 100 /\ round 0.0 2 == 0)
    by (vm_compute; repeat split; discriminate).
  destruct scale as [sc|].
  - destruct (has Marks (where_eq semester sem df));
      destruct (has CreditHours (where_eq semester sem df));
      cbn [bind andb]; do 2 eexists;
      (split; [reflexivity|]); (split; [|discriminate]);
      try apply Hz;
      (apply (round_bounds _ 2 0 100); apply rate_range;
       (etransitivity; [apply count_at_least_le|]);
       rewrite length_map; reflexivity).
  - cbn [bind]. do 2 eexists. split; [reflexivity|]. split; [apply Hz|].
    intros _. apply Hz.
Qed.

(** One turn of the loop of [semester_analysis]. *)
Lemma semester_entry_returns (sem : string) :
  has StudentID df = true -> has CourseCode df = true ->
  exists st,
    semester_entry df scale sem = Ok (sem, st)
    /\ se_total_students st
       = nunique (map student_id (rows (where_eq semester sem df)))
    /\ se_total_courses st
       = nunique (map course_code (rows (where_eq semester sem df))).
Proof.
  intros Hs Hc. unfold semester_entry. cbv zeta.
  change (has StudentID (where_eq semester sem df)) with (has StudentID df).
  change (has CourseCode (where_eq semester sem df)) with (has CourseCode df).
  rewrite Hs, Hc.
  destruct (average_median_gpa_returns (where_eq semester sem df) scale Hs)
    as (am & Ea).
  rewrite Ea. cbn [bind]. eexists. split; [reflexivity|]. split; reflexivity.
Qed.

End GroupedViews.

Module Grouped.

Import Examples.
Local Open Scope string_scope.

Section WithDeviation.

Variable np_std : list Q -> Q.
Variable pd_std : list Q -> option Q.

(** X21: on a non-empty frame that carries Department, StudentID and
    CourseCode and whose rows all belong to one department d,
    department_analysis returns the single entry d, and its
    total_students, total_courses, average_gpa, median_gpa, gpa_std_dev and
    pass_rate are the values cohort_summary reports for the whole frame. *)
Theorem X21_single_department_matches_cohort (df : DataFrame)
  (scale : option GradeScale) (d : string) :
  empty df = false ->
  has Department df = true ->
  has StudentID df = true ->
  has CourseCode df = true ->
  Forall (fun r => department r = d) (rows df) ->
  exists s st,
    cohort_summary np_std pd_std df scale = Ok s
    /\ department_analysis np_std pd_std df scale = Ok [(d, st)]
    /\ de_total_students st = co_total_students s
    /\ de_total_courses st = co_total_courses s
    /\ de_average_gpa st = co_average_gpa s
    /\ de_median_gpa st = co_median_gpa s
    /\ de_gpa_std_dev st = co_gpa_std_dev s
    /\ de_pass_rate st = co_pass_rate s.
Proof.
  intros He Hd Hs Hc Hall.
  destruct (gpa_statistics_returns np_std pd_std df scale Hs) as (stats & Hg).
  destruct (passing_students_returns df scale Hs) as (passing & Hp & _).
  rewrite (cohort_summary_of_blocks np_std pd_std df scale stats passing
             He Hg Hp).
  unfold department_analysis. rewrite He, Hd. cbn [orb negb].
  rewrite (unique_const d).
  - cbn [collect]. unfold department_entry. cbv zeta.
    rewrite (where_eq_all department d df Hall).
    rewrite Hs, Hc, Hg, Hp. cbn [bind].
    destruct stats as [[a m] sd].
    do 2 eexists. split; [reflexivity|]. split; [reflexivity|].
    cbn [de_total_students de_total_courses de_average_gpa de_median_gpa
         de_gpa_std_dev de_pass_rate co_total_students co_total_courses
         co_average_gpa co_median_gpa co_gpa_std_dev co_pass_rate fst snd].
    destruct passing; repeat split; reflexivity.
  - pose proof (nonempty_rows df He). destruct (rows df); [congruence|].
    discriminate.
  - now apply Forall_map.
Qed.

End WithDeviation.

Lemma X21_witness_two_students :
  exists s st,
    cohort_summary (fun _ => 0) (fun _ => None) two_students None = Ok s
    /\ department_analysis (fun _ => 0) (fun _ => None) two_students None
       = Ok [("CS", st)]
    /\ de_total_students st = co_total_students s
    /\ de_total_courses st = co_total_courses s
    /\ de_average_gpa st = co_average_gpa s
    /\ de_median_gpa st = co_median_gpa s
    /\ de_gpa_std_dev st = co_gpa_std_dev s
    /\ de_pass_rate st = co_pass_rate s.
Proof.
  apply (X21_single_department_matches_cohort (fun _ => 0) (fun _ => None)
           two_students None "CS"); try reflexivity.
  repeat constructor.
Defined.

(** X22: semester_analysis returns exactly when the frame is empty, or has
    no Semester column (the result is then the empty dict), or carries both
    StudentID and CourseCode.  On a non-empty frame with a Semester column
    it raises ValueError naming the first column it misses: 'StudentID',
    or else 'CourseCode'; unlike cohort_summary it reads both columns
    without a guard. *)
Theorem X22_semester_analysis_returns_iff (df : DataFrame)
  (scale : option GradeScale) :
  ((exists res, semester_analysis df scale = Ok res)
   <-> empty df = true \/ has Semester df = false
       \/ (has StudentID df = true /\ has CourseCode df = true))
  /\ (empty df = false -> has Semester df = true ->
      has StudentID df = false ->
      semester_analysis df scale
      = Raise "Error computing semester analysis: 'StudentID'")
  /\ (empty df = false -> has Semester df = true ->
      has StudentID df = true -> has CourseCode df = false ->
      semester_analysis df scale
      = Raise "Error computing semester analysis: 'CourseCode'").
Proof.
  assert (Hne : empty df = false ->
                unique (map semester (rows df)) <> []).
  { intro He. apply unique_nonempty.
    pose proof (nonempty_rows df He). destruct (rows df); [congruence|].
    discriminate. }
  assert (R1 : empty df = false -> has Semester df = true ->
               has StudentID df = false ->
               semester_analysis df scale
               = Raise "Error computing semester analysis: 'StudentID'").
  { intros He Hse Hs. unfold semester_analysis. rewrite He, Hse.
    cbn [orb negb].
    rewrite (collect_first_raise _ "'StudentID'"); [reflexivity|auto|].
    intro sem. unfold semester_entry. cbv zeta.
    change (has StudentID (where_eq semester sem df)) with (has StudentID df).
    now rewrite Hs. }
  assert (R2 : empty df = false -> has Semester df = true ->
               has StudentID df = true -> has CourseCode df = false ->
               semester_analysis df scale
               = Raise "Error computing semester analysis: 'CourseCode'").
  { intros He Hse Hs Hc. unfold semester_analysis. rewrite He, Hse.
    cbn [orb negb].
    rewrite (collect_first_raise _ "'CourseCode'"); [reflexivity|auto|].
    intro sem. unfold semester_entry. cbv zeta.
    change (has StudentID (where_eq semester sem df)) with (has StudentID df).
    change (has CourseCode (where_eq semester sem df))
      with (has CourseCode df).
    now rewrite Hs, Hc. }
  split; [|split; assumption].
  split.
  - intros [res E].
    destruct (empty df) eqn:He; [now left|].
    destruct (has Semester df) eqn:Hse; [|right; now left].
    destruct (has StudentID df) eqn:Hs;
      [|rewrite (R1 eq_refl eq_refl eq_refl) in E; discriminate].
    destruct (has CourseCode df) eqn:Hc;
      [|rewrite (R2 eq_refl eq_refl eq_refl eq_refl) in E; discriminate].
    right. right. now split.
  - intro H. unfold semester_analysis.
    destruct (empty df) eqn:He; [eexists; reflexivity|].
    destruct (has Semester df) eqn:Hse; [|eexists; reflexivity].
    destruct H as [H|[H|[Hs Hc]]]; try discriminate.
    cbn [orb negb].
    destruct (collect_Forall2 (semester_entry df scale) (fun _ _ => True)
                (unique (map semester (rows df)))) as (ys & Eys & _).
    { intros sem _.
      destruct (semester_entry_returns df scale sem Hs Hc) as (st & Est & _).
      eauto. }
    rewrite Eys. eexists. reflexivity.
Qed.

(** X23: on a non-empty frame that carries Semester and StudentID,
    get_performance_trends returns a dict whose 'semesters' are the
    distinct semesters of the frame in strictly ascending string order, and
    whose three other lists have one value per semester; every pass rate
    lies between 0 and 100 and every student count is at least 1. *)
Theorem X23_performance_trends_shape (df : DataFrame)
  (scale : option GradeScale) :
  empty df = false ->
  has Semester df = true ->
  has StudentID df = true ->
  exists t,
    get_performance_trends df scale = Ok (Some t)
    /\ Sorted (fun a b => String.compare a b = Lt) (tr_semesters t)
    /\ (forall s, In s (tr_semesters t) <-> In s (map semester (rows df)))
    /\ List.length (tr_average_gpa_by_semester t)
       = List.length (tr_semesters t)
    /\ List.length (tr_pass_rate_by_semester t)
       = List.length (tr_semesters t)
    /\ List.length (tr_total_students_by_semester t)
       = List.length (tr_semesters t)
    /\ Forall (fun p => 0 <= p <= 100) (tr_pass_rate_by_semester t)
    /\ Forall (fun k => (1 <= k)%nat) (tr_total_students_by_semester t).
Proof.
  intros He Hse Hs. unfold get_performance_trends. rewrite He, Hse.
  cbn [orb negb]. cbv zeta.
  destruct (collect_Forall2 (trends_entry df scale)
              (fun sem v =>
                 0 <= snd (fst v) <= 100
                 /\ snd v
                    = nunique (map student_id
                                 (rows (where_eq semester sem df))))
              (sort_strings (unique (map semester (rows df)))))
    as (vs & Ev & Fv).
  { intros sem _.
    destruct (trends_entry_returns df scale sem Hs)
      as (avg & pr & E & Hr & _).
    eexists. split; [exact E|]. cbn [fst snd]. auto. }
  rewrite Ev. cbn [bind reraise_as]. eexists. split; [reflexivity|].
  cbn [tr_semesters tr_average_gpa_by_semester tr_pass_rate_by_semester
       tr_total_students_by_semester].
  pose proof (Forall2_length Fv) as Hlen.
  split.
  { apply sorted_strict; [|apply sort_strings_sorted].
    eapply Permutation_NoDup; [apply sort_strings_perm|apply unique_NoDup]. }
  split.
  { intro s. now rewrite sort_strings_In, unique_In. }
  rewrite !length_map.
  split; [now symmetry|]. split; [now symmetry|]. split; [now symmetry|].
  split.
  - apply Forall_map. eapply Forall2_right; [|exact Fv].
    now intros sem v [Hr _].
  - apply Forall_map.
    eapply (Forall2_right
              (fun sem v =>
                 In sem (sort_strings (unique (map semester (rows df))))
                 /\ snd v
                    = nunique (map student_id
                                 (rows (where_eq semester sem df)))));
      [|eapply Forall2_impl_In; [|exact Fv];
        intros sem v Hin [_ Hn]; now split].
    intros sem v [Hin Hn]. rewrite Hn.
    rewrite sort_strings_In, unique_In in Hin.
    destruct (where_eq_rows semester sem df Hin) as (r & rs & Er).
    rewrite Er. unfold nunique. simpl. lia.
Qed.

Lemma X23_witness_two_students :
  exists t,
    get_performance_trends two_students (Some DEFAULT_4_0_SCALE) = Ok (Some t)
    /\ Sorted (fun a b => String.compare a b = Lt) (tr_semesters t)
    /\ List.length (tr_pass_rate_by_semester t)
       = List.length (tr_semesters t).
Proof.
  destruct (X23_performance_trends_shape two_students
              (Some DEFAULT_4_0_SCALE))
    as (t & E & S & _ & _ & L & _); [reflexivity|reflexivity|reflexivity|].
  exists t. repeat split; assumption.
Defined.

(** X24: without a scale get_performance_trends reports the pass rate 0
    for every semester, whatever the marks are: the marks proxy (a mean
    mark of at least 60) that cohort_summary falls back to is not used
    here. *)
Theorem X24_trends_without_scale_pass_rate (df : DataFrame) :
  empty df = false ->
  has Semester df = true ->
  has StudentID df = true ->
  exists t,
    get_performance_trends df None = Ok (Some t)
    /\ Forall (fun p => p == 0) (tr_pass_rate_by_semester t).
Proof.
  intros He Hse Hs. unfold get_performance_trends. rewrite He, Hse.
  cbn [orb negb]. cbv zeta.
  destruct (collect_Forall2 (trends_entry df None)
              (fun sem v => snd (fst v) == 0)
              (sort_strings (unique (map semester (rows df)))))
    as (vs & Ev & Fv).
  { intros sem _.
    destruct (trends_entry_returns df None sem Hs)
      as (avg & pr & E & _ & Hz).
    eexists. split; [exact E|]. cbn [fst snd]. now apply Hz. }
  rewrite Ev. cbn [bind reraise_as]. eexists. split; [reflexivity|].
  cbn [tr_pass_rate_by_semester].
  apply Forall_map. eapply Forall2_right; [|exact Fv]. now intros sem v Hv.
Qed.

Lemma X24_witness_two_students :
  exists t,
    get_performance_trends two_students None = Ok (Some t)
    /\ Forall (fun p => p == 0) (tr_pass_rate_by_semester t).
Proof.
  apply (X24_trends_without_scale_pass_rate two_students); reflexivity.
Defined.

End Grouped.

(** ** The header of the CSV *)

Module HeaderChecks.

Local Open Scope string_scope.

Section OnAsciiText.

Variable py_lower : string -> string.
Variable py_strip : string -> string.

Hypothesis lower_ascii :
  forall s, is_ascii s = true -> py_lower s = ascii_lower s.
Hypothesis strip_ascii :
  forall s, is_ascii s = true -> py_strip s = strip s.

(** A label that cleans to the lower-case form of a required column is
    renamed to that column. *)
Lemma column_mapping_required (R col : string) :
  In R REQUIRED_COLUMNS ->
  py_lower (py_strip col) = py_lower R ->
  column_mapping py_lower py_strip col = Some R.
Proof.
  intros HR E. unfold column_mapping. cbv zeta. rewrite E.
  unfold REQUIRED_COLUMNS in HR. unfold REQUIRED_COLUMNS, COLUMN_MAPPINGS.
  cbn [find fst].
  repeat destruct HR as [<-|HR]; try destruct HR;
    rewrite !lower_ascii by reflexivity; reflexivity.
Qed.

(** The names the renaming produces. *)
Lemma column_mapping_image (col n : string) :
  column_mapping py_lower py_strip col = Some n ->
  In n (REQUIRED_COLUMNS ++ ["Grade"; "GPA"])%list.
Proof.
  unfold column_mapping. cbv zeta.
  destruct (find _ COLUMN_MAPPINGS) as [[k s]|] eqn:Ef.
  - intros [= <-]. apply find_some in Ef. destruct Ef as [Hin _].
    unfold COLUMN_MAPPINGS in Hin.
    repeat destruct Hin as [[= <- <-]|Hin]; try destruct Hin;
      cbn; tauto.
  - intro Er. apply find_some in Er. destruct Er as [Hin _].
    apply in_or_app. now left.
Qed.

(** A name the renaming produces is renamed to itself. *)
Lemma column_mapping_fixed (n : string) :
  In n (REQUIRED_COLUMNS ++ ["Grade"; "GPA"])%list ->
  column_mapping py_lower py_strip n = Some n.
Proof.
  intro Hin. unfold column_mapping. cbv zeta.
  unfold REQUIRED_COLUMNS in Hin. cbn [app] in Hin.
  unfold REQUIRED_COLUMNS, COLUMN_MAPPINGS. cbn [find fst].
  repeat destruct Hin as [<-|Hin]; try destruct Hin;
    rewrite strip_ascii by reflexivity;
    rewrite !lower_ascii by reflexivity; reflexivity.
Qed.

(** X25: when validate_csv_columns accepts the header of a frame, the
    header that normalize_column_names produces holds each of the eight
    required column names in its canonical spelling. *)
Theorem X25_validated_header_normalizes (py_upper : string -> string)
  (columns : list string) (n_rows : nat) :
  validate_csv_columns py_lower py_upper py_strip columns n_rows = Ok tt ->
  forall R, In R REQUIRED_COLUMNS ->
            In R (normalize_column_names py_lower py_strip columns).
Proof.
  unfold validate_csv_columns. cbv zeta.
  destruct (header_empty columns n_rows); [discriminate|].
  destruct (flat_map _ _) eqn:Ef; [|discriminate].
  intros _ R HR.
  rewrite flat_map_nil in Ef.
  specialize (Ef (py_lower R) (in_map py_lower _ _ HR)).
  destruct (existsb _ _) eqn:Ex; [|discriminate].
  apply existsb_exists in Ex. destruct Ex as (c & Hc & Ec).
  apply String.eqb_eq in Ec. subst c.
  apply in_map_iff in Hc. destruct Hc as (col & Ecol & Hcol).
  unfold normalize_column_names. apply in_map_iff. exists col.
  split; [|exact Hcol].
  now rewrite (column_mapping_required R col HR Ecol).
Qed.

(** X26: normalize_column_names is idempotent on the labels: renaming a
    header that has been renamed changes nothing. *)
Theorem X26_normalize_column_names_idempotent (columns : list string) :
  normalize_column_names py_lower py_strip
    (normalize_column_names py_lower py_strip columns)
  = normalize_column_names py_lower py_strip columns.
Proof.
  unfold normalize_column_names. rewrite map_map. apply map_ext.
  intro col. destruct (column_mapping py_lower py_strip col) as [n|] eqn:E.
  - apply column_mapping_image in E.
    now rewrite (column_mapping_fixed n E).
  - now rewrite E.
Qed.

End OnAsciiText.

Lemma X25_witness_upper_case_header :
  Forall (fun R =>
            In R (normalize_column_names ascii_lower strip
                    ["STUDENTID"; " name "; "department"; "Semester";
                     "coursecode"; "COURSENAME"; "credithours"; "marks"]))
    REQUIRED_COLUMNS.
Proof.
  apply Forall_forall.
  apply (X25_validated_header_normalizes ascii_lower strip
           (fun s _ => eq_refl) (fun s => s)
           ["STUDENTID"; " name "; "department"; "Semester";
            "coursecode"; "COURSENAME"; "credithours"; "marks"] 1).
  reflexivity.
Defined.

Lemma X26_witness_alias_header :
  normalize_column_names ascii_lower strip
    (normalize_column_names ascii_lower strip
       ["student_id"; "Credits"; "remarks"])
  = normalize_column_names ascii_lower strip
      ["student_id"; "Credits"; "remarks"].
Proof.
  apply (X26_normalize_column_names_idempotent ascii_lower strip
           (fun s _ => eq_refl) (fun s _ => eq_refl)).
Defined.

End HeaderChecks.

(** ** The frame [coerce_data_types] hands on *)

Section ColumnFacts.









End ColumnFacts.

Module TypedOutput.

Local Open Scope string_scope.

Section WithParsers.

Variable parse_number : string -> option Q.
Variable str_of_number : Q -> string.


End WithParsers.

End TypedOutput.

(** ** The numeric validators of the record models *)

Module Validators.

Local Open Scope string_scope.



End Validators.

(** ** Reloading an exported scale *)

Module Reload.

Local Open Scope string_scope.

Lemma kind_is_list_dec (gb : string * bound) :
  {kind (snd gb) = PyList} + {kind (snd gb) <> PyList}.
Proof.
  destruct (kind (snd gb)); [right; discriminate|left; reflexivity].
Qed.

(** X29: from_yaml rebuilds a scale from the export of a scale exactly
    when every boundary pair of the scale is a list; no scale that holds a
    tuple can be reloaded.  The rebuilt scale has the scale_type and the
    passing_grade of the original, and both tables with their items in the
    order of the keys, as yaml.dump writes them. *)
Theorem X29_round_trip_iff_list_bounds (s : GradeScale) :
  ((exists loaded, from_yaml (export_config s) = Ok loaded)
   <-> Forall (fun gb => kind (snd gb) = PyList) (grade_boundaries s))
  /\ (forall loaded,
        from_yaml (export_config s) = Ok loaded ->
        scale_type loaded = scale_type s
        /\ passing_grade loaded = passing_grade s
        /\ grade_mappings loaded = sort_keys (grade_mappings s)
        /\ grade_boundaries loaded = sort_keys (grade_boundaries s)).
Proof.
  assert (D : forall loaded,
             from_yaml (export_config s) = Ok loaded ->
             Forall (fun gb => kind (snd gb) = PyList) (grade_boundaries s)).
  { intros loaded E.
    destruct (Forall_Exists_dec (fun gb : string * bound =>
                                   kind (snd gb) = PyList)
                kind_is_list_dec (grade_boundaries s)) as [F|Ex];
      [exact F|].
    exfalso. apply Exists_exists in Ex. destruct Ex as ([g b] & Hin & Hk).
    rewrite (RoundTrip.round_trip_raises_on_tuples s) in E; [discriminate|].
    exists g, b. split; [exact Hin|].
    cbn [snd] in Hk. destruct (kind b); [reflexivity|congruence]. }
  split.
  - split.
    + intros [loaded E]. now apply (D loaded).
    + intro F. rewrite (RoundTrip.round_trip_of_list_scale s F). eauto.
  - intros loaded E.
    rewrite (RoundTrip.round_trip_of_list_scale s (D loaded E)) in E.
    injection E as <-. repeat split.
Qed.

End Reload.
